(** * DataverseV1: shape normalisation, schema diff and the upload pipeline

    A shallow embedding of
    - [backend/app/etl/extract/file_handlers.py]  (module [FileHandlers]),
    - [backend/app/utils/mongo_sanitize.py]       (module [MongoSanitize]),
    - [backend/app/services/schema_diff_service.py] (module [SchemaDiff]),
    - [backend/app/services/dynamic_etl_adapter.py] (module [DynamicEtl]),
    followed by the properties proved about them. *)

From Stdlib Require Import List ZArith Lia Bool String Ascii Permutation.
Import ListNotations.
Set Warnings "-register-all".
Open Scope string_scope.
Open Scope list_scope.
Open Scope Z_scope.

(* ===================================================================== *)
(** * Python values shared by the modules                                 *)
(* ===================================================================== *)

Module Py.

(** Exceptions.  Every constructor stands for a subclass of [Exception]
    (what [except Exception] catches). *)
Inductive exn : Type :=
| TypeError (msg : string)
| ValueError (msg : string)
| AttributeError (msg : string)
| OSError (msg : string)
| OtherError (msg : string).

(** The result of running a piece of Python: a value or a raised exception. *)
Inductive outcome (A : Type) : Type :=
| Ret (a : A)
| Raise (e : exn).
Arguments Ret {A} a.
Arguments Raise {A} e.

Definition bind {A B} (m : outcome A) (k : A -> outcome B) : outcome B :=
  match m with
  | Ret a => k a
  | Raise e => Raise e
  end.

(** [str(e)] *)
Definition exn_msg (e : exn) : string :=
  match e with
  | TypeError m | ValueError m | AttributeError m | OSError m
  | OtherError m => m
  end.

(** What a module's [logger] has been given so far. *)
Inductive level : Type := ERROR | WARNING | INFO.

Definition log := list (level * string).

Section MapM.
Context {A B : Type} (f : A -> outcome B).

(** [[f(v) for v in l]] where [f] may raise: left to right, the first
    exception ends the loop. *)
Fixpoint mapM (l : list A) : outcome (list B) :=
  match l with
  | [] => Ret []
  | a :: r =>
      match f a with
      | Raise e => Raise e
      | Ret b => match mapM r with
                 | Raise e => Raise e
                 | Ret bs => Ret (b :: bs)
                 end
      end
  end.

End MapM.

(** A Python [float]: an IEEE double, as not-a-number, an infinity, or the
    finite value [m * 2^e].  The code below never computes with floats; it
    only moves and compares them. *)
Inductive pyfloat : Type :=
| FNan
| FInf (negative : bool)
| FFin (m e : Z).

(** Values decoded from JSON documents ([json.load], stored schema
    documents): [None], [bool], [int], [float], [str], [list], and [dict]
    with string keys, kept in insertion order. *)
Inductive json : Type :=
| JNull
| JBool (b : bool)
| JInt (z : Z)
| JFloat (f : pyfloat)
| JStr (s : string)
| JList (l : list json)
| JDict (d : list (string * json)).

Definition pydict := list (string * json).

Definition is_list (v : json) : bool :=
  match v with JList _ => true | _ => false end.

Definition is_dict (v : json) : bool :=
  match v with JDict _ => true | _ => false end.

(** [d.get(k)] *)
Fixpoint dict_get (k : string) (d : pydict) : option json :=
  match d with
  | [] => None
  | (k', v) :: r => if String.eqb k k' then Some v else dict_get k r
  end.

(** [d.get(k, dflt)] *)
Definition dict_get_default (k : string) (dflt : json) (d : pydict) : json :=
  match dict_get k d with
  | Some v => v
  | None => dflt
  end.

(** [d[k] = v]: an existing key keeps its position, a new one goes last. *)
Fixpoint dict_set {V : Type} (k : string) (v : V) (d : list (string * V))
  : list (string * V) :=
  match d with
  | [] => [(k, v)]
  | (k', v') :: r =>
      if String.eqb k k' then (k', v) :: r else (k', v') :: dict_set k v r
  end.


(** Truth value of a float: zero (of either sign) is false; NaN is true. *)
Definition float_truthy (f : pyfloat) : bool :=
  match f with
  | FFin m _ => negb (m =? 0)
  | _ => true
  end.

(** [bool(v)] *)
Definition truthy (v : json) : bool :=
  match v with
  | JNull => false
  | JBool b => b
  | JInt z => negb (z =? 0)
  | JFloat f => float_truthy f
  | JStr s => negb (String.eqb s EmptyString)
  | JList l => match l with [] => false | _ => true end
  | JDict d => match d with [] => false | _ => true end
  end.

(** [a or b] *)
Definition py_or (a b : json) : json := if truthy a then a else b.

(** Numbers ([bool], [int], [float]) compare by value. *)
Definition num_of (v : json) : option pyfloat :=
  match v with
  | JBool b => Some (FFin (if b then 1 else 0) 0)
  | JInt z => Some (FFin z 0)
  | JFloat f => Some f
  | _ => None
  end.

Definition float_eqb (a b : pyfloat) : bool :=
  match a, b with
  | FInf s, FInf t => Bool.eqb s t
  | FFin m e, FFin n f =>
      if e <=? f then m =? n * 2 ^ (f - e) else m * 2 ^ (e - f) =? n
  | _, _ => false
  end.

(** [a == b] on decoded JSON.  Lists compare element by element, dicts as
    maps (same size, same value under every key).  Python's containers try
    identity before [==]; that shortcut is left out.  It shows only for a
    NaN met again as the very same object, inside a list or as a dict key,
    so what is proved below of names and types is stated for values that
    are equal to themselves. *)
Fixpoint py_eq (a b : json) {struct a} : bool :=
  match num_of a, num_of b with
  | Some x, Some y => float_eqb x y
  | Some _, None => false
  | None, Some _ => false
  | None, None =>
      match a, b with
      | JNull, JNull => true
      | JStr s, JStr t => String.eqb s t
      | JList l, JList l' =>
          (fix go (l l' : list json) {struct l} : bool :=
             match l, l' with
             | [], [] => true
             | x :: r, y :: r' => py_eq x y && go r r'
             | _, _ => false
             end) l l'
      | JDict d, JDict d' =>
          Nat.eqb (List.length d) (List.length d') &&
          (fix go (d : list (string * json)) : bool :=
             match d with
             | [] => true
             | (k, x) :: r =>
                 match dict_get k d' with
                 | Some y => py_eq x y
                 | None => false
                 end && go r
             end) d
      | _, _ => false
      end
  end.

(** [len(l)] *)
Definition py_len {A} (l : list A) : Z := Z.of_nat (List.length l).

(** [a != b] *)
Definition py_ne (a b : json) : bool := negb (py_eq a b).

(** Hashable values can be dict keys and set members. *)
Definition hashable (v : json) : bool := negb (is_list v || is_dict v).

End Py.

(* ===================================================================== *)
(** * [etl/extract/file_handlers.py]                                      *)
(* ===================================================================== *)

Module FileHandlers.
Import Py.

(** ** The part of pandas the module uses *)

(** A column label: a field name, or a position when the frame is built
    from a bare sequence. *)
Inductive label : Type :=
| LStr (s : string)
| LInt (z : Z).

(** A [pandas.DataFrame]: column labels and the rows under them.  Cells
    hold the Python objects handed to the constructor.  pandas goes on to
    infer a dtype for each column and may convert the cells to it (an int
    beside a missing value becomes a float, [None] in a numeric column
    becomes [NaN]); that conversion is not modelled.  What is proved of a
    frame is therefore its labels, its number of rows, which cells are null
    and that no cell is nested; the values themselves are stated of the
    objects handed to the constructor. *)
Record DataFrame : Type := mkDF {
  columns : list label;
  rows : list (list json)
}.

(** [pd.DataFrame()] *)
Definition empty_frame : DataFrame := mkDF [] [].

(** The marker pandas writes where a record has no value for a column. *)
Definition NaN : json := JFloat FNan.

(** [pd.isna] on a scalar cell. *)
Definition is_null (v : json) : bool :=
  match v with
  | JNull => true
  | JFloat FNan => true
  | _ => false
  end.

(** [df.to_dict(orient="records")] *)
Definition to_records (df : DataFrame) : list (list (label * json)) :=
  map (fun r => combine (columns df) r) (rows df).

(** Keys of a list of records, in order of first appearance. *)
Fixpoint add_keys (ks : list string) (seen : list string) : list string :=
  match ks with
  | [] => seen
  | k :: r =>
      add_keys r (if existsb (String.eqb k) seen then seen else seen ++ [k])
  end.

Definition union_keys (recs : list pydict) : list string :=
  fold_left (fun seen r => add_keys (map fst r) seen) recs [].

(** [pd.DataFrame(records)] for a list of dicts: one row per dict, one
    column per key seen, [NaN] where a dict lacks the key. *)
Definition DataFrame_of_records (recs : list pydict) : DataFrame :=
  let cols := union_keys recs in
  mkDF (map LStr cols)
       (map (fun r => map (fun c => match dict_get c r with
                                    | Some v => v
                                    | None => NaN
                                    end) cols) recs).

(** [pd.DataFrame(mapping)] for a dict of lists: the lists are the columns
    and must all have one length. *)
Definition DataFrame_of_columns (cols : list (string * list json))
  : outcome DataFrame :=
  match cols with
  | [] => Ret empty_frame
  | (_, c0) :: _ =>
      let n := List.length c0 in
      if forallb (fun kc => Nat.eqb (List.length (snd kc)) n) cols
      then Ret (mkDF (map (fun kc => LStr (fst kc)) cols)
                     (map (fun i => map (fun kc => nth i (snd kc) JNull) cols)
                          (seq 0 n)))
      else Raise (ValueError "All arrays must be of the same length")
  end.

(** [pd.DataFrame([x])] for a scalar [x]: one row, one column labelled 0. *)
Definition DataFrame_of_scalar (x : json) : DataFrame :=
  mkDF [LInt 0] [[x]].

(** ** [safe_json_to_df] *)

(** [l * n] on lists: a count below one gives the empty list. *)
Definition list_mul {A} (l : list A) (n : Z) : list A :=
  List.concat (repeat l (Z.to_nat n)).

(** [max(xs, default=d)] *)
Definition max_default (xs : list Z) (d : Z) : Z :=
  match xs with
  | [] => d
  | x :: r => fold_left Z.max r x
  end.

Section SafeJson.

(** [json.dumps], from the Python standard library. *)
Variable json_dumps : json -> string.

(** One element of a list payload. *)
Definition normalize_item (item : json) : pydict :=
  match item with
  | JDict d =>
      fold_left
        (fun row kv =>
           let '(k, v) := kv in
           if is_dict v || is_list v
           then dict_set k (JStr (json_dumps v)) row
           else dict_set k v row)
        d []
  | _ => [("value", item)]
  end.

(** [max((len(v) for v in data.values() if isinstance(v, list)), default=1)] *)
Definition max_len (d : pydict) : Z :=
  max_default
    (flat_map (fun kv => match snd kv with
                         | JList l => [py_len l]
                         | _ => []
                         end) d)
    1.

(** The dict [cleaned] once the loop over [data.items()] has run. *)
Definition clean_columns (d : pydict) : list (string * list json) :=
  let n := max_len d in
  fold_left
    (fun cleaned kv =>
       let '(key, value) := kv in
       match value with
       | JList l => dict_set key (l ++ list_mul [JNull] (n - py_len l)) cleaned
       | _ => dict_set key ([value] ++ list_mul [JNull] (n - 1)) cleaned
       end)
    d [].

Definition safe_json_to_df (data : json) : outcome DataFrame :=
  match data with
  | JList items =>                 (* case 1: list of dicts *)
      Ret (DataFrame_of_records (map normalize_item items))
  | JDict d =>                     (* case 2: dict of arrays / single values *)
      DataFrame_of_columns (clean_columns d)
  | _ =>                           (* case 3: primitive value *)
      Ret (DataFrame_of_scalar data)
  end.

End SafeJson.

(** ** The readers *)

(** A reader runs against the log and returns or raises. *)
Definition io (A : Type) : Type := log -> outcome A * log.

(** What a reader hands back: a frame, or [None]. *)
Inductive robj : Type :=
| RFrame (df : DataFrame)
| RNone.

(** The functions the readers call and this module does not define:
    pandas' readers, [json.load] on the opened file, and the readers of
    [smart_readers.py] and [pdf_readers.py]. *)
Record Externals : Type := {
  json_dumps : json -> string;
  json_load_path : string -> outcome json;     (* open(path), json.load *)
  pd_read_html : string -> option string -> option string
                 -> outcome (list DataFrame);  (* path, flavor, parser *)
  pd_read_xml : string -> outcome DataFrame;
  pd_read_csv : string -> option string -> outcome DataFrame;  (* path, sep *)
  pd_read_excel : string -> string -> bool -> outcome DataFrame;
                                               (* path, engine, dtype=str *)
  pd_read_parquet : string -> outcome DataFrame;
  smart_read_combined : string -> outcome robj;
  read_pdf_tables : string -> outcome robj;
  read_pdf_text_ocr : string -> outcome robj
}.

Section Readers.
Context (X : Externals).

Definition read_json (path : string) : io robj :=
  fun lg =>
    match bind (json_load_path X path) (safe_json_to_df (json_dumps X)) with
    | Ret df => (Ret (RFrame df), lg)
    | Raise e =>
        (Ret (RFrame empty_frame),
         lg ++ [(ERROR, ("JSON parsing failed: " ++ exn_msg e)%string)])
    end.

(** One [try: tables = pd.read_html(...); if tables: return tables[0]]
    block: [Some] is the frame returned, [None] falls through. *)
Definition try_html (path : string) (flavor parser : option string)
  : option DataFrame * option exn :=
  match pd_read_html X path flavor parser with
  | Ret (t :: _) => (Some t, None)
  | Ret [] => (None, None)
  | Raise e => (None, Some e)
  end.

Definition read_html_safely (path : string) : io robj :=
  fun lg =>
    match try_html path (Some "bs4") (Some "lxml") with
    | (Some t, _) => (Ret (RFrame t), lg)
    | (None, _) =>
        match try_html path (Some "bs4") (Some "html5lib") with
        | (Some t, _) => (Ret (RFrame t), lg)
        | (None, _) =>
            match try_html path None None with
            | (Some t, _) => (Ret (RFrame t), lg)
            | (None, None) => (Ret (RFrame empty_frame), lg)
            | (None, Some e) =>
                (Ret (RFrame empty_frame),
                 lg ++ [(WARNING, ("HTML read failed: " ++ exn_msg e)%string)])
            end
        end
    end.

Definition read_xml_safely (path : string) : io robj :=
  fun lg =>
    match pd_read_xml X path with
    | Ret df => (Ret (RFrame df), lg)
    | Raise e =>
        (Ret (RFrame empty_frame),
         lg ++ [(WARNING, ("XML read failed: " ++ exn_msg e)%string)])
    end.

(** The separator ["\t"]. *)
Definition tab : string := String (ascii_of_nat 9) EmptyString.

(** A call that neither logs nor catches. *)
Definition direct {A} (r : outcome A) : io A := fun lg => (r, lg).

Definition frame (r : outcome DataFrame) : io robj :=
  direct (bind r (fun df => Ret (RFrame df))).

(** [a or b] on what the pdf readers return: a frame has no truth value. *)
Definition pdf_or (a : outcome robj) (b : outcome robj) : outcome robj :=
  match a with
  | Raise e => Raise e
  | Ret RNone => b
  | Ret (RFrame _) =>
      Raise (ValueError "The truth value of a DataFrame is ambiguous")
  end.

Definition READERS : list (string * (string -> io robj)) :=
  [ ("json", read_json);
    ("csv", fun path => frame (pd_read_csv X path None));
    ("txt", fun path => direct (smart_read_combined X path));
    ("html", fun path => read_html_safely path);
    ("md", fun path => direct (smart_read_combined X path));
    ("xml", fun path => read_xml_safely path);
    ("xlsx", fun path => frame (pd_read_excel X path "openpyxl" false));
    ("xls", fun path => frame (pd_read_excel X path "xlrd" true));
    ("tsv", fun path => frame (pd_read_csv X path (Some tab)));
    ("pdf", fun path => direct (pdf_or (read_pdf_tables X path)
                                       (read_pdf_text_ocr X path)));
    ("parquet", fun path => frame (pd_read_parquet X path)) ].

(** [READERS[ext]] *)
Fixpoint lookup_reader (ext : string) (rs : list (string * (string -> io robj)))
  : option (string -> io robj) :=
  match rs with
  | [] => None
  | (k, r) :: rest => if String.eqb ext k then Some r else lookup_reader ext rest
  end.

End Readers.

End FileHandlers.

(* ===================================================================== *)
(** * [utils/mongo_sanitize.py]                                           *)
(* ===================================================================== *)

Module MongoSanitize.
Import Py.

(** The value trees handed to the sanitizer: Python objects with numpy
    scalars and arrays among the leaves.  The three numpy classes the
    sanitizer tests for have a constructor each, carrying what the builtin
    conversion of the instance gives: [int(obj)], [float(obj)] (for a
    scalar wider than a double, the rounded value) and [bool(obj)].  A
    scalar of any other numpy class ([np.complex128], [np.datetime64], ...)
    is one of the other objects, [VOther]. *)
Inductive pyval : Type :=
| VNone
| VBool (b : bool)
| VInt (z : Z)
| VFloat (f : pyfloat)
| VStr (s : string)
| VNan                              (* the object [np.nan] itself *)
| VList (l : list pyval)
| VTuple (l : list pyval)
| VDict (d : list (pyval * pyval))
| NpInteger (z : Z)                 (* an [np.integer]; [z] is [int(obj)] *)
| NpFloating (f : pyfloat)          (* an [np.floating]; [f] is [float(obj)] *)
| NpBool (b : bool)                 (* an [np.bool_]; [b] is [bool(obj)] *)
| NdArray (items : list pyval)      (* [ndim >= 1]; [items] is [tolist()] *)
| NdArray0 (item : pyval)           (* [ndim = 0]; [item] is [tolist()] *)
| VOther (repr : string).           (* any other object; not iterable *)

(** The one-character strings a [str] yields when iterated. *)
Fixpoint chars (s : string) : list pyval :=
  match s with
  | EmptyString => []
  | String c r => VStr (String c EmptyString) :: chars r
  end.

Definition not_iterable : exn := TypeError "object is not iterable".

(** [sanitize_for_mongo].  For an array the comprehension runs over
    [obj.tolist()]: a list when the array has a dimension, the bare item
    when it has none. *)
Fixpoint sanitize_for_mongo (obj : pyval) : outcome pyval :=
  match obj with
  | NpInteger z => Ret (VInt z)
  | NpFloating f => Ret (VFloat f)
  | NpBool b => Ret (VBool b)
  | NdArray items =>
      match mapM sanitize_for_mongo items with
      | Ret l => Ret (VList l)
      | Raise e => Raise e
      end
  | NdArray0 item =>
      match item with
      | VList l | VTuple l | NdArray l =>
          match mapM sanitize_for_mongo l with
          | Ret l' => Ret (VList l')
          | Raise e => Raise e
          end
      | VDict d =>
          match mapM (fun kv => sanitize_for_mongo (fst kv)) d with
          | Ret l' => Ret (VList l')
          | Raise e => Raise e
          end
      | VStr s => Ret (VList (chars s))
      | _ => Raise not_iterable
      end
  | VNan => Ret VNone
  | VDict d =>
      match mapM (fun kv => match sanitize_for_mongo (snd kv) with
                            | Ret v => Ret (fst kv, v)
                            | Raise e => Raise e
                            end) d with
      | Ret d' => Ret (VDict d')
      | Raise e => Raise e
      end
  | VList l | VTuple l =>
      match mapM sanitize_for_mongo l with
      | Ret l' => Ret (VList l')
      | Raise e => Raise e
      end
  | _ => Ret obj
  end.

End MongoSanitize.

(* ===================================================================== *)
(** * [services/schema_diff_service.py]                                   *)
(* ===================================================================== *)

Module SchemaDiff.
Import Py.

(** The canonical form: field name to field object, in insertion order.
    A name is whatever [field.get("name") or ...] evaluates to. *)
Definition fields_map := list (json * pydict).

(** [k in fields] / [fields[k]], keys compared with [==]. *)
Fixpoint fields_get (k : json) (fs : fields_map) : option pydict :=
  match fs with
  | [] => None
  | (k', f) :: r => if py_eq k k' then Some f else fields_get k r
  end.

Fixpoint fields_put (k : json) (f : pydict) (fs : fields_map) : fields_map :=
  match fs with
  | [] => [(k, f)]
  | (k', f') :: r =>
      if py_eq k k' then (k', f) :: r else (k', f') :: fields_put k f r
  end.

(** [fields[k] = f] *)
Definition fields_assign (k : json) (f : pydict) (fs : fields_map)
  : outcome fields_map :=
  if hashable k then Ret (fields_put k f fs)
  else Raise (TypeError "unhashable type").

(** [f.get(k)], [None] when the key is absent. *)
Definition get (k : string) (f : pydict) : json := dict_get_default k JNull f.

(** [field.get("name") or field.get("path") or "unknown"] *)
Definition name_or_path (field : pydict) : json :=
  py_or (py_or (get "name" field) (get "path" field)) (JStr "unknown").

(** [field.get("name") or "unknown"] *)
Definition name_only (field : pydict) : json :=
  py_or (get "name" field) (JStr "unknown").

(** [for field in lst: if isinstance(field, dict): fields[name(field)] = field] *)
Fixpoint add_list_fields (name : pydict -> json) (lst : list json)
    (fs : fields_map) : outcome fields_map :=
  match lst with
  | [] => Ret fs
  | JDict field :: r =>
      match fields_assign (name field) field fs with
      | Ret fs' => add_list_fields name r fs'
      | Raise e => Raise e
      end
  | _ :: r => add_list_fields name r fs
  end.

Section Diff.

(** [str(x)], the builtin. *)
Variable py_str : json -> string.

(** The order in which a [set] built from the given elements is iterated.
    Python leaves it unspecified; all that is known is that every element
    comes up once. *)
Variable set_order : list json -> list json.

(** [for field_name, field_meta in d.items(): ...] of the legacy form. *)
Fixpoint add_dict_fields (d : pydict) (fs : fields_map) : fields_map :=
  match d with
  | [] => fs
  | (field_name, JDict field_meta) :: r =>
      add_dict_fields r
        (fields_put (JStr field_name)
                    (dict_set "name" (JStr field_name) field_meta) fs)
  | (field_name, field_meta) :: r =>
      add_dict_fields r
        (fields_put (JStr field_name)
                    [("name", JStr field_name);
                     ("type", JStr (py_str field_meta))] fs)
  end.

Definition _extract_fields_from_schema (schema_obj : pydict)
  : outcome fields_map :=
  match schema_obj with
  | [] => Ret []
  | _ =>
      match
        match get "fields" schema_obj with
        | JList lst => add_list_fields name_or_path lst []
        | JDict d => Ret (add_dict_fields d [])
        | _ => Ret []   (* the third branch tests for a list again: dead *)
        end
      with
      | Raise e => Raise e
      | Ret fields =>
          match fields, get "raw_schema" schema_obj with
          | [], JDict raw =>
              match get "fields" raw with
              | JList lst => add_list_fields name_only lst fields
              | _ => Ret fields
              end
          | _, _ => Ret fields
          end
      end
  end.

(** One entry of ["changed"]. *)
Record change : Type := mkChange {
  ch_name : json;
  ch_field : json;
  ch_old : json * json;      (* {"type", "nullable"} *)
  ch_new : json * json;
  ch_old_type : json;
  ch_new_type : json
}.

(** The dict [compare_schemas] returns. *)
Record diff : Type := mkDiff {
  added : list pydict;
  removed : list pydict;
  changed : list change;
  added_fields : list json;
  removed_fields : list json;
  old_count : Z;
  new_count : Z
}.

Definition key_mem (k : json) (ks : list json) : bool := existsb (py_eq k) ks.

(** [a - b] and [a & b] on sets of names, as the elements of [a] that
    respectively are not and are in [b].  Where two equal names differ in
    type (1 and 1.0) Python may keep either in [a & b]; for names that are
    strings there is no such choice. *)
Definition set_diff (a b : list json) : list json :=
  filter (fun k => negb (key_mem k b)) a.

Definition set_inter (a b : list json) : list json :=
  filter (fun k => key_mem k b) a.

(** [fields[name]] *)
Definition fields_index (fs : fields_map) (name : json) : outcome pydict :=
  match fields_get name fs with
  | Some f => Ret f
  | None => Raise (OtherError "KeyError")
  end.

(** The body of the loop over the common names: the entry to append, if any. *)
Definition change_of (name : json) (old_field new_field : pydict)
  : option change :=
  let old_type := dict_get_default "type" (JStr "string") old_field in
  let new_type := dict_get_default "type" (JStr "string") new_field in
  let old_nullable := dict_get_default "nullable" (JBool true) old_field in
  let new_nullable := dict_get_default "nullable" (JBool true) new_field in
  if py_ne old_type new_type || py_ne old_nullable new_nullable
  then Some (mkChange name name (old_type, old_nullable)
                      (new_type, new_nullable) old_type new_type)
  else None.

Fixpoint changed_loop (old_fields new_fields : fields_map)
    (names : list json) : outcome (list change) :=
  match names with
  | [] => Ret []
  | name :: r =>
      match fields_index old_fields name with
      | Raise e => Raise e
      | Ret old_field =>
          match fields_index new_fields name with
          | Raise e => Raise e
          | Ret new_field =>
              match changed_loop old_fields new_fields r with
              | Raise e => Raise e
              | Ret cs =>
                  Ret (match change_of name old_field new_field with
                       | Some c => c :: cs
                       | None => cs
                       end)
              end
          end
      end
  end.

(** [f.get("name") or f.get("path", "unknown")] *)
Definition display_name (f : pydict) : json :=
  py_or (get "name" f) (dict_get_default "path" (JStr "unknown") f).

(** [_extract_fields_from_schema(schema) if schema else {}] *)
Definition fields_or_empty (schema : option pydict) : outcome fields_map :=
  match schema with
  | Some ((_ :: _) as s) => _extract_fields_from_schema s
  | _ => Ret []
  end.

Definition compare_schemas (old_schema : option pydict) (new_schema : pydict)
  : outcome diff :=
  match fields_or_empty old_schema with
  | Raise e => Raise e
  | Ret old_fields =>
  match fields_or_empty (Some new_schema) with
  | Raise e => Raise e
  | Ret new_fields =>
      let old_names := map fst old_fields in
      let new_names := map fst new_fields in
      match mapM (fields_index new_fields)
                 (set_order (set_diff new_names old_names)) with
      | Raise e => Raise e
      | Ret added =>
      match mapM (fields_index old_fields)
                 (set_order (set_diff old_names new_names)) with
      | Raise e => Raise e
      | Ret removed =>
      match changed_loop old_fields new_fields
                         (set_order (set_inter old_names new_names)) with
      | Raise e => Raise e
      | Ret changed =>
          Ret (mkDiff added removed changed
                      (map display_name added)
                      (map display_name removed)
                      (py_len old_fields)
                      (py_len new_fields))
      end end end
  end end.

End Diff.

End SchemaDiff.

(* ===================================================================== *)
(** * [services/dynamic_etl_adapter.py]                                   *)
(* ===================================================================== *)

Module DynamicEtl.
Import Py MongoSanitize.

(** [d.get(k)] on a dict of the sanitizer's value trees, for a string key. *)
Fixpoint vdict_get (k : string) (d : list (pyval * pyval)) : option pyval :=
  match d with
  | [] => None
  | (VStr k', v) :: r => if String.eqb k k' then Some v else vdict_get k r
  | _ :: r => vdict_get k r
  end.

Definition vdict_get_default (k : string) (dflt : pyval)
    (d : list (pyval * pyval)) : pyval :=
  match vdict_get k d with
  | Some v => v
  | None => dflt
  end.

(** [obj.get(k, dflt)]: only a dict has the method. *)
Definition py_get (obj : pyval) (k : string) (dflt : pyval) : outcome pyval :=
  match obj with
  | VDict d => Ret (vdict_get_default k dflt d)
  | _ => Raise (AttributeError "object has no attribute 'get'")
  end.

(** [s.replace(" ", "_")] *)
Fixpoint replace_spaces (s : string) : string :=
  match s with
  | EmptyString => EmptyString
  | String c r =>
      String (if Ascii.eqb c " "%char then "_"%char else c) (replace_spaces r)
  end.

Section Pipeline.

(** The world outside the function: the file system and the schema store
    behind the module-level [_schema_evolution]. *)
Variable W : Type.

(** A [pandas.DataFrame]. *)
Variable DF : Type.

(** A computation: runs against the world and the log, returns or raises. *)
Definition M (A : Type) : Type := W * log -> outcome A * (W * log).

Definition ret {A} (a : A) : M A := fun s => (Ret a, s).

Definition bindM {A B} (m : M A) (k : A -> M B) : M B :=
  fun s => match m s with
           | (Ret a, s') => k a s'
           | (Raise e, s') => (Raise e, s')
           end.

Definition lift {A} (r : outcome A) : M A := fun s => (r, s).

(** [logger.<level>(msg)] *)
Definition logger (l : level) (msg : string) : M unit :=
  fun s => (Ret tt, (fst s, snd s ++ [(l, msg)])).

(** [try: m finally: (try: c except: pass)] *)
Definition finally_quiet {A B} (m : M A) (c : M B) : M A :=
  fun s => match m s with
           | (r, s') => (r, snd (c s'))
           end.

Notation "x <-- m ;; k" := (bindM m (fun x => k))
  (at level 100, m at next level, right associativity).
Notation "m ;;; k" := (bindM m (fun _ => k))
  (at level 100, right associativity).

(** What the function calls and this file does not define. *)
Record Env : Type := {
  os_path_splitext : string -> string * string;
  write_temp : string -> string -> M string;        (* suffix, bytes *)
  os_remove : string -> M unit;
  extract_data : string -> M (option DF * pyval);   (* return_fragments=True *)
  run_transform_pipeline : DF -> M (DF * list (pyval * pyval));
  generate_schema : DF -> string -> pyval -> M pyval;
  add_schema : string -> pyval -> M pyval;
  df_empty : DF -> bool;
  df_len : DF -> Z;
  df_isna_sum : DF -> Z;                            (* df.isna().sum().sum() *)
  to_records : DF -> list (list (pyval * pyval));   (* to_dict("records") *)
  isna_truth : pyval -> outcome bool;               (* [if pd.isna(v)] *)
  py_str : pyval -> string
}.

Context (E : Env).

(** The [try] block around the tracker, with the rebinding of [schema]
    made explicit: the value returned is what [schema] names afterwards. *)
Definition track (source_id : string) (schema : pyval) : M pyval :=
  fun s =>
    match add_schema E source_id schema s with
    | (Raise e, s') =>
        bindM (logger WARNING
                 ("Schema evolution tracking failed: " ++ exn_msg e)%string)
              (fun _ => ret schema) s'
    | (Ret schema', s') =>
        match py_get schema' "version" (VInt 1) with
        | Ret v =>
            bindM (logger INFO
                     ("Schema version " ++ py_str E v ++ " tracked for "
                      ++ source_id)%string)
                  (fun _ => ret schema') s'
        | Raise e =>
            bindM (logger WARNING
                     ("Schema evolution tracking failed: " ++ exn_msg e)%string)
                  (fun _ => ret schema') s'
        end
    end.

Definition sanitize_record (record : list (pyval * pyval))
  : outcome (list (pyval * pyval)) :=
  mapM (fun kv =>
          match isna_truth E (snd kv) with
          | Raise e => Raise e
          | Ret true => Ret (fst kv, VNone)
          | Ret false =>
              match sanitize_for_mongo (snd kv) with
              | Ret v => Ret (fst kv, v)
              | Raise e => Raise e
              end
          end) record.

Definition empty_result (fragments : pyval) : list (string * pyval) :=
  [ ("structured_data", VList []);
    ("schema", VDict []);
    ("row_count", VInt 0);
    ("cleaning_stats", VDict []);
    ("parsed_fragments", fragments) ].

(** The body of the outer [try]. *)
Definition body (tmp_path source_id : string) : M (list (string * pyval)) :=
  x <-- extract_data E tmp_path ;;
  let '(odf, fragments) := x in
  match odf with
  | None => ret (empty_result fragments)
  | Some df =>
      if df_empty E df then ret (empty_result fragments) else
      y <-- run_transform_pipeline E df ;;
      let '(transformed_df, transform_stats) := y in
      schema <-- generate_schema E transformed_df source_id fragments ;;
      schema <-- track source_id schema ;;
      let structured := to_records E transformed_df in
      sanitized_structured <-- lift (mapM sanitize_record structured) ;;
      sanitized_schema <-- lift (sanitize_for_mongo schema) ;;
      let nulls_before := df_isna_sum E df in
      let nulls_after := df_isna_sum E transformed_df in
      let nulls_removed := nulls_before - nulls_after in
      let cleaning_stats :=
        [ (VStr "nullsRemoved", VInt (Z.max 0 nulls_removed));
          (VStr "typesCast",
           vdict_get_default "types_cast" (VInt 0) transform_stats);
          (VStr "formatsFixed",
           vdict_get_default "formats_fixed" (VInt 0) transform_stats);
          (VStr "duplicatesDropped",
           vdict_get_default "duplicates_dropped" (VInt 0) transform_stats);
          (VStr "rows_before", VInt (df_len E df));
          (VStr "rows_after", VInt (df_len E transformed_df));
          (VStr "nulls_before", VInt nulls_before);
          (VStr "nulls_after", VInt nulls_after) ] in
      version <-- lift (py_get schema "version" (VInt 1)) ;;
      ret [ ("structured_data", VList (map VDict sanitized_structured));
            ("schema", sanitized_schema);
            ("row_count", VInt (py_len sanitized_structured));
            ("cleaning_stats", VDict cleaning_stats);
            ("parsed_fragments", fragments);
            ("source_id", VStr source_id);
            ("schema_version", version) ]
  end.

Definition run_dynamic_etl_bytes (file_bytes filename : string)
    (source_id : option string) : M (list (string * pyval)) :=
  let source_id :=
    match source_id with
    | Some s => s
    | None => replace_spaces (fst (os_path_splitext E filename))
    end in
  let ext := snd (os_path_splitext E filename) in
  tmp_path <-- write_temp E ext file_bytes ;;
  finally_quiet (body tmp_path source_id) (os_remove E tmp_path).

End Pipeline.

Arguments ret {W A} a.
Arguments bindM {W A B} m k.
Arguments lift {W A} r.
Arguments logger {W} l msg.
Arguments os_path_splitext {W DF} e.
Arguments write_temp {W DF} e.
Arguments os_remove {W DF} e.
Arguments extract_data {W DF} e.
Arguments run_transform_pipeline {W DF} e.
Arguments generate_schema {W DF} e.
Arguments add_schema {W DF} e.
Arguments df_empty {W DF} e.
Arguments df_len {W DF} e.
Arguments df_isna_sum {W DF} e.
Arguments to_records {W DF} e.
Arguments isna_truth {W DF} e.
Arguments py_str {W DF} e.
Arguments track {W DF} E source_id schema.
Arguments sanitize_record {W DF} E record.
Arguments body {W DF} E tmp_path source_id.
Arguments run_dynamic_etl_bytes {W DF} E file_bytes filename source_id.

End DynamicEtl.

(* ===================================================================== *)
(** * Concrete inputs used by the examples below                          *)
(* ===================================================================== *)

Module Samples.
Import Py MongoSanitize.

(** A serializer for the examples: enough of [json.dumps] for integers
    below ten, strings without escapes, lists and dicts. *)
Definition digit (z : Z) : string :=
  String (ascii_of_nat (48 + Z.to_nat z)) EmptyString.

Definition quoted (s : string) : string :=
  String (ascii_of_nat 34) (String.append s (String (ascii_of_nat 34) EmptyString)).

Fixpoint dumps (v : json) : string :=
  match v with
  | JNull => "null"
  | JBool true => "true"
  | JBool false => "false"
  | JInt z => digit z
  | JFloat _ => "NaN"
  | JStr s => quoted s
  | JList l =>
      String.append "["
        (String.append
           (String.concat ", " (map dumps l)) "]")
  | JDict d =>
      String.append "{"
        (String.append
           (String.concat ", "
              (map (fun kv =>
                      String.append (quoted (fst kv))
                        (String.append ": " (dumps (snd kv)))) d)) "}")
  end.

(** A machine on which none of the paths exists: whatever opens a file
    raises. *)
Definition no_such_file : exn := OSError "No such file or directory".

Definition no_files : FileHandlers.Externals :=
  {| FileHandlers.json_dumps := dumps;
     FileHandlers.json_load_path := fun _ => Raise no_such_file;
     FileHandlers.pd_read_html := fun _ _ _ => Raise no_such_file;
     FileHandlers.pd_read_xml := fun _ => Raise no_such_file;
     FileHandlers.pd_read_csv := fun _ _ => Raise no_such_file;
     FileHandlers.pd_read_excel := fun _ _ _ => Raise no_such_file;
     FileHandlers.pd_read_parquet := fun _ => Raise no_such_file;
     FileHandlers.smart_read_combined := fun _ => Raise no_such_file;
     FileHandlers.read_pdf_tables := fun _ => Raise no_such_file;
     FileHandlers.read_pdf_text_ocr := fun _ => Raise no_such_file |}.

(** Schema descriptors for the diff: two versions of one source in the
    list form, a version in the legacy dict form, a document without any
    field shape, and a list form with two descriptors that have no name. *)
Definition descriptor (name type : string) (nullable : bool) : json :=
  JDict [("name", JStr name); ("type", JStr type); ("nullable", JBool nullable)].

Definition schema_v1 : pydict :=
  [ ("source_id", JStr "S"); ("version", JInt 1);
    ("fields", JList [descriptor "a" "integer" false]) ].

Definition schema_v2 : pydict :=
  [ ("source_id", JStr "S"); ("version", JInt 2);
    ("fields", JList [ JDict [("name", JStr "a"); ("type", JStr "float")];
                       descriptor "b" "string" true ]) ].


Definition nameless : pydict :=
  [ ("fields", JList [ JDict [("type", JStr "integer")];
                       JDict [("type", JStr "string")];
                       descriptor "a" "integer" false ]) ].

(** [str] on the values the examples meet. *)
Definition str (v : json) : string :=
  match v with
  | JStr s => s
  | _ => dumps v
  end.

(** An iteration order for sets: last in, first out. *)
Definition newest_first (l : list json) : list json := rev l.

(** A world for the upload pipeline in which the schema store cannot be
    written.  Frames are their own records; the world is the list of
    temporary files still on disk. *)
Definition frame := list (list (pyval * pyval)).

Definition generated_schema (source_id : string) : pyval :=
  VDict [ (VStr "source_id", VStr source_id);
          (VStr "fields",
           VList [ VDict [ (VStr "name", VStr "a");
                           (VStr "type", VStr "integer");
                           (VStr "nullable", VBool false) ] ]);
          (VStr "row_count", NpInteger 1) ].

Definition store_down : Py.exn := OSError "schema store is not writable".

Definition broken_store : DynamicEtl.Env (list string) frame :=
  {| DynamicEtl.os_path_splitext := fun _ => ("orders 2024", ".json");
     DynamicEtl.write_temp :=
       fun suffix _ s =>
         let p := String.append "/tmp/tmp0" suffix in
         (Ret p, (p :: fst s, snd s));
     DynamicEtl.os_remove :=
       fun p s =>
         (Ret tt, (filter (fun q => negb (String.eqb p q)) (fst s), snd s));
     DynamicEtl.extract_data :=
       fun _ s => (Ret (Some [[(VStr "a", NpInteger 1)]], VList []), s);
     DynamicEtl.run_transform_pipeline := fun df s => (Ret (df, []), s);
     DynamicEtl.generate_schema :=
       fun _ source_id _ s => (Ret (generated_schema source_id), s);
     DynamicEtl.add_schema := fun _ _ s => (Raise store_down, s);
     DynamicEtl.df_empty :=
       fun df => match df with [] => true | _ => false end;
     DynamicEtl.df_len := fun df => py_len df;
     DynamicEtl.df_isna_sum := fun _ => 0;
     DynamicEtl.to_records := fun df => df;
     DynamicEtl.isna_truth :=
       fun v => match v with
                | VNone | VNan | VFloat FNan | NpFloating FNan => Ret true
                | _ => Ret false
                end;
     DynamicEtl.py_str := fun _ => "1" |}.

End Samples.

(* ===================================================================== *)
(** * Notions used to state the properties                                *)
(* ===================================================================== *)

Section PipelineSpec.
Import Py MongoSanitize DynamicEtl.
Context {W DF : Type} (E : Env W DF).

(** The dict a run returns once extraction has produced rows. *)
Definition full_result (source_id : string) (df transformed_df : DF)
    (transform_stats : list (pyval * pyval)) (fragments : pyval)
    (records : list (list (pyval * pyval))) (schema version : pyval)
  : list (string * pyval) :=
  [ ("structured_data", VList (map VDict records));
    ("schema", schema);
    ("row_count", VInt (py_len records));
    ("cleaning_stats",
     VDict
       [ (VStr "nullsRemoved",
          VInt (Z.max 0 (df_isna_sum E df - df_isna_sum E transformed_df)));
         (VStr "typesCast",
          vdict_get_default "types_cast" (VInt 0) transform_stats);
         (VStr "formatsFixed",
          vdict_get_default "formats_fixed" (VInt 0) transform_stats);
         (VStr "duplicatesDropped",
          vdict_get_default "duplicates_dropped" (VInt 0) transform_stats);
         (VStr "rows_before", VInt (df_len E df));
         (VStr "rows_after", VInt (df_len E transformed_df));
         (VStr "nulls_before", VInt (df_isna_sum E df));
         (VStr "nulls_after", VInt (df_isna_sum E transformed_df)) ]);
    ("parsed_fragments", fragments);
    ("source_id", VStr source_id);
    ("schema_version", version) ].

End PipelineSpec.

Section ReaderSpec.
Import Py FileHandlers.
Context (X : Externals).

(** No call of [pd.read_html] on the path yields a table. *)
Definition no_table (path : string) : Prop :=
  forall flavor parser t ts, pd_read_html X path flavor parser <> Ret (t :: ts).

(** What it means for the parse behind a safe entry to fail. *)
Definition parse_fails (ext path : string) : Prop :=
  if String.eqb ext "json"
  then exists e,
      bind (json_load_path X path) (safe_json_to_df (json_dumps X)) = Raise e
  else if String.eqb ext "html" then no_table path
  else exists e, pd_read_xml X path = Raise e.

End ReaderSpec.

Section SanitizeSpec.
Import Py MongoSanitize.

(** What the sanitizer is to do, read off its contract: [Sanitized v v']
    says that [v'] is [v] with every instance of [np.integer],
    [np.floating] and [np.bool_] made the [int], [float] or [bool] of its
    value, every array made a list, [np.nan] made [None], dict values and
    list or tuple items treated alike, and every other leaf, a scalar of
    another numpy class included, left as it is. *)
Inductive Sanitized : pyval -> pyval -> Prop :=
| San_integer z : Sanitized (NpInteger z) (VInt z)
| San_floating f : Sanitized (NpFloating f) (VFloat f)
| San_bool b : Sanitized (NpBool b) (VBool b)
| San_array items l :
    Forall2 Sanitized items l -> Sanitized (NdArray items) (VList l)
| San_array0 item l : Sanitized (NdArray0 item) (VList l)
| San_nan : Sanitized VNan VNone
| San_dict d d' :
    Forall2 (fun kv kv' => fst kv' = fst kv /\ Sanitized (snd kv) (snd kv'))
            d d' ->
    Sanitized (VDict d) (VDict d')
| San_list l l' : Forall2 Sanitized l l' -> Sanitized (VList l) (VList l')
| San_tuple l l' : Forall2 Sanitized l l' -> Sanitized (VTuple l) (VList l')
| San_none : Sanitized VNone VNone
| San_pybool b : Sanitized (VBool b) (VBool b)
| San_int z : Sanitized (VInt z) (VInt z)
| San_float f : Sanitized (VFloat f) (VFloat f)
| San_str s : Sanitized (VStr s) (VStr s)
| San_other r : Sanitized (VOther r) (VOther r).

(** No array without a dimension among the values the sanitizer visits
    (dict keys are not visited). *)
Fixpoint dimensioned (v : pyval) : bool :=
  match v with
  | NdArray0 _ => false
  | NdArray l | VList l | VTuple l => forallb dimensioned l
  | VDict d => forallb (fun kv => dimensioned (snd kv)) d
  | _ => true
  end.

(** Induction over value trees, with the hypothesis available for every
    item of a list, tuple or array and every value of a dict. *)
Section Induction.
Variable P : pyval -> Prop.
Hypothesis Hnone : P VNone.
Hypothesis Hbool : forall b, P (VBool b).
Hypothesis Hint : forall z, P (VInt z).
Hypothesis Hfloat : forall f, P (VFloat f).
Hypothesis Hstr : forall s, P (VStr s).
Hypothesis Hnan : P VNan.
Hypothesis Hlist : forall l, Forall P l -> P (VList l).
Hypothesis Htuple : forall l, Forall P l -> P (VTuple l).
Hypothesis Hdict : forall d, Forall (fun kv => P (snd kv)) d -> P (VDict d).
Hypothesis Hnpint : forall z, P (NpInteger z).
Hypothesis Hnpfloat : forall f, P (NpFloating f).
Hypothesis Hnpbool : forall b, P (NpBool b).
Hypothesis Harray : forall l, Forall P l -> P (NdArray l).
Hypothesis Harray0 : forall v, P v -> P (NdArray0 v).
Hypothesis Hother : forall r, P (VOther r).

Fixpoint pyval_tree_ind (v : pyval) : P v :=
  let items :=
    fix items (l : list pyval) : Forall P l :=
      match l with
      | [] => Forall_nil P
      | x :: r => Forall_cons x (pyval_tree_ind x) (items r)
      end in
  match v with
  | VNone => Hnone
  | VBool b => Hbool b
  | VInt z => Hint z
  | VFloat f => Hfloat f
  | VStr s => Hstr s
  | VNan => Hnan
  | VList l => Hlist l (items l)
  | VTuple l => Htuple l (items l)
  | VDict d =>
      Hdict d
        ((fix values (d : list (pyval * pyval))
            : Forall (fun kv => P (snd kv)) d :=
            match d with
            | [] => Forall_nil _
            | kv :: r => Forall_cons kv (pyval_tree_ind (snd kv)) (values r)
            end) d)
  | NpInteger z => Hnpint z
  | NpFloating f => Hnpfloat f
  | NpBool b => Hnpbool b
  | NdArray l => Harray l (items l)
  | NdArray0 x => Harray0 x (pyval_tree_ind x)
  | VOther r => Hother r
  end.

End Induction.

End SanitizeSpec.

Section ShapeSpec.
Import Py FileHandlers.

(** What a row of a list payload stores for the value [v] of a mapping
    element: the serialized text when [v] is nested, [v] itself otherwise. *)
Definition stored (json_dumps : json -> string) (v : json) : json :=
  if is_dict v || is_list v then JStr (json_dumps v) else v.



(** The element [item] of a list payload has no value for column [c]. *)
Definition absent (c : string) (item : json) : Prop :=
  match item with
  | JDict d => dict_get c d = None
  | _ => c <> "value"
  end.

(** The field names of one element of a list payload. *)
Definition item_keys (item : json) : list string :=
  match item with
  | JDict d => map fst d
  | _ => ["value"]
  end.

(** The column a dict payload asks for under a key: the sequence padded
    with [None] to [n] cells, or the scalar followed by [None]s. *)
Definition expected_column (n : nat) (value : json) : list json :=
  match value with
  | JList l => l ++ repeat JNull (n - List.length l)
  | _ => value :: repeat JNull (n - 1)
  end.

(** Every value of the dict payload is a sequence. *)
Definition all_sequences (d : pydict) : Prop :=
  forall k v, In (k, v) d -> is_list v = true.

(** The cell a record contributes to a column. *)
Definition cell_of (r : pydict) (c : string) : json :=
  match dict_get c r with
  | Some v => v
  | None => NaN
  end.

(** The column [clean_columns] stores for one value. *)
Definition padded (n : Z) (value : json) : list json :=
  match value with
  | JList l => l ++ list_mul [JNull] (n - py_len l)
  | _ => [value] ++ list_mul [JNull] (n - 1)
  end.

End ShapeSpec.

Section DiffSpec.
Import Py SchemaDiff.

(** A value that is equal to itself under [==]: every value except one
    that holds a NaN.  Strings and booleans always are. *)
Definition self_equal (v : json) : Prop := py_eq v v = true.

(** The type and the nullability the diff compares, with the defaults for
    a descriptor that lacks them. *)
Definition type_of (f : pydict) : json :=
  dict_get_default "type" (JStr "string") f.

Definition nullable_of (f : pydict) : json :=
  dict_get_default "nullable" (JBool true) f.

(** A canonical field whose name, type and nullability are self-equal. *)
Definition plain_field (kf : json * pydict) : Prop :=
  self_equal (fst kf) /\ self_equal (type_of (snd kf)) /\
  self_equal (nullable_of (snd kf)).

(** The dict elements of a field list. *)
Fixpoint dicts (lst : list json) : list pydict :=
  match lst with
  | [] => []
  | JDict f :: r => f :: dicts r
  | _ :: r => dicts r
  end.


(** The names of a list in order of first appearance, one of each. *)
Fixpoint distinct_onto (seen names : list json) : list json :=
  match names with
  | [] => seen
  | k :: r => distinct_onto (if key_mem k seen then seen else seen ++ [k]) r
  end.

Definition distinct (names : list json) : list json := distinct_onto [] names.

Definition is_str (v : json) : bool :=
  match v with JStr _ => true | _ => false end.

(** [fs[name]] for a name that is bound. *)
Definition bound (fs : fields_map) (name : json) : pydict :=
  match fields_get name fs with
  | Some f => f
  | None => []
  end.

Definition entry_of (old_fields new_fields : fields_map) (name : json)
  : list change :=
  match change_of name (bound old_fields name) (bound new_fields name) with
  | Some c => [c]
  | None => []
  end.

(** In a canonical form no name is equal to one bound before it. *)
Fixpoint keys_apart (ks : list json) : Prop :=
  match ks with
  | [] => True
  | k :: r => (forall k', In k' r -> py_eq k' k = false) /\ keys_apart r
  end.

End DiffSpec.

Section SanitizeMoreSpec.
Import Py MongoSanitize.

(** A tree that holds, at the positions the sanitizer visits, nothing the
    sanitizer replaces: no instance of [np.integer], [np.floating] or
    [np.bool_], no array, no [np.nan], no tuple.  The other leaves are not
    looked into: an object of a class the sanitizer does not test for
    passes, whatever the storage backend makes of it. *)
Fixpoint native (v : pyval) : bool :=
  match v with
  | VNone | VBool _ | VInt _ | VFloat _ | VStr _ | VOther _ => true
  | VList l => forallb native l
  | VDict d => forallb (fun kv => native (snd kv)) d
  | _ => false
  end.

(** Induction over value trees that also reaches the keys of a dict held
    by an array without dimension, which the sanitizer iterates over. *)
Section FullInduction.
Variable P : pyval -> Prop.
Hypothesis Hnone : P VNone.
Hypothesis Hbool : forall b, P (VBool b).
Hypothesis Hint : forall z, P (VInt z).
Hypothesis Hfloat : forall f, P (VFloat f).
Hypothesis Hstr : forall s, P (VStr s).
Hypothesis Hnan : P VNan.
Hypothesis Hlist : forall l, Forall P l -> P (VList l).
Hypothesis Htuple : forall l, Forall P l -> P (VTuple l).
Hypothesis Hdict : forall d, Forall (fun kv => P (snd kv)) d -> P (VDict d).
Hypothesis Hnpint : forall z, P (NpInteger z).
Hypothesis Hnpfloat : forall f, P (NpFloating f).
Hypothesis Hnpbool : forall b, P (NpBool b).
Hypothesis Harray : forall l, Forall P l -> P (NdArray l).
Hypothesis Harray0 :
  forall v, P v ->
            match v with
            | VDict d => Forall (fun kv => P (fst kv)) d
            | _ => True
            end ->
            P (NdArray0 v).
Hypothesis Hother : forall r, P (VOther r).

Fixpoint pyval_full_ind (v : pyval) : P v :=
  let items :=
    fix items (l : list pyval) : Forall P l :=
      match l with
      | [] => Forall_nil P
      | x :: r => Forall_cons x (pyval_full_ind x) (items r)
      end in
  match v with
  | VNone => Hnone
  | VBool b => Hbool b
  | VInt z => Hint z
  | VFloat f => Hfloat f
  | VStr s => Hstr s
  | VNan => Hnan
  | VList l => Hlist l (items l)
  | VTuple l => Htuple l (items l)
  | VDict d =>
      Hdict d
        ((fix values (d : list (pyval * pyval))
            : Forall (fun kv => P (snd kv)) d :=
            match d with
            | [] => Forall_nil _
            | kv :: r => Forall_cons kv (pyval_full_ind (snd kv)) (values r)
            end) d)
  | NpInteger z => Hnpint z
  | NpFloating f => Hnpfloat f
  | NpBool b => Hnpbool b
  | NdArray l => Harray l (items l)
  | NdArray0 x =>
      Harray0 x (pyval_full_ind x)
        (match x return match x with
                        | VDict d => Forall (fun kv => P (fst kv)) d
                        | _ => True
                        end with
         | VDict d =>
             (fix keys (d : list (pyval * pyval))
                : Forall (fun kv => P (fst kv)) d :=
                match d with
                | [] => Forall_nil _
                | kv :: r => Forall_cons kv (pyval_full_ind (fst kv)) (keys r)
                end) d
         | _ => I
         end)
  | VOther r => Hother r
  end.

End FullInduction.

End SanitizeMoreSpec.

Section DiffMoreSpec.
Import Py SchemaDiff.

(** The canonical field the legacy dict form gives for one entry of
    ["fields"]. *)
Definition legacy_field (py_str : json -> string) (field_name : string)
    (field_meta : json) : pydict :=
  match field_meta with
  | JDict m => dict_set "name" (JStr field_name) m
  | _ => [("name", JStr field_name); ("type", JStr (py_str field_meta))]
  end.

(** One schema in the two representations: descriptors listed under
    ["fields"], and descriptors filed by name under ["fields"]. *)
Definition list_form (l : list (string * string * bool)) : pydict :=
  [ ("fields",
     JList (map (fun ntb =>
                   JDict [ ("name", JStr (fst (fst ntb)));
                           ("type", JStr (snd (fst ntb)));
                           ("nullable", JBool (snd ntb)) ]) l)) ].

Definition dict_form (l : list (string * string * bool)) : pydict :=
  [ ("fields",
     JDict (map (fun ntb =>
                   (fst (fst ntb),
                    JDict [ ("type", JStr (snd (fst ntb)));
                            ("nullable", JBool (snd ntb)) ])) l)) ].





End DiffMoreSpec.

Section PipelineMoreSpec.
Import Py MongoSanitize DynamicEtl.
Context {W DF : Type} (E : Env W DF).

(** The identifier the run works under. *)
Definition effective_source_id (filename : string) (source_id : option string)
  : string :=
  match source_id with
  | Some s => s
  | None => replace_spaces (fst (os_path_splitext E filename))
  end.

End PipelineMoreSpec.

Fixpoint has_space (s : string) : bool :=
  match s with
  | EmptyString => false
  | String c r => Ascii.eqb c " "%char || has_space r
  end.

(** Worlds for the pipeline examples: what extraction yields and how the
    tracker answers vary, the rest is as in [Samples.broken_store]. *)
Module Worlds.
Import Py MongoSanitize.

Definition tracker := string -> pyval -> DynamicEtl.M (list string) pyval.

Definition world (extracted : option Samples.frame) (add_schema : tracker)
  : DynamicEtl.Env (list string) Samples.frame :=
  {| DynamicEtl.os_path_splitext :=
       DynamicEtl.os_path_splitext Samples.broken_store;
     DynamicEtl.write_temp := DynamicEtl.write_temp Samples.broken_store;
     DynamicEtl.os_remove := DynamicEtl.os_remove Samples.broken_store;
     DynamicEtl.extract_data := fun _ s => (Ret (extracted, VList []), s);
     DynamicEtl.run_transform_pipeline :=
       DynamicEtl.run_transform_pipeline Samples.broken_store;
     DynamicEtl.generate_schema :=
       DynamicEtl.generate_schema Samples.broken_store;
     DynamicEtl.add_schema := add_schema;
     DynamicEtl.df_empty := DynamicEtl.df_empty Samples.broken_store;
     DynamicEtl.df_len := DynamicEtl.df_len Samples.broken_store;
     DynamicEtl.df_isna_sum := DynamicEtl.df_isna_sum Samples.broken_store;
     DynamicEtl.to_records := DynamicEtl.to_records Samples.broken_store;
     DynamicEtl.isna_truth := DynamicEtl.isna_truth Samples.broken_store;
     DynamicEtl.py_str :=
       fun v => match v with VInt 3 | NpInteger 3 => "3" | _ => "1" end |}.

(** A tracker that files the schema as version 3. *)
Definition files_as_3 : tracker :=
  fun _ schema s =>
    (Ret (VDict [ (VStr "fields", VList []); (VStr "version", NpInteger 3) ]),
     s).

(** A tracker that returns [None]. *)
Definition answers_none : tracker := fun _ _ s => (Ret VNone, s).

Definition one_row : Samples.frame := [[(VStr "a", NpInteger 1)]].

End Worlds.

(* ===================================================================== *)
(** * Properties of the upload pipeline                                   *)
(* ===================================================================== *)

Section PipelineProps.
Import Py MongoSanitize DynamicEtl.
Context {W DF : Type} (E : Env W DF).

(** When the tracker raises, [track] appends one warning and leaves
    [schema] bound to the generated descriptor. *)
Lemma track_failure source_id schema e s s' :
  add_schema E source_id schema s = (Raise e, s') ->
  track E source_id schema s =
    (Ret schema,
     (fst s',
      snd s' ++ [(WARNING,
                  ("Schema evolution tracking failed: " ++ exn_msg e)%string)])).
Proof.
  intros H. unfold track. rewrite H. reflexivity.
Qed.

(** C1 (amended).  When the tracker raises, [run_dynamic_etl_bytes] does not
    pass the failure on: it logs one warning, carries on with the generated,
    untracked schema and returns the dict of a successful run, in which
    ["schema"] is the sanitized generated schema and ["schema_version"] is
    that schema's own ["version"] entry, or 1 when it has none. *)
Theorem tracking_failure_is_logged_and_defaulted
    file_bytes filename source_id tmp_path df fragments transformed_df
    transform_stats fields e records sanitized_schema s0 s1 s2 s3 s4 s5 :
  let sid := match source_id with
             | Some s => s
             | None => replace_spaces (fst (os_path_splitext E filename))
             end in
  write_temp E (snd (os_path_splitext E filename)) file_bytes s0
    = (Ret tmp_path, s1) ->
  extract_data E tmp_path s1 = (Ret (Some df, fragments), s2) ->
  df_empty E df = false ->
  run_transform_pipeline E df s2
    = (Ret (transformed_df, transform_stats), s3) ->
  generate_schema E transformed_df sid fragments s3 = (Ret (VDict fields), s4) ->
  add_schema E sid (VDict fields) s4 = (Raise e, s5) ->
  mapM (sanitize_record E) (to_records E transformed_df) = Ret records ->
  sanitize_for_mongo (VDict fields) = Ret sanitized_schema ->
  let warned :=
    (fst s5,
     snd s5 ++ [(WARNING,
                 ("Schema evolution tracking failed: " ++ exn_msg e)%string)]) in
  run_dynamic_etl_bytes E file_bytes filename source_id s0 =
    (Ret (full_result E sid df transformed_df transform_stats fragments records
            sanitized_schema (vdict_get_default "version" (VInt 1) fields)),
     snd (os_remove E tmp_path warned)).
Proof.
  intros sid Hw Hx Hne Ht Hg Ha Hr Hs warned.
  unfold run_dynamic_etl_bytes, finally_quiet, bindM. fold sid.
  rewrite Hw. unfold body, bindM. rewrite Hx, Hne, Ht, Hg.
  rewrite (track_failure _ _ _ _ _ Ha). fold warned.
  unfold lift. rewrite Hr, Hs. cbn. reflexivity.
Qed.

End PipelineProps.

(** The run of C1's counter-example: an upload of [orders 2024.json] while
    the schema store cannot be written. *)
Lemma tracking_failure_is_logged_and_defaulted_witness :
  DynamicEtl.run_dynamic_etl_bytes Samples.broken_store
      "[{'a': 1}]" "orders 2024.json" None ([], [])
  = (Py.Ret
       (full_result Samples.broken_store "orders_2024"
          [[(MongoSanitize.VStr "a", MongoSanitize.NpInteger 1)]]
          [[(MongoSanitize.VStr "a", MongoSanitize.NpInteger 1)]]
          [] (MongoSanitize.VList [])
          [[(MongoSanitize.VStr "a", MongoSanitize.VInt 1)]]
          (MongoSanitize.VDict
             [ (MongoSanitize.VStr "source_id", MongoSanitize.VStr "orders_2024");
               (MongoSanitize.VStr "fields",
                MongoSanitize.VList
                  [ MongoSanitize.VDict
                      [ (MongoSanitize.VStr "name", MongoSanitize.VStr "a");
                        (MongoSanitize.VStr "type", MongoSanitize.VStr "integer");
                        (MongoSanitize.VStr "nullable", MongoSanitize.VBool false) ] ]);
               (MongoSanitize.VStr "row_count", MongoSanitize.VInt 1) ])
          (MongoSanitize.VInt 1)),
     ([],
      [(Py.WARNING,
        "Schema evolution tracking failed: schema store is not writable")])).
Proof.
  exact (tracking_failure_is_logged_and_defaulted Samples.broken_store
           "[{'a': 1}]" "orders 2024.json" None "/tmp/tmp0.json"
           [[(MongoSanitize.VStr "a", MongoSanitize.NpInteger 1)]]
           (MongoSanitize.VList [])
           [[(MongoSanitize.VStr "a", MongoSanitize.NpInteger 1)]]
           [] _ Samples.store_down _ _
           ([], []) (["/tmp/tmp0.json"], []) (["/tmp/tmp0.json"], [])
           (["/tmp/tmp0.json"], []) (["/tmp/tmp0.json"], [])
           (["/tmp/tmp0.json"], [])
           eq_refl eq_refl eq_refl eq_refl eq_refl eq_refl eq_refl eq_refl).
Defined.

(** C1, refuted as stated.  With the schema store failing on every call the
    run still returns normally; the dict it returns has exactly the keys of
    a successful run, nothing in it tells the caller about the failure, and
    its ["schema_version"] is 1 although no version was ever assigned. *)
Lemma tracking_failure_not_reported :
  (forall sid schema s,
      fst (DynamicEtl.add_schema Samples.broken_store sid schema s)
      = Py.Raise Samples.store_down) /\
  exists result s',
    DynamicEtl.run_dynamic_etl_bytes Samples.broken_store
      "[{'a': 1}]" "orders 2024.json" None ([], []) = (Py.Ret result, s') /\
    map fst result =
      ["structured_data"; "schema"; "row_count"; "cleaning_stats";
       "parsed_fragments"; "source_id"; "schema_version"] /\
    In ("schema_version", MongoSanitize.VInt 1) result /\
    (forall schema,
        In ("schema", MongoSanitize.VDict schema) result ->
        DynamicEtl.vdict_get "version" schema = None).
Proof.
  split; [reflexivity|].
  eexists. eexists. split; [vm_compute; reflexivity|].
  split; [reflexivity|]. split.
  - simpl. do 6 right. left. reflexivity.
  - intros schema H. simpl in H.
    repeat (destruct H as [H|H]; [inversion H; subst; try reflexivity|]).
    contradiction.
Qed.

(* ===================================================================== *)
(** * Properties of the reader registry                                   *)
(* ===================================================================== *)

Section ReaderProps.
Import Py FileHandlers.
Context (X : Externals).

Lemma read_json_returns path lg :
  exists df,
    fst (read_json X path lg) = Ret (RFrame df) /\
    (forall e,
        bind (json_load_path X path) (safe_json_to_df (json_dumps X)) = Raise e ->
        df = empty_frame).
Proof.
  unfold read_json.
  destruct (bind (json_load_path X path) (safe_json_to_df (json_dumps X)))
    as [df|e0].
  - exists df. split; [reflexivity|]. discriminate.
  - exists empty_frame. split; reflexivity.
Qed.

Lemma try_html_none path flavor parser :
  no_table X path -> fst (try_html X path flavor parser) = None.
Proof.
  intros H. unfold try_html.
  destruct (pd_read_html X path flavor parser) as [[|t ts]|e] eqn:Hr;
    try reflexivity.
  exfalso. exact (H _ _ _ _ Hr).
Qed.

Lemma read_html_safely_returns path lg :
  exists df,
    fst (read_html_safely X path lg) = Ret (RFrame df) /\
    (no_table X path -> df = empty_frame).
Proof.
  unfold read_html_safely.
  destruct (try_html X path (Some "bs4") (Some "lxml")) as [[t|] o1] eqn:H1.
  { exists t. split; [reflexivity|]. intros Hn.
    pose proof (try_html_none path (Some "bs4") (Some "lxml") Hn) as Hx.
    rewrite H1 in Hx. discriminate. }
  destruct (try_html X path (Some "bs4") (Some "html5lib")) as [[t|] o2] eqn:H2.
  { exists t. split; [reflexivity|]. intros Hn.
    pose proof (try_html_none path (Some "bs4") (Some "html5lib") Hn) as Hx.
    rewrite H2 in Hx. discriminate. }
  destruct (try_html X path None None) as [[t|] [e|]] eqn:H3.
  - exists t. split; [reflexivity|]. intros Hn.
    pose proof (try_html_none path None None Hn) as Hx.
    rewrite H3 in Hx. discriminate.
  - exists t. split; [reflexivity|]. intros Hn.
    pose proof (try_html_none path None None Hn) as Hx.
    rewrite H3 in Hx. discriminate.
  - exists empty_frame. split; reflexivity.
  - exists empty_frame. split; reflexivity.
Qed.

Lemma read_xml_safely_returns path lg :
  exists df,
    fst (read_xml_safely X path lg) = Ret (RFrame df) /\
    (forall e, pd_read_xml X path = Raise e -> df = empty_frame).
Proof.
  unfold read_xml_safely. destruct (pd_read_xml X path) as [df|e0].
  - exists df. split; [reflexivity|]. discriminate.
  - exists empty_frame. split; reflexivity.
Qed.

(** C2 (amended).  The [json], [html] and [xml] entries of [READERS] return
    a frame for every path and never raise, and return the empty frame when
    the parse behind them fails. *)
Theorem safe_entries_never_raise ext reader path lg :
  In ext ["json"; "html"; "xml"] ->
  lookup_reader ext (READERS X) = Some reader ->
  exists df,
    fst (reader path lg) = Ret (RFrame df) /\
    (parse_fails X ext path -> df = empty_frame).
Proof.
  intros Hin Hl. simpl in Hin.
  destruct Hin as [<-|[<-|[<-|[]]]]; cbn in Hl; inversion Hl; subst reader;
    unfold parse_fails; cbn.
  - destruct (read_json_returns path lg) as (df & H1 & H2).
    exists df. split; [exact H1|]. intros [e He]. exact (H2 e He).
  - exact (read_html_safely_returns path lg).
  - destruct (read_xml_safely_returns path lg) as (df & H1 & H2).
    exists df. split; [exact H1|]. intros [e He]. exact (H2 e He).
Qed.

End ReaderProps.

(** The [json] entry on a path that does not exist. *)
Lemma safe_entries_never_raise_witness :
  exists df,
    fst (FileHandlers.read_json Samples.no_files "missing.json" [])
    = Py.Ret (FileHandlers.RFrame df) /\
    (parse_fails Samples.no_files "json" "missing.json" ->
     df = FileHandlers.empty_frame).
Proof.
  apply (safe_entries_never_raise Samples.no_files "json"
           (FileHandlers.read_json Samples.no_files) "missing.json" []).
  - simpl. left. reflexivity.
  - reflexivity.
Defined.

(** C2, refuted as stated.  The [csv], [xlsx], [xls], [tsv] and [parquet]
    entries are pandas' readers called with nothing around them: on a path
    that does not exist each of them raises. *)
Lemma pandas_entries_raise :
  let raises ext :=
    exists reader,
      FileHandlers.lookup_reader ext (FileHandlers.READERS Samples.no_files)
      = Some reader /\
      fst (reader "missing" []) = Py.Raise Samples.no_such_file in
  raises "csv" /\ raises "xlsx" /\ raises "xls" /\ raises "tsv" /\
  raises "parquet".
Proof.
  repeat split; eexists; (split; [reflexivity|reflexivity]).
Qed.

(* ===================================================================== *)
(** * Properties of the sanitizer                                         *)
(* ===================================================================== *)

Section SanitizeProps.
Import Py MongoSanitize.

Lemma mapM_sanitize l :
  Forall (fun v => dimensioned v = true ->
                   exists v', sanitize_for_mongo v = Ret v' /\ Sanitized v v') l ->
  forallb dimensioned l = true ->
  exists l', mapM sanitize_for_mongo l = Ret l' /\ Forall2 Sanitized l l'.
Proof.
  induction 1 as [|v l Hv _ IH]; intros Hd; simpl in *.
  - exists []. split; [reflexivity|constructor].
  - apply andb_true_iff in Hd. destruct Hd as [Hd1 Hd2].
    destruct (Hv Hd1) as (v' & Ev & Sv). destruct (IH Hd2) as (l' & El & Sl).
    exists (v' :: l'). rewrite Ev, El. split; [reflexivity|].
    constructor; assumption.
Qed.

(** Away from arrays without a dimension the sanitizer returns, and what
    it returns is the sanitized tree. *)
Lemma sanitize_dimensioned v :
  dimensioned v = true ->
  exists v', sanitize_for_mongo v = Ret v' /\ Sanitized v v'.
Proof.
  induction v using pyval_tree_ind; intros Hd;
    try (eexists; split; [reflexivity|constructor]; fail).
  - destruct (mapM_sanitize l H Hd) as (l' & El & Sl).
    exists (VList l'). simpl. rewrite El. split; [reflexivity|].
    constructor. exact Sl.
  - destruct (mapM_sanitize l H Hd) as (l' & El & Sl).
    exists (VList l'). simpl. rewrite El. split; [reflexivity|].
    constructor. exact Sl.
  - simpl in Hd.
    assert (exists d',
               mapM (fun kv => match sanitize_for_mongo (snd kv) with
                               | Ret v => Ret (fst kv, v)
                               | Raise e => Raise e
                               end) d = Ret d' /\
               Forall2 (fun kv kv' => fst kv' = fst kv /\
                                      Sanitized (snd kv) (snd kv')) d d')
      as (d' & Ed & Sd).
    { induction H as [|kv d Hkv _ IH]; simpl in *.
      - exists []. split; [reflexivity|constructor].
      - apply andb_true_iff in Hd. destruct Hd as [Hd1 Hd2].
        destruct (Hkv Hd1) as (v' & Ev & Sv).
        destruct (IH Hd2) as (d' & Ed & Sd).
        exists ((fst kv, v') :: d'). rewrite Ev, Ed.
        split; [reflexivity|]. constructor; [split; [reflexivity|exact Sv]|exact Sd]. }
    exists (VDict d'). simpl. rewrite Ed. split; [reflexivity|].
    constructor. exact Sd.
  - destruct (mapM_sanitize l H Hd) as (l' & El & Sl).
    exists (VList l'). simpl. rewrite El. split; [reflexivity|].
    constructor. exact Sl.
  - discriminate.
Qed.

(** C3, at the input on which the code departs from it: for the array
    [np.array(5)], whose [tolist()] is the bare integer 5, the comprehension
    has nothing to iterate over and the sanitizer raises [TypeError]; no
    list comes back. *)
Theorem sanitize_array_without_dimension :
  sanitize_for_mongo (NdArray0 (VInt 5)) = Raise not_iterable /\
  forall v', sanitize_for_mongo (NdArray0 (VInt 5)) <> Ret v'.
Proof.
  split; [reflexivity|]. intros v'. discriminate.
Qed.

End SanitizeProps.

(* ===================================================================== *)
(** * Properties of the shape normalizer                                  *)
(* ===================================================================== *)

Section DictFacts.
Import Py.

Lemma dict_get_None k (d : pydict) :
  dict_get k d = None <-> ~ In k (map fst d).
Proof.
  induction d as [|[k' v] d IH]; simpl.
  - tauto.
  - destruct (String.eqb_spec k k') as [->|Hne].
    + split; [discriminate|]. intros H. exfalso. apply H. left. reflexivity.
    + rewrite IH. split.
      * intros H [E|I]; [apply Hne; symmetry; exact E|exact (H I)].
      * intros H I. apply H. right. exact I.
Qed.

Lemma dict_get_In k v (d : pydict) :
  NoDup (map fst d) -> In (k, v) d -> dict_get k d = Some v.
Proof.
  induction d as [|[k' v'] d IH]; simpl; intros Hnd Hin; [contradiction|].
  inversion Hnd as [|? ? Hni Hnd']; subst.
  destruct Hin as [E|Hin].
  - inversion E; subst. rewrite String.eqb_refl. reflexivity.
  - destruct (String.eqb_spec k k') as [->|Hne].
    + exfalso. apply Hni. apply (in_map fst) in Hin. exact Hin.
    + exact (IH Hnd' Hin).
Qed.

Lemma dict_get_set_same k v (d : pydict) :
  dict_get k (dict_set k v d) = Some v.
Proof.
  induction d as [|[k' v'] d IH]; simpl.
  - rewrite String.eqb_refl. reflexivity.
  - destruct (String.eqb_spec k k') as [->|Hne]; simpl.
    + rewrite String.eqb_refl. reflexivity.
    + destruct (String.eqb_spec k k') as [E|_]; [contradiction|exact IH].
Qed.

Lemma dict_get_set_other k k' v (d : pydict) :
  k <> k' -> dict_get k (dict_set k' v d) = dict_get k d.
Proof.
  intros Hne. induction d as [|[k0 v0] d IH]; simpl.
  - destruct (String.eqb_spec k k') as [E|_]; [contradiction|reflexivity].
  - destruct (String.eqb_spec k' k0) as [->|Hne0]; simpl.
    + destruct (String.eqb_spec k k0) as [E|_]; [contradiction|reflexivity].
    + destruct (String.eqb_spec k k0); [reflexivity|exact IH].
Qed.

Lemma dict_set_keys {V} k (v : V) d :
  map fst (dict_set k v d) =
  if existsb (String.eqb k) (map fst d) then map fst d else map fst d ++ [k].
Proof.
  induction d as [|[k' v'] d IH]; simpl; [reflexivity|].
  destruct (String.eqb_spec k k') as [->|Hne]; simpl; [reflexivity|].
  rewrite IH. destruct (existsb (String.eqb k) (map fst d)); reflexivity.
Qed.

Lemma existsb_eqb_In k (l : list string) :
  existsb (String.eqb k) l = true <-> In k l.
Proof.
  rewrite existsb_exists. split.
  - intros (x & Hx & E). apply String.eqb_eq in E. subst. exact Hx.
  - intros H. exists k. split; [exact H|apply String.eqb_refl].
Qed.

Lemma dict_set_keys_NoDup {V} k (v : V) d :
  NoDup (map fst d) -> NoDup (map fst (dict_set k v d)).
Proof.
  intros Hnd. rewrite dict_set_keys.
  destruct (existsb (String.eqb k) (map fst d)) eqn:E; [exact Hnd|].
  apply NoDup_app; [exact Hnd|repeat constructor; intros []|].
  intros x Hx [->|[]].
  assert (existsb (String.eqb x) (map fst d) = true) as C
      by (apply existsb_eqb_In; exact Hx).
  rewrite C in E. discriminate.
Qed.

(** Filling a dict key by key from pairs with distinct, fresh keys appends
    them in order. *)
Lemma fold_dict_set_fresh {V A} (key : A -> string) (val : A -> V) l acc :
  NoDup (map fst acc ++ map key l) ->
  fold_left (fun acc a => dict_set (key a) (val a) acc) l acc
  = acc ++ map (fun a => (key a, val a)) l.
Proof.
  revert acc. induction l as [|a l IH]; intros acc Hnd; simpl.
  - rewrite app_nil_r. reflexivity.
  - assert (dict_set (key a) (val a) acc = acc ++ [(key a, val a)]) as E.
    { clear IH. induction acc as [|[k' v'] acc IHa]; simpl; [reflexivity|].
      simpl in Hnd. inversion Hnd as [|? ? Hni Hnd']; subst.
      destruct (String.eqb_spec (key a) k') as [E|Hne].
      - exfalso. apply Hni. apply in_or_app. right. left. exact E.
      - rewrite (IHa Hnd'). reflexivity. }
    rewrite E, IH.
    + rewrite <- app_assoc. reflexivity.
    + rewrite map_app. simpl. rewrite <- app_assoc. exact Hnd.
Qed.

End DictFacts.

Section RecordFacts.
Import Py FileHandlers.


Lemma add_keys_NoDup ks seen : NoDup seen -> NoDup (add_keys ks seen).
Proof.
  revert seen. induction ks as [|a ks IH]; intros seen Hnd; simpl; [exact Hnd|].
  apply IH. destruct (existsb (String.eqb a) seen) eqn:E; [exact Hnd|].
  apply NoDup_app; [exact Hnd|repeat constructor; intros []|].
  intros x Hx [->|[]].
  apply existsb_eqb_In in Hx. rewrite Hx in E. discriminate.
Qed.


Lemma fold_add_keys_NoDup recs seen :
  NoDup seen ->
  NoDup (fold_left (fun seen (r : pydict) => add_keys (map fst r) seen) recs seen).
Proof.
  revert seen. induction recs as [|r recs IH]; intros seen Hnd; simpl;
    [exact Hnd|]. apply IH, add_keys_NoDup, Hnd.
Qed.


Lemma union_keys_NoDup recs : NoDup (union_keys recs).
Proof. apply fold_add_keys_NoDup. constructor. Qed.

Lemma combine_map {A B C} (f : A -> B) (g : A -> C) l :
  combine (map f l) (map g l) = map (fun x => (f x, g x)) l.
Proof. induction l; simpl; congruence. Qed.

(** The records of a frame built from a list of dicts. *)
Lemma to_records_of_records recs :
  to_records (DataFrame_of_records recs) =
  map (fun r => map (fun c => (LStr c, cell_of r c)) (union_keys recs)) recs.
Proof.
  unfold to_records, DataFrame_of_records. simpl. rewrite map_map.
  apply map_ext. intros r. apply combine_map.
Qed.

Section Folds.
Context {A V : Type} (key : A -> string) (val : A -> V).

Let step := fun (row : list (string * V)) (a : A) =>
  dict_set (key a) (val a) row.

Lemma fold_set_keys k l row :
  In k (map fst (fold_left step l row)) <-> In k (map fst row) \/ In k (map key l).
Proof.
  revert row. induction l as [|a l IH]; intros row; simpl; [tauto|].
  rewrite IH. unfold step. rewrite dict_set_keys.
  destruct (existsb (String.eqb (key a)) (map fst row)) eqn:E.
  - apply existsb_eqb_In in E. split; [tauto|].
    intros [H|[<-|H]]; auto.
  - rewrite in_app_iff. simpl. tauto.
Qed.

Lemma fold_set_keys_NoDup l row :
  NoDup (map fst row) -> NoDup (map fst (fold_left step l row)).
Proof.
  revert row. induction l as [|a l IH]; intros row Hnd; simpl; [exact Hnd|].
  apply IH. apply dict_set_keys_NoDup. exact Hnd.
Qed.

End Folds.

Section FoldsGet.
Context {A : Type} (key : A -> string) (val : A -> json).

Let step := fun (row : pydict) (a : A) => dict_set (key a) (val a) row.

Lemma fold_set_get_other c l row :
  ~ In c (map key l) -> dict_get c (fold_left step l row) = dict_get c row.
Proof.
  revert row. induction l as [|a l IH]; intros row Hni; simpl; [reflexivity|].
  simpl in Hni. rewrite IH by tauto. unfold step.
  apply dict_get_set_other. intros E. apply Hni. left. symmetry. exact E.
Qed.

Lemma fold_set_get a l row :
  NoDup (map key l) -> In a l ->
  dict_get (key a) (fold_left step l row) = Some (val a).
Proof.
  revert row. induction l as [|b l IH]; intros row Hnd Hin; simpl;
    [contradiction|].
  inversion Hnd as [|? ? Hni Hnd']; subst. destruct Hin as [->|Hin].
  - rewrite fold_set_get_other by exact Hni. apply dict_get_set_same.
  - apply IH; assumption.
Qed.

End FoldsGet.

Section Normalize.
Variable json_dumps : json -> string.

Lemma normalize_item_dict d :
  normalize_item json_dumps (JDict d) =
  fold_left (fun row kv => dict_set (fst kv) (stored json_dumps (snd kv)) row)
            d [].
Proof.
  unfold normalize_item. generalize (@nil (string * json)).
  induction d as [|[k v] d IH]; intros row; simpl; [reflexivity|].
  rewrite IH. unfold stored. simpl.
  destruct (is_dict v || is_list v); reflexivity.
Qed.

Lemma normalize_item_keys k item :
  In k (map fst (normalize_item json_dumps item)) <-> In k (item_keys item).
Proof.
  destruct item; try (simpl; tauto).
  rewrite normalize_item_dict, fold_set_keys. simpl. tauto.
Qed.

Lemma normalize_item_absent c item :
  absent c item -> dict_get c (normalize_item json_dumps item) = None.
Proof.
  intros H. apply dict_get_None. rewrite normalize_item_keys.
  destruct item; simpl in *; try (intros [E|[]]; apply H; symmetry; exact E).
  apply dict_get_None. exact H.
Qed.

Lemma normalize_item_get d k v :
  NoDup (map fst d) -> In (k, v) d ->
  dict_get k (normalize_item json_dumps (JDict d)) = Some (stored json_dumps v).
Proof.
  intros Hnd Hin. rewrite normalize_item_dict.
  exact (fold_set_get fst (fun kv => stored json_dumps (snd kv)) (k, v) d []
           Hnd Hin).
Qed.

End Normalize.

End RecordFacts.

Section ShapeProps.
Import Py FileHandlers.
Variable json_dumps : json -> string.



Lemma In_record_cell (r : pydict) c v cols :
  In (LStr c, v) (map (fun c => (LStr c, cell_of r c)) cols) ->
  In c cols /\ v = cell_of r c.
Proof.
  rewrite in_map_iff. intros (c' & E & Hin). inversion E; subst. auto.
Qed.



End ShapeProps.



Section FrameProps.
Import Py FileHandlers.
Variable json_dumps : json -> string.

Lemma clean_columns_fold d :
  clean_columns d =
  fold_left (fun cleaned kv => dict_set (fst kv) (padded (max_len d) (snd kv)) cleaned)
            d [].
Proof.
  unfold clean_columns. generalize (max_len d) as n. intros n.
  generalize (@nil (string * list json)).
  induction d as [|[k v] d IH]; intros acc; simpl; [reflexivity|].
  rewrite IH. destruct v; reflexivity.
Qed.

Lemma clean_columns_NoDup d : NoDup (map fst (clean_columns d)).
Proof.
  rewrite clean_columns_fold.
  apply (fold_set_keys_NoDup fst (fun kv => padded (max_len d) (snd kv))).
  constructor.
Qed.

Lemma NoDup_map_LStr l : NoDup l -> NoDup (map LStr l).
Proof.
  induction 1 as [|x l Hni _ IH]; simpl; constructor; [|exact IH].
  rewrite in_map_iff. intros (y & E & Hy). inversion E; subst. exact (Hni Hy).
Qed.

Lemma map_fst_combine_same {A B} (l : list A) (r : list B) :
  List.length r = List.length l -> map fst (combine l r) = l.
Proof.
  revert r. induction l as [|a l IH]; intros [|b r] H; simpl in *;
    try reflexivity; try discriminate.
  f_equal. apply IH. congruence.
Qed.

Lemma frame_of_columns cols df :
  DataFrame_of_columns cols = Ret df ->
  columns df = map LStr (map fst cols) /\
  forall row, In row (rows df) -> List.length row = List.length cols.
Proof.
  unfold DataFrame_of_columns. destruct cols as [|[k0 c0] cols'].
  - intros H. inversion H; subst. simpl. split; [reflexivity|intros ? []].
  - set (cols := (k0, c0) :: cols').
    destruct (forallb _ cols); [|discriminate].
    intros H. inversion H; subst df; clear H. simpl columns. simpl rows. split.
    + rewrite map_map. reflexivity.
    + intros row Hrow. apply in_map_iff in Hrow. destruct Hrow as (i & <- & _).
      unfold cols. simpl. rewrite length_map. reflexivity.
Qed.

(** C6.  In every frame [safe_json_to_df] returns the columns are pairwise
    distinct and every row is a record over exactly those columns, so all
    rows have one set of field names; and where an element of a sequence
    payload has no value for a column, its row holds the null marker there. *)
Theorem rows_share_field_names data df :
  safe_json_to_df json_dumps data = Ret df ->
  NoDup (columns df) /\
  (forall rec, In rec (to_records df) -> map fst rec = columns df) /\
  (forall items i item rec c v,
      data = JList items ->
      nth_error items i = Some item ->
      nth_error (to_records df) i = Some rec ->
      In (LStr c, v) rec ->
      absent c item ->
      is_null v = true).
Proof.
  intros Hdf.
  assert (forall row, In row (rows df) ->
                      List.length row = List.length (columns df)) as Hlen.
  { destruct data; simpl in Hdf;
      try (inversion Hdf; subst df; simpl; intros row [<-|[]]; reflexivity).
    - inversion Hdf; subst df. simpl. intros row Hrow.
      apply in_map_iff in Hrow. destruct Hrow as (r & <- & _).
      rewrite !length_map. reflexivity.
    - destruct (frame_of_columns _ _ Hdf) as [Hc Hr].
      intros row Hrow. rewrite Hc, !length_map. exact (Hr row Hrow). }
  split; [|split].
  - destruct data; simpl in Hdf;
      try (inversion Hdf; subst df; simpl; repeat constructor; intros []).
    + inversion Hdf; subst df. simpl.
      apply NoDup_map_LStr, union_keys_NoDup.
    + destruct (frame_of_columns _ _ Hdf) as [Hc _]. rewrite Hc.
      apply NoDup_map_LStr, clean_columns_NoDup.
  - intros rec Hrec. unfold to_records in Hrec.
    apply in_map_iff in Hrec. destruct Hrec as (row & <- & Hrow).
    apply map_fst_combine_same. exact (Hlen row Hrow).
  - intros items i item rec c v -> Hi Hrec Hin Habs.
    simpl in Hdf. inversion Hdf; subst df; clear Hdf.
    rewrite to_records_of_records, nth_error_map, nth_error_map, Hi in Hrec.
    simpl in Hrec. inversion Hrec; subst rec; clear Hrec.
    apply In_record_cell in Hin. destruct Hin as [_ ->].
    unfold cell_of. rewrite (normalize_item_absent json_dumps c item Habs).
    reflexivity.
Qed.

End FrameProps.

(** The spec's first scenario: [b] is missing from the second element. *)
Lemma rows_share_field_names_witness :
  let df := FileHandlers.mkDF
              [FileHandlers.LStr "a"; FileHandlers.LStr "b"]
              [[Py.JInt 1; Py.JStr "x"]; [Py.JInt 2; FileHandlers.NaN]] in
  NoDup (FileHandlers.columns df) /\
  (forall rec, In rec (FileHandlers.to_records df) ->
               map fst rec = FileHandlers.columns df) /\
  (forall items i item rec c v,
      Py.JList [ Py.JDict [("a", Py.JInt 1); ("b", Py.JStr "x")];
                 Py.JDict [("a", Py.JInt 2)] ] = Py.JList items ->
      nth_error items i = Some item ->
      nth_error (FileHandlers.to_records df) i = Some rec ->
      In (FileHandlers.LStr c, v) rec ->
      absent c item ->
      FileHandlers.is_null v = true).
Proof.
  exact (rows_share_field_names Samples.dumps
           (Py.JList [ Py.JDict [("a", Py.JInt 1); ("b", Py.JStr "x")];
                       Py.JDict [("a", Py.JInt 2)] ])
           _ eq_refl).
Defined.

Section MappingProps.
Import Py FileHandlers.
Variable json_dumps : json -> string.

Lemma fold_max_ge l acc :
  acc <= fold_left Z.max l acc /\
  forall x, In x l -> x <= fold_left Z.max l acc.
Proof.
  revert acc. induction l as [|y l IH]; intros acc; simpl.
  - split; [lia|intros ? []].
  - destruct (IH (Z.max acc y)) as [H1 H2]. split; [lia|].
    intros x [<-|Hx]; [lia|exact (H2 x Hx)].
Qed.

Lemma max_default_ge l d x : In x l -> x <= max_default l d.
Proof.
  destruct l as [|y l]; simpl; [intros []|].
  destruct (fold_max_ge l y) as [H1 H2].
  intros [<-|Hx]; [exact H1|exact (H2 x Hx)].
Qed.

Lemma max_len_ge d k l : In (k, JList l) d -> py_len l <= max_len d.
Proof.
  intros Hin. unfold max_len. apply max_default_ge.
  apply in_flat_map. exists (k, JList l). split; [exact Hin|].
  simpl. left. reflexivity.
Qed.

Lemma list_mul_single {A} (x : A) n : list_mul [x] n = repeat x (Z.to_nat n).
Proof.
  unfold list_mul. induction (Z.to_nat n) as [|m IH]; simpl; congruence.
Qed.

Lemma padded_expected n value :
  padded n value = expected_column (Z.to_nat n) value.
Proof.
  destruct value; simpl; rewrite list_mul_single;
    try (f_equal; f_equal; lia).
  unfold py_len. f_equal. f_equal. lia.
Qed.

Lemma clean_columns_fresh d :
  NoDup (map fst d) ->
  clean_columns d =
  map (fun kv => (fst kv, expected_column (Z.to_nat (max_len d)) (snd kv))) d.
Proof.
  intros Hnd. rewrite clean_columns_fold.
  rewrite (fold_dict_set_fresh fst (fun kv => padded (max_len d) (snd kv)) d [])
    by exact Hnd.
  simpl. apply map_ext. intros kv. rewrite padded_expected. reflexivity.
Qed.

Lemma expected_column_length d k v :
  In (k, v) d ->
  1 <= max_len d \/ all_sequences d ->
  List.length (expected_column (Z.to_nat (max_len d)) v) = Z.to_nat (max_len d).
Proof.
  intros Hin Hok.
  destruct v; simpl;
    try (rewrite repeat_length;
         destruct Hok as [H|H]; [lia|apply H in Hin; discriminate]).
  rewrite length_app, repeat_length.
  pose proof (max_len_ge d k l Hin) as Hle. unfold py_len in Hle. lia.
Qed.

Lemma frame_of_equal_columns (cols : list (string * list json)) n :
  cols <> [] ->
  (forall kc, In kc cols -> List.length (snd kc) = n) ->
  DataFrame_of_columns cols =
  Ret (mkDF (map (fun kc => LStr (fst kc)) cols)
            (map (fun i => map (fun kc => nth i (snd kc) JNull) cols) (seq 0 n))).
Proof.
  intros Hne Hlen. unfold DataFrame_of_columns.
  destruct cols as [|[k0 c0] cols'] eqn:E; [contradiction|]. rewrite <- E in *.
  assert (List.length c0 = n) as L0
    by (apply (Hlen (k0, c0)); rewrite E; left; reflexivity).
  rewrite L0.
  assert (forallb (fun kc : string * list json => Nat.eqb (List.length (snd kc)) n)
                  cols = true) as Hall.
  { apply forallb_forall. intros kc Hkc. apply Nat.eqb_eq. exact (Hlen kc Hkc). }
  rewrite Hall. reflexivity.
Qed.

(** Away from the one class of inputs on which it raises, a mapping
    payload with distinct keys gives a frame with one column per key and as
    many rows as the longest sequence; row [i] holds, under each key, cell
    [i] of the sequence padded with [None], or of the scalar followed by
    [None]s. *)
Lemma mapping_payload_rows d :
  d <> [] ->
  NoDup (map fst d) ->
  1 <= max_len d \/ all_sequences d ->
  exists df,
    safe_json_to_df json_dumps (JDict d) = Ret df /\
    columns df = map LStr (map fst d) /\
    py_len (rows df) = max_len d /\
    forall i, (i < Z.to_nat (max_len d))%nat ->
      nth_error (rows df) i =
      Some (map (fun kv =>
                   nth i (expected_column (Z.to_nat (max_len d)) (snd kv)) JNull)
                d).
Proof.
  intros Hne Hnd Hok. simpl. rewrite (clean_columns_fresh d Hnd).
  assert (0 <= max_len d) as Hpos.
  { destruct d as [|[k v] d']; [contradiction|].
    destruct Hok as [H|H]; [lia|].
    assert (is_list v = true) as Hv by (apply (H k); left; reflexivity).
    destruct v; try discriminate.
    pose proof (max_len_ge ((k, JList l) :: d') k l (or_introl eq_refl)).
    unfold py_len in *. lia. }
  set (n := Z.to_nat (max_len d)) in *.
  rewrite (frame_of_equal_columns _ n).
  - eexists. split; [reflexivity|]. simpl columns. simpl rows.
    split; [|split].
    + rewrite !map_map. reflexivity.
    + unfold py_len. rewrite length_map, length_seq. unfold n. lia.
    + intros i Hi. rewrite nth_error_map.
      assert (nth_error (seq 0 n) i = Some i) as Hs.
      { rewrite nth_error_nth' with (d := 0%nat) by (rewrite length_seq; exact Hi).
        rewrite seq_nth by exact Hi. reflexivity. }
      rewrite Hs. simpl. rewrite map_map. reflexivity.
  - destruct d; [contradiction|discriminate].
  - intros kc Hkc. apply in_map_iff in Hkc.
    destruct Hkc as ([k v] & <- & Hin). simpl.
    exact (expected_column_length d k v Hin Hok).
Qed.

(** The spec's scenario for a mapping payload. *)
Lemma mapping_payload_scenario :
  safe_json_to_df json_dumps
    (JDict [("a", JList [JInt 1; JInt 2; JInt 3]); ("b", JStr "const")])
  = Ret (mkDF [LStr "a"; LStr "b"]
              [ [JInt 1; JStr "const"]; [JInt 2; JNull]; [JInt 3; JNull] ]).
Proof. reflexivity. Qed.

(** C4, at the input on which the code departs from it.  For
    [{"a": [], "b": "const"}] the longest sequence has length 0, so the
    claim asks for a frame without rows.  The code pads the scalar with
    [[None] * (0 - 1)], which is empty, and so builds a column of length 1
    beside a column of length 0; pandas refuses the pair and the function
    raises [ValueError]. *)
Theorem empty_sequence_beside_scalar_raises :
  let data := [("a", JList []); ("b", JStr "const")] in
  max_len data = 0 /\
  clean_columns data = [("a", []); ("b", [JStr "const"])] /\
  safe_json_to_df json_dumps (JDict data)
  = Raise (ValueError "All arrays must be of the same length").
Proof. repeat split. Qed.

End MappingProps.

(* ===================================================================== *)
(** * Properties of the schema diff                                       *)
(* ===================================================================== *)

Section FieldsFacts.
Import Py SchemaDiff.

Lemma py_eq_str n k : py_eq (JStr n) k = true <-> k = JStr n.
Proof.
  split.
  - destruct k; simpl; try discriminate.
    intros H. apply String.eqb_eq in H. subst. reflexivity.
  - intros ->. simpl. apply String.eqb_refl.
Qed.

Lemma self_equal_str n : self_equal (JStr n).
Proof. apply py_eq_str. reflexivity. Qed.

Lemma self_equal_bool b : self_equal (JBool b).
Proof. destruct b; reflexivity. Qed.

Lemma key_mem_In k ks : self_equal k -> In k ks -> key_mem k ks = true.
Proof.
  intros Hk Hin. unfold key_mem. apply existsb_exists. exists k. auto.
Qed.

Lemma key_mem_bound k fs :
  key_mem k (map fst fs) = true <-> exists f, fields_get k fs = Some f.
Proof.
  induction fs as [|[k' f'] fs IH]; simpl.
  - split; [discriminate|intros [f H]; discriminate].
  - destruct (py_eq k k'); simpl; [|exact IH].
    split; [intros _; eauto|reflexivity].
Qed.

Lemma key_mem_unbound k fs :
  key_mem k (map fst fs) = false <-> fields_get k fs = None.
Proof.
  pose proof (key_mem_bound k fs) as H.
  destruct (key_mem k (map fst fs)), (fields_get k fs) as [f|].
  - split; discriminate.
  - destruct (proj1 H eq_refl) as [f Hf]. discriminate.
  - pose proof (proj2 H (ex_intro _ f eq_refl)). discriminate.
  - split; reflexivity.
Qed.

Lemma fields_get_str_In n f fs :
  fields_get (JStr n) fs = Some f -> In (JStr n, f) fs.
Proof.
  induction fs as [|[k' f'] fs IH]; cbn [fields_get]; [discriminate|].
  destruct (py_eq (JStr n) k') eqn:E.
  - apply py_eq_str in E. subst. intros H. inversion H. left. reflexivity.
  - intros H. right. exact (IH H).
Qed.

Lemma fields_index_bound fs name :
  key_mem name (map fst fs) = true ->
  fields_index fs name = Ret (bound fs name).
Proof.
  intros H. apply key_mem_bound in H. destruct H as [f Hf].
  unfold fields_index, bound. rewrite Hf. reflexivity.
Qed.

Lemma mapM_total {A B} (f : A -> outcome B) (g : A -> B) l :
  (forall x, In x l -> f x = Ret (g x)) -> mapM f l = Ret (map g l).
Proof.
  induction l as [|a l IH]; intros H; simpl; [reflexivity|].
  rewrite (H a (or_introl eq_refl)), IH; [reflexivity|].
  intros x Hx. apply H. right. exact Hx.
Qed.

Lemma changed_loop_total old_fields new_fields names :
  (forall name, In name names ->
     key_mem name (map fst old_fields) = true /\
     key_mem name (map fst new_fields) = true) ->
  changed_loop old_fields new_fields names =
  Ret (flat_map (entry_of old_fields new_fields) names).
Proof.
  induction names as [|name names IH]; intros H; simpl; [reflexivity|].
  destruct (H name (or_introl eq_refl)) as [Ho Hn].
  rewrite (fields_index_bound _ _ Ho), (fields_index_bound _ _ Hn), IH.
  - unfold entry_of. destruct (change_of name _ _); reflexivity.
  - intros x Hx. apply H. right. exact Hx.
Qed.

Lemma set_diff_In k a b :
  In k (set_diff a b) <-> In k a /\ key_mem k b = false.
Proof.
  unfold set_diff. rewrite filter_In, negb_true_iff. tauto.
Qed.

Lemma set_inter_In k a b :
  In k (set_inter a b) <-> In k a /\ key_mem k b = true.
Proof. unfold set_inter. rewrite filter_In. tauto. Qed.

End FieldsFacts.

Section DiffProps.
Import Py SchemaDiff.

Variable py_str : json -> string.
Variable set_order : list json -> list json.

(** All that is known of the iteration order of a set. *)
Hypothesis set_order_perm : forall l, Permutation (set_order l) l.

Lemma set_order_In k l : In k (set_order l) <-> In k l.
Proof.
  split; apply Permutation_in;
    [apply set_order_perm|apply Permutation_sym, set_order_perm].
Qed.

(** Once both sides are canonicalized and every name is self-equal, the
    comparison returns, and this is what it returns. *)
Lemma compare_schemas_returns old new old_fields new_fields :
  fields_or_empty py_str old = Ret old_fields ->
  fields_or_empty py_str (Some new) = Ret new_fields ->
  Forall self_equal (map fst old_fields) ->
  Forall self_equal (map fst new_fields) ->
  let old_names := map fst old_fields in
  let new_names := map fst new_fields in
  let added := map (bound new_fields)
                   (set_order (set_diff new_names old_names)) in
  let removed := map (bound old_fields)
                     (set_order (set_diff old_names new_names)) in
  compare_schemas py_str set_order old new =
  Ret (mkDiff added removed
         (flat_map (entry_of old_fields new_fields)
                   (set_order (set_inter old_names new_names)))
         (map display_name added) (map display_name removed)
         (py_len old_fields) (py_len new_fields)).
Proof.
  intros Ho Hn Hso Hsn old_names new_names added removed.
  unfold compare_schemas. rewrite Ho, Hn. fold old_names new_names.
  rewrite Forall_forall in Hso, Hsn.
  rewrite (mapM_total _ (bound new_fields)).
  2:{ intros x Hx. apply set_order_In, set_diff_In in Hx. destruct Hx as [Hx _].
      apply fields_index_bound, key_mem_In; auto. }
  rewrite (mapM_total _ (bound old_fields)).
  2:{ intros x Hx. apply set_order_In, set_diff_In in Hx. destruct Hx as [Hx _].
      apply fields_index_bound, key_mem_In; auto. }
  rewrite changed_loop_total; [reflexivity|].
  intros x Hx. apply set_order_In, set_inter_In in Hx. destruct Hx as [Hx Hm].
  split; [apply key_mem_In; auto|exact Hm].
Qed.

Lemma fields_get_In k f fs :
  fields_get k fs = Some f -> exists k', In (k', f) fs.
Proof.
  induction fs as [|[k' f'] fs IH]; simpl; [discriminate|].
  destruct (py_eq k k').
  - intros H. inversion H; subst. exists k'. left. reflexivity.
  - intros H. destruct (IH H) as [k0 H0]. exists k0. right. exact H0.
Qed.

Lemma set_order_nil : set_order [] = [].
Proof. apply Permutation_nil, Permutation_sym, set_order_perm. Qed.

Lemma set_diff_self names : Forall self_equal names -> set_diff names names = [].
Proof.
  intros H. rewrite Forall_forall in H. unfold set_diff.
  assert (forall l, (forall k, In k l -> In k names) ->
                    filter (fun k => negb (key_mem k names)) l = []) as G.
  { induction l as [|k l IH]; intros Hl; simpl; [reflexivity|].
    rewrite key_mem_In; [|apply H, Hl; left; reflexivity
                         |apply Hl; left; reflexivity].
    simpl. apply IH. intros x Hx. apply Hl. right. exact Hx. }
  apply G. auto.
Qed.

Lemma flat_map_nil {A B} (f : A -> list B) l :
  (forall x, In x l -> f x = []) -> flat_map f l = [].
Proof.
  induction l as [|a l IH]; intros H; simpl; [reflexivity|].
  rewrite (H a (or_introl eq_refl)), IH; [reflexivity|].
  intros x Hx. apply H. right. exact Hx.
Qed.

Lemma entry_of_In c old_fields new_fields names :
  In c (flat_map (entry_of old_fields new_fields) names) <->
  exists name,
    In name names /\
    change_of name (bound old_fields name) (bound new_fields name) = Some c.
Proof.
  rewrite in_flat_map. unfold entry_of. split; intros (name & Hn & H);
    exists name; (split; [exact Hn|]).
  - destruct (change_of name _ _) as [c'|]; [|contradiction].
    destruct H as [<-|[]]. reflexivity.
  - rewrite H. left. reflexivity.
Qed.

Lemma change_of_name name old_field new_field c :
  change_of name old_field new_field = Some c -> ch_name c = name.
Proof.
  unfold change_of. destruct (_ || _); [|discriminate].
  intros H. inversion H. reflexivity.
Qed.

(** C7.  Comparing a schema descriptor with itself gives an empty diff:
    nothing added, nothing removed, nothing changed.  And in any
    comparison, a name bound on both sides to descriptors of equal type and
    equal nullability has no entry in ["changed"], and every entry of
    ["added"] and ["removed"] belongs to some other name. *)
Theorem diff_is_minimal :
  (forall s fields,
      fields_or_empty py_str (Some s) = Ret fields ->
      Forall plain_field fields ->
      compare_schemas py_str set_order (Some s) s =
      Ret (mkDiff [] [] [] [] [] (py_len fields) (py_len fields))) /\
  (forall old new old_fields new_fields d n old_field new_field,
      fields_or_empty py_str old = Ret old_fields ->
      fields_or_empty py_str (Some new) = Ret new_fields ->
      Forall self_equal (map fst old_fields) ->
      Forall self_equal (map fst new_fields) ->
      compare_schemas py_str set_order old new = Ret d ->
      fields_get (JStr n) old_fields = Some old_field ->
      fields_get (JStr n) new_fields = Some new_field ->
      py_eq (type_of old_field) (type_of new_field) = true ->
      py_eq (nullable_of old_field) (nullable_of new_field) = true ->
      (forall c, In c (changed d) -> ch_name c <> JStr n) /\
      (forall f, In f (added d) ->
         exists k, k <> JStr n /\ fields_get k new_fields = Some f) /\
      (forall f, In f (removed d) ->
         exists k, k <> JStr n /\ fields_get k old_fields = Some f)).
Proof.
  split.
  - intros s fields Hf Hplain.
    assert (Forall self_equal (map fst fields)) as Hs.
    { rewrite Forall_forall in *. intros k Hk. apply in_map_iff in Hk.
      destruct Hk as (kf & <- & Hkf). exact (proj1 (Hplain kf Hkf)). }
    rewrite (compare_schemas_returns _ _ _ _ Hf Hf Hs Hs).
    rewrite (set_diff_self _ Hs), set_order_nil. simpl.
    rewrite flat_map_nil; [reflexivity|].
    intros name Hname. apply set_order_In, set_inter_In in Hname.
    destruct Hname as [_ Hm]. apply key_mem_bound in Hm. destruct Hm as [f Hg].
    unfold entry_of, bound. rewrite Hg.
    destruct (fields_get_In _ _ _ Hg) as [k' Hin].
    rewrite Forall_forall in Hplain.
    destruct (Hplain _ Hin) as (_ & Ht & Hn). simpl in Ht, Hn.
    unfold change_of, py_ne. fold (type_of f) (nullable_of f).
    unfold self_equal in Ht, Hn. rewrite Ht, Hn. reflexivity.
  - intros old new old_fields new_fields d n old_field new_field
           Ho Hn Hso Hsn Hd Hgo Hgn Ht Hnl.
    rewrite (compare_schemas_returns _ _ _ _ Ho Hn Hso Hsn) in Hd.
    inversion Hd; subst d; clear Hd. simpl.
    assert (key_mem (JStr n) (map fst old_fields) = true) as Hko
      by (apply key_mem_bound; eauto).
    assert (key_mem (JStr n) (map fst new_fields) = true) as Hkn
      by (apply key_mem_bound; eauto).
    split; [|split].
    + intros c Hc Hname. apply entry_of_In in Hc.
      destruct Hc as (name & _ & Hch).
      pose proof (change_of_name _ _ _ _ Hch) as E. rewrite Hname in E.
      subst name. unfold bound in Hch. rewrite Hgo, Hgn in Hch.
      unfold change_of, py_ne in Hch.
      fold (type_of old_field) (type_of new_field)
           (nullable_of old_field) (nullable_of new_field) in Hch.
      rewrite Ht, Hnl in Hch. discriminate.
    + intros f Hf. apply in_map_iff in Hf. destruct Hf as (k & <- & Hk).
      apply set_order_In, set_diff_In in Hk. destruct Hk as [Hk Hm].
      exists k. split; [intros ->; rewrite Hko in Hm; discriminate|].
      rewrite Forall_forall in Hsn.
      pose proof (key_mem_In k _ (Hsn k Hk) Hk) as Hb.
      apply key_mem_bound in Hb. destruct Hb as [f Hf].
      unfold bound. rewrite Hf. reflexivity.
    + intros f Hf. apply in_map_iff in Hf. destruct Hf as (k & <- & Hk).
      apply set_order_In, set_diff_In in Hk. destruct Hk as [Hk Hm].
      exists k. split; [intros ->; rewrite Hkn in Hm; discriminate|].
      rewrite Forall_forall in Hso.
      pose proof (key_mem_In k _ (Hso k Hk) Hk) as Hb.
      apply key_mem_bound in Hb. destruct Hb as [f Hf].
      unfold bound. rewrite Hf. reflexivity.
Qed.

(** ** Canonical forms *)

Lemma fields_put_keys k f fs :
  map fst (fields_put k f fs) =
  if key_mem k (map fst fs) then map fst fs else map fst fs ++ [k].
Proof.
  induction fs as [|[k' f'] fs IH]; simpl; [reflexivity|].
  destruct (py_eq k k'); simpl; [reflexivity|].
  rewrite IH. destruct (key_mem k (map fst fs)); reflexivity.
Qed.

Lemma keys_apart_snoc ks k :
  keys_apart ks -> key_mem k ks = false -> keys_apart (ks ++ [k]).
Proof.
  induction ks as [|k0 ks IH]; simpl; intros Hok Hm.
  - split; [intros ? []|exact I].
  - apply orb_false_iff in Hm. destruct Hm as [Hk Hm].
    destruct Hok as [H0 Hok]. split; [|exact (IH Hok Hm)].
    intros k' Hk'. apply in_app_iff in Hk'.
    destruct Hk' as [Hk'|[<-|[]]]; [exact (H0 k' Hk')|exact Hk].
Qed.

Lemma fields_put_apart k f fs :
  keys_apart (map fst fs) -> keys_apart (map fst (fields_put k f fs)).
Proof.
  intros H. rewrite fields_put_keys.
  destruct (key_mem k (map fst fs)) eqn:E; [exact H|].
  apply keys_apart_snoc; assumption.
Qed.

Lemma add_list_fields_apart name lst fs fs' :
  add_list_fields name lst fs = Ret fs' ->
  keys_apart (map fst fs) -> keys_apart (map fst fs').
Proof.
  revert fs. induction lst as [|x lst IH]; intros fs; simpl.
  - intros H. inversion H; subst. auto.
  - destruct x; try (apply IH).
    unfold fields_assign. destruct (hashable (name d)); [|discriminate].
    intros H Hok. apply (IH _ H). apply fields_put_apart. exact Hok.
Qed.

Lemma add_dict_fields_apart d fs :
  keys_apart (map fst fs) -> keys_apart (map fst (add_dict_fields py_str d fs)).
Proof.
  revert fs. induction d as [|[k v] d IH]; intros fs Hok; simpl; [exact Hok|].
  destruct v; apply IH, fields_put_apart, Hok.
Qed.

Lemma extract_apart s fs :
  _extract_fields_from_schema py_str s = Ret fs -> keys_apart (map fst fs).
Proof.
  unfold _extract_fields_from_schema. destruct s as [|kv s']; [intros H; inversion H; exact I|].
  set (s := kv :: s').
  destruct (match get "fields" s with
            | JList lst => add_list_fields name_or_path lst []
            | JDict d => Ret (add_dict_fields py_str d [])
            | _ => Ret []
            end) as [fields|e] eqn:E1; [|discriminate].
  assert (keys_apart (map fst fields)) as Hok.
  { destruct (get "fields" s); try (inversion E1; subst; exact I).
    - exact (add_list_fields_apart _ _ _ _ E1 I).
    - inversion E1; subst. apply add_dict_fields_apart. exact I. }
  destruct fields as [|kf fields'].
  - destruct (get "raw_schema" s); try (intros H; inversion H; exact I).
    destruct (get "fields" d); try (intros H; inversion H; exact I).
    intros H. exact (add_list_fields_apart _ _ _ _ H I).
  - destruct (get "raw_schema" s); intros H; inversion H; subst; exact Hok.
Qed.

Lemma fields_or_empty_apart schema fs :
  fields_or_empty py_str schema = Ret fs -> keys_apart (map fst fs).
Proof.
  destruct schema as [[|kv s]|];
    try (intros H; inversion H; exact I).
  intros H. exact (extract_apart (kv :: s) fs H).
Qed.

Lemma bound_In k f fs :
  keys_apart (map fst fs) -> self_equal k -> In (k, f) fs -> bound fs k = f.
Proof.
  unfold bound. induction fs as [|[k0 f0] fs IH]; simpl; intros Hok Hk Hin;
    [contradiction|].
  destruct Hok as [H0 Hok]. destruct Hin as [E|Hin].
  - inversion E; subst. rewrite Hk. reflexivity.
  - rewrite (H0 k); [exact (IH Hok Hk Hin)|].
    apply in_map_iff. exists (k, f). split; [reflexivity|exact Hin].
Qed.






(** C9.  For a name bound on both sides, ["changed"] has an entry under
    that name exactly when the two types or the two nullabilities differ,
    and the entry carries the old and the new pair; the type compared is
    ["string"] and the nullability [True] where the descriptor lacks them. *)
Theorem changed_exactly_when_different
    old new old_fields new_fields n old_field new_field :
  fields_or_empty py_str old = Ret old_fields ->
  fields_or_empty py_str (Some new) = Ret new_fields ->
  Forall self_equal (map fst old_fields) ->
  Forall self_equal (map fst new_fields) ->
  fields_get (JStr n) old_fields = Some old_field ->
  fields_get (JStr n) new_fields = Some new_field ->
  exists d,
    compare_schemas py_str set_order old new = Ret d /\
    (forall c,
        In c (changed d) /\ ch_name c = JStr n <->
        py_ne (type_of old_field) (type_of new_field)
        || py_ne (nullable_of old_field) (nullable_of new_field) = true /\
        c = mkChange (JStr n) (JStr n)
              (type_of old_field, nullable_of old_field)
              (type_of new_field, nullable_of new_field)
              (type_of old_field) (type_of new_field)) /\
    (dict_get "type" old_field = None -> type_of old_field = JStr "string") /\
    (dict_get "type" new_field = None -> type_of new_field = JStr "string") /\
    (dict_get "nullable" old_field = None -> nullable_of old_field = JBool true) /\
    (dict_get "nullable" new_field = None -> nullable_of new_field = JBool true).
Proof.
  intros Ho Hn Hso Hsn Hgo Hgn.
  rewrite (compare_schemas_returns _ _ _ _ Ho Hn Hso Hsn).
  eexists. split; [reflexivity|]. simpl.
  split.
  - intros c. rewrite entry_of_In. split.
    + intros [(name & _ & Hch) Hname].
      pose proof (change_of_name _ _ _ _ Hch) as E. rewrite Hname in E.
      subst name. unfold bound in Hch. rewrite Hgo, Hgn in Hch.
      unfold change_of in Hch.
      fold (type_of old_field) (type_of new_field)
           (nullable_of old_field) (nullable_of new_field) in Hch.
      destruct (_ || _); [|discriminate].
      inversion Hch. split; reflexivity.
    + intros [Hdiff ->]. split; [|reflexivity].
      exists (JStr n). split.
      * apply set_order_In, set_inter_In. split.
        -- apply in_map_iff. exists (JStr n, old_field).
           split; [reflexivity|]. apply fields_get_str_In. exact Hgo.
        -- apply key_mem_bound. eauto.
      * unfold bound. rewrite Hgo, Hgn. unfold change_of.
        fold (type_of old_field) (type_of new_field)
             (nullable_of old_field) (nullable_of new_field).
        rewrite Hdiff. reflexivity.
  - unfold type_of, nullable_of, dict_get_default.
    repeat split; intros ->; reflexivity.
Qed.

(** ** Names and counts *)

Lemma add_list_fields_keys name lst fs :
  (forall f, In f (dicts lst) -> hashable (name f) = true) ->
  exists fs',
    add_list_fields name lst fs = Ret fs' /\
    map fst fs' = distinct_onto (map fst fs) (map name (dicts lst)).
Proof.
  revert fs. induction lst as [|x lst IH]; intros fs Hh; simpl.
  - exists fs. split; reflexivity.
  - destruct x; try (apply IH; exact Hh).
    simpl in Hh. unfold fields_assign.
    rewrite (Hh d (or_introl eq_refl)).
    destruct (IH (fields_put (name d) d fs)) as (fs' & E & K).
    { intros f Hf. apply Hh. right. exact Hf. }
    exists fs'. split; [exact E|]. rewrite K, fields_put_keys. reflexivity.
Qed.

Lemma key_mem_str n ks : key_mem (JStr n) ks = true <-> In (JStr n) ks.
Proof.
  unfold key_mem. rewrite existsb_exists. split.
  - intros (k & Hk & E). apply py_eq_str in E. subst. exact Hk.
  - intros H. exists (JStr n). split; [exact H|apply self_equal_str].
Qed.

Lemma distinct_onto_In seen names x :
  Forall (fun k => is_str k = true) names ->
  In x (distinct_onto seen names) <-> In x seen \/ In x names.
Proof.
  intros H. revert seen. induction H as [|k names Hk _ IH]; intros seen; simpl.
  - tauto.
  - rewrite IH. destruct k; try discriminate.
    destruct (key_mem (JStr s) seen) eqn:E.
    + apply key_mem_str in E. split; [tauto|].
      intros [H|[<-|H]]; auto.
    + rewrite in_app_iff. simpl. tauto.
Qed.

Lemma distinct_onto_NoDup seen names :
  Forall (fun k => is_str k = true) names ->
  NoDup seen -> NoDup (distinct_onto seen names).
Proof.
  intros H. revert seen. induction H as [|k names Hk _ IH]; intros seen Hnd;
    simpl; [exact Hnd|].
  apply IH. destruct k; try discriminate.
  destruct (key_mem (JStr s) seen) eqn:E; [exact Hnd|].
  apply NoDup_app; [exact Hnd|repeat constructor; intros []|].
  intros x Hx [<-|[]]. apply key_mem_str in Hx. rewrite Hx in E. discriminate.
Qed.

Lemma distinct_onto_grows seen names :
  (List.length seen <= List.length (distinct_onto seen names))%nat.
Proof.
  revert seen. induction names as [|k names IH]; intros seen; simpl; [lia|].
  destruct (key_mem k seen); [apply IH|].
  etransitivity; [|apply IH]. rewrite length_app. simpl. lia.
Qed.

Lemma distinct_nonempty names : names <> [] -> distinct names <> [].
Proof.
  destruct names as [|k names]; [contradiction|]. intros _ E.
  unfold distinct in E. simpl in E.
  pose proof (distinct_onto_grows [k] names) as H. simpl in H.
  rewrite E in H. simpl in H. lia.
Qed.

(** A schema in list form with at least one descriptor: the names of the
    canonical form are the distinct resolved names, in order. *)
Lemma extract_list_form s lst :
  get "fields" s = JList lst ->
  dicts lst <> [] ->
  (forall f, In f (dicts lst) -> is_str (name_or_path f) = true) ->
  exists fields,
    fields_or_empty py_str (Some s) = Ret fields /\
    map fst fields = distinct (map name_or_path (dicts lst)).
Proof.
  intros Hg Hne Hstr.
  destruct (add_list_fields_keys name_or_path lst []) as (fs & E & K).
  { intros f Hf. specialize (Hstr f Hf).
    destruct (name_or_path f); try discriminate. reflexivity. }
  exists fs. split; [|exact K].
  destruct s as [|kv s']; [discriminate|].
  change (_extract_fields_from_schema py_str (kv :: s') = Ret fs).
  unfold _extract_fields_from_schema. rewrite Hg, E.
  destruct fs as [|kf fs'].
  - exfalso. simpl in K. symmetry in K. revert K. apply distinct_nonempty.
    destruct (dicts lst); [contradiction|discriminate].
  - destruct (get "raw_schema" (kv :: s')); reflexivity.
Qed.

(** C10.  A descriptor of the list form without ["name"] and without
    ["path"] is filed under ["unknown"], so two of them leave one canonical
    field, the later one.  For schemas in list form [old_count] and
    [new_count] are the numbers of distinct resolved names: [distinct]
    keeps one of each name and nothing else. *)
Theorem counts_are_distinct_names :
  (forall f, dict_get "name" f = None -> dict_get "path" f = None ->
             name_or_path f = JStr "unknown") /\
  (forall s f1 f2,
      get "fields" s = JList [JDict f1; JDict f2] ->
      dict_get "name" f1 = None -> dict_get "path" f1 = None ->
      dict_get "name" f2 = None -> dict_get "path" f2 = None ->
      fields_or_empty py_str (Some s) = Ret [(JStr "unknown", f2)]) /\
  (forall old new old_list new_list,
      get "fields" old = JList old_list ->
      get "fields" new = JList new_list ->
      dicts old_list <> [] ->
      dicts new_list <> [] ->
      (forall f, In f (dicts old_list ++ dicts new_list) ->
                 is_str (name_or_path f) = true) ->
      let old_names := map name_or_path (dicts old_list) in
      let new_names := map name_or_path (dicts new_list) in
      exists d,
        compare_schemas py_str set_order (Some old) new = Ret d /\
        old_count d = py_len (distinct old_names) /\
        new_count d = py_len (distinct new_names) /\
        NoDup (distinct old_names) /\ NoDup (distinct new_names) /\
        (forall k, In k (distinct old_names) <-> In k old_names) /\
        (forall k, In k (distinct new_names) <-> In k new_names)).
Proof.
  assert (forall f, dict_get "name" f = None -> dict_get "path" f = None ->
                    name_or_path f = JStr "unknown") as Hunknown.
  { intros f Hn Hp. unfold name_or_path, get, dict_get_default.
    rewrite Hn, Hp. reflexivity. }
  split; [exact Hunknown|]. split.
  - intros s f1 f2 Hg Hn1 Hp1 Hn2 Hp2.
    destruct s as [|kv s']; [discriminate|].
    change (_extract_fields_from_schema py_str (kv :: s')
            = Ret [(JStr "unknown", f2)]).
    unfold _extract_fields_from_schema. rewrite Hg. simpl.
    rewrite (Hunknown f1 Hn1 Hp1), (Hunknown f2 Hn2 Hp2). simpl.
    destruct (get "raw_schema" (kv :: s')); reflexivity.
  - intros old new old_list new_list Hgo Hgn Hneo Hnen Hstr old_names new_names.
    assert (Forall (fun k => is_str k = true) old_names) as Hso.
    { apply Forall_forall. intros k Hk. apply in_map_iff in Hk.
      destruct Hk as (f & <- & Hf). apply Hstr, in_or_app. left. exact Hf. }
    assert (Forall (fun k => is_str k = true) new_names) as Hsn.
    { apply Forall_forall. intros k Hk. apply in_map_iff in Hk.
      destruct Hk as (f & <- & Hf). apply Hstr, in_or_app. right. exact Hf. }
    destruct (extract_list_form old old_list Hgo Hneo) as (ofs & Eo & Ko).
    { intros f Hf. apply Hstr, in_or_app. left. exact Hf. }
    destruct (extract_list_form new new_list Hgn Hnen) as (nfs & En & Kn).
    { intros f Hf. apply Hstr, in_or_app. right. exact Hf. }
    fold old_names in Ko. fold new_names in Kn.
    assert (forall names, Forall (fun k => is_str k = true) names ->
                          Forall self_equal (distinct names)) as Hself.
    { intros names Hall. apply Forall_forall. intros k Hk.
      apply (distinct_onto_In [] names k Hall) in Hk.
      destruct Hk as [[]|Hk]. rewrite Forall_forall in Hall.
      specialize (Hall k Hk). destruct k; try discriminate.
      apply self_equal_str. }
    rewrite (compare_schemas_returns (Some old) new ofs nfs Eo En).
    2:{ rewrite Ko. apply Hself, Hso. }
    2:{ rewrite Kn. apply Hself, Hsn. }
    eexists. split; [reflexivity|]. simpl.
    unfold py_len. rewrite <- Ko, <- Kn, !length_map.
    split; [reflexivity|]. split; [reflexivity|].
    rewrite Ko, Kn.
    split; [apply distinct_onto_NoDup; [exact Hso|constructor]|].
    split; [apply distinct_onto_NoDup; [exact Hsn|constructor]|].
    split; intros k; unfold distinct; rewrite distinct_onto_In by assumption;
      simpl; tauto.
Qed.

End DiffProps.

Lemma newest_first_perm l : Permutation (Samples.newest_first l) l.
Proof. apply Permutation_sym, Permutation_rev. Qed.

(** Version 2 of the sample source against itself. *)
Lemma diff_is_minimal_witness :
  SchemaDiff.compare_schemas Samples.str Samples.newest_first
    (Some Samples.schema_v2) Samples.schema_v2
  = Py.Ret (SchemaDiff.mkDiff [] [] [] [] [] 2 2).
Proof.
  refine (proj1 (diff_is_minimal Samples.str Samples.newest_first
                   newest_first_perm)
                Samples.schema_v2 _ eq_refl _).
  repeat constructor.
Defined.

(** Field [a] between version 1 and version 2: [integer], not nullable,
    becomes [float] with the nullability left out. *)
Lemma changed_exactly_when_different_witness :
  exists d,
    SchemaDiff.compare_schemas Samples.str Samples.newest_first
      (Some Samples.schema_v1) Samples.schema_v2 = Py.Ret d /\
    In (SchemaDiff.mkChange (Py.JStr "a") (Py.JStr "a")
          (Py.JStr "integer", Py.JBool false)
          (Py.JStr "float", Py.JBool true)
          (Py.JStr "integer") (Py.JStr "float"))
       (SchemaDiff.changed d).
Proof.
  destruct (changed_exactly_when_different Samples.str Samples.newest_first
              newest_first_perm (Some Samples.schema_v1) Samples.schema_v2
              _ _ "a" _ _ eq_refl eq_refl
              ltac:(repeat constructor) ltac:(repeat constructor)
              eq_refl eq_refl) as (d & Hd & Hc & _).
  exists d. split; [exact Hd|].
  apply (Hc _). split; reflexivity.
Defined.

(** Two nameless descriptors and one named [a] against version 2. *)
Lemma counts_are_distinct_names_witness :
  exists d,
    SchemaDiff.compare_schemas Samples.str Samples.newest_first
      (Some Samples.nameless) Samples.schema_v2 = Py.Ret d /\
    SchemaDiff.old_count d = 2 /\
    SchemaDiff.new_count d = 2.
Proof.
  destruct (proj2 (proj2 (counts_are_distinct_names Samples.str
                            Samples.newest_first newest_first_perm))
              Samples.nameless Samples.schema_v2 _ _ eq_refl eq_refl)
    as (d & Hd & Ho & Hn & _).
  - discriminate.
  - discriminate.
  - simpl. intros f Hf.
    repeat (destruct Hf as [<-|Hf]; [reflexivity|]). contradiction.
  - exists d. split; [exact Hd|]. split; [exact Ho|exact Hn].
Defined.

(* ===================================================================== *)
(** * Further properties of the shape normalizer and the readers          *)
(* ===================================================================== *)

Section NormalizerMore.
Import Py FileHandlers.
Variable json_dumps : json -> string.

Lemma max_len_nonneg d : 0 <= max_len d.
Proof.
  unfold max_len.
  set (ls := flat_map (fun kv : string * json =>
                         match snd kv with
                         | JList l => [py_len l]
                         | _ => []
                         end) d).
  assert (forall x, In x ls -> 0 <= x) as Hpos.
  { intros x Hx. apply in_flat_map in Hx. destruct Hx as ([k v] & _ & Hx).
    simpl in Hx. destruct v; try contradiction.
    destruct Hx as [<-|[]]. unfold py_len. lia. }
  destruct ls as [|x r]; simpl; [lia|].
  pose proof (proj1 (fold_max_ge r x)). specialize (Hpos x (or_introl eq_refl)).
  lia.
Qed.

(** A row count of 0 means that the payload has a sequence. *)
Lemma max_len_zero_has_list d :
  max_len d = 0 -> exists k, In (k, JList []) d.
Proof.
  unfold max_len. intros H.
  destruct (flat_map _ d) as [|x r] eqn:E; [discriminate|].
  assert (In x (x :: r)) as Hx by (left; reflexivity).
  rewrite <- E in Hx. apply in_flat_map in Hx.
  destruct Hx as ([k v] & Hin & Hx). simpl in Hx.
  destruct v; try contradiction. destruct Hx as [Hx|[]].
  pose proof (max_len_ge d k l Hin) as Hle. unfold max_len in Hle.
  rewrite E in Hle. simpl in Hle, H. rewrite H in Hle.
  unfold py_len in Hle. destruct l; [|simpl in Hle; lia].
  exists k. exact Hin.
Qed.

Lemma frame_of_unequal_columns (cols : list (string * list json)) kc1 kc2 :
  In kc1 cols -> In kc2 cols ->
  List.length (snd kc1) <> List.length (snd kc2) ->
  DataFrame_of_columns cols =
  Raise (ValueError "All arrays must be of the same length").
Proof.
  intros H1 H2 Hne. unfold DataFrame_of_columns.
  destruct cols as [|[k0 c0] cols'] eqn:E; [contradiction|]. rewrite <- E in *.
  destruct (forallb _ cols) eqn:F; [|reflexivity].
  rewrite forallb_forall in F.
  pose proof (F kc1 H1) as A. pose proof (F kc2 H2) as B.
  apply Nat.eqb_eq in A, B. congruence.
Qed.

Lemma all_sequences_dec d :
  all_sequences d \/ exists k v, In (k, v) d /\ is_list v = false.
Proof.
  induction d as [|[k v] d IH].
  - left. intros ? ? [].
  - destruct IH as [IH|(k' & v' & Hin & Hv)].
    + destruct (is_list v) eqn:E.
      * left. intros k' v' [H|H]; [inversion H; subst; exact E|exact (IH k' v' H)].
      * right. exists k, v. split; [left; reflexivity|exact E].
    + right. exists k', v'. split; [right; exact Hin|exact Hv].
Qed.

(** X2.  [safe_json_to_df] has one way to fail: a dict payload in which
    every sequence is empty (and there is one) beside a value that is not
    a sequence.  It then raises pandas' [ValueError]; on every other
    payload it returns a frame. *)
Theorem safe_json_only_failure data e :
  (forall d, data = JDict d -> NoDup (map fst d)) ->
  safe_json_to_df json_dumps data = Raise e <->
  e = ValueError "All arrays must be of the same length" /\
  exists d k v,
    data = JDict d /\ max_len d = 0 /\ In (k, v) d /\ is_list v = false.
Proof.
  intros Hwf. split.
  - intros Hr. destruct data; try discriminate. specialize (Hwf d eq_refl).
    destruct d as [|kv0 d0] eqn:Ed; [discriminate|]. rewrite <- Ed in *.
    assert (d <> []) as Hne by (rewrite Ed; discriminate).
    pose proof (max_len_nonneg d) as Hpos.
    destruct (Z.eq_dec (max_len d) 0) as [Hz|Hnz].
    + destruct (all_sequences_dec d) as [Hall|(k & v & Hin & Hv)].
      * destruct (mapping_payload_rows json_dumps d Hne Hwf (or_intror Hall))
          as (df & Hdf & _). rewrite Hdf in Hr. discriminate.
      * split.
        -- simpl in Hr. unfold DataFrame_of_columns in Hr.
           destruct (clean_columns d) as [|[k0 c0] cs]; [discriminate|].
           destruct (forallb _ _); [discriminate|]. inversion Hr. reflexivity.
        -- exists d, k, v. auto.
    + destruct (mapping_payload_rows json_dumps d Hne Hwf)
        as (df & Hdf & _); [left; lia|]. rewrite Hdf in Hr. discriminate.
  - intros (-> & d & k & v & -> & Hz & Hin & Hv).
    specialize (Hwf d eq_refl). simpl.
    rewrite (clean_columns_fresh d Hwf), Hz. simpl Z.to_nat.
    destruct (max_len_zero_has_list d Hz) as [k' Hin'].
    apply (frame_of_unequal_columns _
             (k', expected_column 0 (JList [])) (k, expected_column 0 v)).
    + apply in_map_iff. exists (k', JList []). split; [reflexivity|exact Hin'].
    + apply in_map_iff. exists (k, v). split; [reflexivity|exact Hin].
    + destruct v; simpl; try discriminate.
Qed.

End NormalizerMore.

Section FlatCells.
Import Py FileHandlers.
Variable json_dumps : json -> string.

Lemma dict_get_Some_In k v (d : pydict) : dict_get k d = Some v -> In (k, v) d.
Proof.
  induction d as [|[k' v'] d IH]; simpl; [discriminate|].
  destruct (String.eqb_spec k k') as [->|_].
  - intros H. inversion H. left. reflexivity.
  - intros H. right. exact (IH H).
Qed.

Lemma dict_set_values {V} k v k' (v' : V) d :
  In (k, v) (dict_set k' v' d) -> In (k, v) d \/ v = v'.
Proof.
  induction d as [|[k0 v0] d IH]; simpl.
  - intros [H|[]]. inversion H. right. reflexivity.
  - destruct (String.eqb k' k0); simpl.
    + intros [H|H]; [inversion H; right; reflexivity|left; right; exact H].
    + intros [H|H]; [left; left; exact H|].
      destruct (IH H) as [H'|H']; [left; right; exact H'|right; exact H'].
Qed.

Lemma fold_set_values {A V} (key : A -> string) (val : A -> V) l row k v :
  In (k, v) (fold_left (fun row a => dict_set (key a) (val a) row) l row) ->
  In (k, v) row \/ exists a, In a l /\ v = val a.
Proof.
  revert row. induction l as [|a l IH]; intros row; simpl; [auto|].
  intros H. destruct (IH _ H) as [H'|(b & Hb & E)].
  - destruct (dict_set_values _ _ _ _ _ H') as [H''|E]; [left; exact H''|].
    right. exists a. split; [left; reflexivity|exact E].
  - right. exists b. split; [right; exact Hb|exact E].
Qed.

Lemma stored_flat v :
  is_dict (stored json_dumps v) = false /\ is_list (stored json_dumps v) = false.
Proof. unfold stored. destruct v; simpl; split; reflexivity. Qed.

Lemma normalize_item_flat item k v :
  is_list item = false ->
  In (k, v) (normalize_item json_dumps item) ->
  is_dict v = false /\ is_list v = false.
Proof.
  intros Hl Hin. destruct item; try discriminate;
    try (destruct Hin as [H|[]]; inversion H; subst; split; reflexivity).
  rewrite normalize_item_dict in Hin.
  apply (fold_set_values fst (fun kv => stored json_dumps (snd kv))) in Hin.
  destruct Hin as [[]|(a & _ & ->)]. apply stored_flat.
Qed.

(** X3.  For a sequence payload none of whose elements is itself a
    sequence, no cell of the frame holds a dict or a list: nested values
    reach the frame as text only. *)
Theorem sequence_cells_are_flat items df :
  safe_json_to_df json_dumps (JList items) = Ret df ->
  (forall item, In item items -> is_list item = false) ->
  forall row c, In row (rows df) -> In c row ->
                is_dict c = false /\ is_list c = false.
Proof.
  intros Hdf Hitems row c Hrow Hc. simpl in Hdf. inversion Hdf; subst df.
  simpl in Hrow. apply in_map_iff in Hrow. destruct Hrow as (r & <- & Hr).
  apply in_map_iff in Hc. destruct Hc as (col & <- & _).
  apply in_map_iff in Hr. destruct Hr as (item & <- & Hitem).
  destruct (dict_get col (normalize_item json_dumps item)) as [v|] eqn:E.
  - apply dict_get_Some_In in E.
    exact (normalize_item_flat item col v (Hitems item Hitem) E).
  - split; reflexivity.
Qed.

(** Every frame the normalizer returns is rectangular over distinct
    columns. *)
Lemma frame_well_formed data df :
  safe_json_to_df json_dumps data = Ret df ->
  NoDup (columns df) /\
  forall row, In row (rows df) -> List.length row = List.length (columns df).
Proof.
  intros Hdf. destruct data; simpl in Hdf;
    try (inversion Hdf; subst df; simpl; split;
         [repeat constructor; intros []|intros row [<-|[]]; reflexivity]).
  - inversion Hdf; subst df. simpl. split.
    + apply NoDup_map_LStr, union_keys_NoDup.
    + intros row Hrow. apply in_map_iff in Hrow. destruct Hrow as (r & <- & _).
      rewrite !length_map. reflexivity.
  - destruct (frame_of_columns _ _ Hdf) as [Hc Hr]. split.
    + rewrite Hc. apply NoDup_map_LStr, clean_columns_NoDup.
    + intros row Hrow. rewrite Hc, !length_map. exact (Hr row Hrow).
Qed.

End FlatCells.

Section ReadersMore.
Import Py FileHandlers.
Context (X : Externals).

(** X4.  Whatever the file holds, [read_json] hands back a frame whose
    columns are pairwise distinct and whose records all have exactly the
    columns as keys; the log grows by at most one record, an [ERROR]. *)
Theorem read_json_frame_is_well_formed path lg :
  exists df lg',
    read_json X path lg = (Ret (RFrame df), lg') /\
    NoDup (columns df) /\
    (forall rec, In rec (to_records df) -> map fst rec = columns df) /\
    (lg' = lg \/ exists msg, lg' = lg ++ [(ERROR, msg)]).
Proof.
  unfold read_json.
  destruct (json_load_path X path) as [data|e]; simpl.
  - destruct (safe_json_to_df (json_dumps X) data) as [df|e] eqn:E.
    + exists df, lg. split; [reflexivity|].
      destruct (frame_well_formed _ _ _ E) as [Hnd Hlen].
      split; [exact Hnd|]. split; [|left; reflexivity].
      intros rec Hrec. unfold to_records in Hrec. apply in_map_iff in Hrec.
      destruct Hrec as (row & <- & Hrow).
      apply map_fst_combine_same. exact (Hlen row Hrow).
    + eexists empty_frame, _. split; [reflexivity|].
      split; [constructor|]. split; [intros rec []|]. right. eauto.
  - eexists empty_frame, _. split; [reflexivity|].
    split; [constructor|]. split; [intros rec []|]. right. eauto.
Qed.

(** X5.  [read_html_safely] answers with the first table of the first
    parser, in the order lxml, html5lib, pandas' default, that finds one.
    What the first two parsers raise is never logged: the log changes only
    when the last attempt raises, by one [WARNING]. *)
Theorem read_html_safely_priority path lg :
  let lxml := pd_read_html X path (Some "bs4") (Some "lxml") in
  let html5lib := pd_read_html X path (Some "bs4") (Some "html5lib") in
  let default := pd_read_html X path None None in
  let found r := match r with Ret (t :: _) => Some t | _ => None end in
  let df := match found lxml, found html5lib, found default with
            | Some t, _, _ => t
            | None, Some t, _ => t
            | None, None, Some t => t
            | None, None, None => empty_frame
            end in
  let lg' := match found lxml, found html5lib, default with
             | None, None, Raise e =>
                 lg ++ [(WARNING, ("HTML read failed: " ++ exn_msg e)%string)]
             | _, _, _ => lg
             end in
  read_html_safely X path lg = (Ret (RFrame df), lg').
Proof.
  unfold read_html_safely, try_html. simpl.
  destruct (pd_read_html X path (Some "bs4") (Some "lxml")) as [[|t1 ts1]|e1];
    destruct (pd_read_html X path (Some "bs4") (Some "html5lib"))
      as [[|t2 ts2]|e2];
    destruct (pd_read_html X path None None) as [[|t3 ts3]|e3];
    reflexivity.
Qed.

End ReadersMore.

(* ===================================================================== *)
(** * Further properties of the sanitizer                                 *)
(* ===================================================================== *)

Section SanitizeMore.
Import Py MongoSanitize.

Lemma mapM_Ret_Forall2 {A B} (f : A -> outcome B) l l' :
  mapM f l = Ret l' -> Forall2 (fun a b => f a = Ret b) l l'.
Proof.
  revert l'. induction l as [|a l IH]; intros l'; simpl.
  - intros H. inversion H. constructor.
  - destruct (f a) as [b|e] eqn:Ea; [|discriminate].
    destruct (mapM f l) as [bs|e]; [|discriminate].
    intros H. inversion H; subst. constructor; [exact Ea|apply IH; reflexivity].
Qed.

Lemma mapM_Raise_In {A B} (f : A -> outcome B) l e :
  mapM f l = Raise e -> exists a, In a l /\ f a = Raise e.
Proof.
  induction l as [|a l IH]; simpl; [discriminate|].
  destruct (f a) as [b|e'] eqn:Ea.
  - destruct (mapM f l) as [bs|e'']; [discriminate|].
    intros H. inversion H; subst. destruct (IH eq_refl) as (x & Hx & Ex).
    exists x. split; [right; exact Hx|exact Ex].
  - intros H. inversion H; subst. exists a. split; [left; reflexivity|exact Ea].
Qed.

Lemma native_chars s : forallb native (chars s) = true.
Proof. induction s; simpl; auto. Qed.

Lemma mapM_native l l' :
  Forall (fun v => forall v', sanitize_for_mongo v = Ret v' -> native v' = true) l ->
  mapM sanitize_for_mongo l = Ret l' -> forallb native l' = true.
Proof.
  intros H Hm. apply mapM_Ret_Forall2 in Hm.
  induction Hm as [|a b l l' Hab _ IH]; simpl; [reflexivity|].
  inversion H; subst. rewrite (H2 b Hab). simpl. apply IH. assumption.
Qed.

Lemma mapM_values_native d d' :
  Forall (fun kv : pyval * pyval =>
            forall v', sanitize_for_mongo (snd kv) = Ret v' -> native v' = true) d ->
  mapM (fun kv => match sanitize_for_mongo (snd kv) with
                  | Ret v => Ret (fst kv, v)
                  | Raise e => Raise e
                  end) d = Ret d' ->
  forallb (fun kv => native (snd kv)) d' = true.
Proof.
  intros H. revert d'. induction H as [|kv d Hv _ IH]; intros d'; simpl.
  - intros E. inversion E. reflexivity.
  - destruct (sanitize_for_mongo (snd kv)) as [w|] eqn:Ew; [|discriminate].
    destruct (mapM _ d) as [r|]; [|discriminate].
    intros E. inversion E; subst. simpl. rewrite (Hv w eq_refl). simpl.
    apply IH. reflexivity.
Qed.

Lemma mapM_keys_native (d : list (pyval * pyval)) l' :
  Forall (fun kv : pyval * pyval =>
            forall v', sanitize_for_mongo (fst kv) = Ret v' -> native v' = true) d ->
  mapM (fun kv => sanitize_for_mongo (fst kv)) d = Ret l' ->
  forallb native l' = true.
Proof.
  intros H. revert l'. induction H as [|kv d Hv _ IH]; intros l'; simpl.
  - intros E. inversion E. reflexivity.
  - destruct (sanitize_for_mongo (fst kv)) as [w|] eqn:Ew; [|discriminate].
    destruct (mapM _ d) as [r|]; [|discriminate].
    intros E. inversion E; subst. simpl. rewrite (Hv w eq_refl). simpl.
    apply IH. reflexivity.
Qed.

(** Whatever the sanitizer returns is native. *)
Lemma sanitize_native v :
  forall v', sanitize_for_mongo v = Ret v' -> native v' = true.
Proof.
  induction v as [ | | | | | |l H|l H|d H| | | |l H|v IHv Hkeys| ]
    using pyval_full_ind; intros v' Hs; simpl in Hs;
    try (inversion Hs; subst; reflexivity).
  - destruct (mapM sanitize_for_mongo l) as [l'|] eqn:E; [|discriminate].
    inversion Hs; subst. simpl. exact (mapM_native l l' H E).
  - destruct (mapM sanitize_for_mongo l) as [l'|] eqn:E; [|discriminate].
    inversion Hs; subst. simpl. exact (mapM_native l l' H E).
  - destruct (mapM _ d) as [d'|] eqn:E; [|discriminate].
    inversion Hs; subst. simpl. exact (mapM_values_native d d' H E).
  - destruct (mapM sanitize_for_mongo l) as [l'|] eqn:E; [|discriminate].
    inversion Hs; subst. simpl. exact (mapM_native l l' H E).
  - destruct v; try discriminate.
    + inversion Hs; subst. simpl. apply native_chars.
    + destruct (mapM sanitize_for_mongo l) as [l'|] eqn:E; [|discriminate].
      inversion Hs; subst. apply (IHv (VList l')). simpl. rewrite E. reflexivity.
    + destruct (mapM sanitize_for_mongo l) as [l'|] eqn:E; [|discriminate].
      inversion Hs; subst. apply (IHv (VList l')). simpl. rewrite E. reflexivity.
    + destruct (mapM _ d) as [l'|] eqn:E; [|discriminate].
      inversion Hs; subst. simpl. exact (mapM_keys_native d l' Hkeys E).
    + destruct (mapM sanitize_for_mongo items) as [l'|] eqn:E; [|discriminate].
      inversion Hs; subst. apply (IHv (VList l')). simpl. rewrite E. reflexivity.
Qed.

Lemma mapM_fixed l :
  Forall (fun v => native v = true -> sanitize_for_mongo v = Ret v) l ->
  forallb native l = true -> mapM sanitize_for_mongo l = Ret l.
Proof.
  induction 1 as [|v l Hv _ IH]; simpl; intros Hn; [reflexivity|].
  apply andb_true_iff in Hn. destruct Hn as [Hn1 Hn2].
  rewrite (Hv Hn1), (IH Hn2). reflexivity.
Qed.

(** A native tree goes through the sanitizer unchanged. *)
Lemma native_fixed v : native v = true -> sanitize_for_mongo v = Ret v.
Proof.
  induction v as [ | | | | | |l H|l H|d H| | | |l H|v IHv| ]
    using pyval_tree_ind; intros Hn; simpl in *; try reflexivity;
    try discriminate.
  - rewrite (mapM_fixed l H Hn). reflexivity.
  - assert (mapM (fun kv => match sanitize_for_mongo (snd kv) with
                            | Ret v => Ret (fst kv, v)
                            | Raise e => Raise e
                            end) d = Ret d) as E.
    { induction H as [|[k x] d Hx _ IH]; simpl in *; [reflexivity|].
      apply andb_true_iff in Hn. destruct Hn as [Hn1 Hn2].
      rewrite (Hx Hn1), (IH Hn2). reflexivity. }
    rewrite E. reflexivity.
Qed.

(** X7.  What the sanitizer returns holds, at the positions it visits,
    nothing the sanitizer replaces: no instance of [np.integer],
    [np.floating] or [np.bool_], no array, no [np.nan] and no tuple; and
    sanitizing it again changes nothing.  (Objects of other classes, the
    other numpy scalars among them, pass through as they are.) *)
Theorem sanitize_result_is_native_and_stable v v' :
  sanitize_for_mongo v = Ret v' ->
  native v' = true /\ sanitize_for_mongo v' = Ret v'.
Proof.
  intros H. pose proof (sanitize_native v v' H) as Hn.
  split; [exact Hn|exact (native_fixed v' Hn)].
Qed.

Lemma mapM_raise_type_error l e :
  Forall (fun v => forall e, sanitize_for_mongo v = Raise e -> e = not_iterable) l ->
  mapM sanitize_for_mongo l = Raise e -> e = not_iterable.
Proof.
  intros H Hm. apply mapM_Raise_In in Hm. destruct Hm as (a & Ha & Ea).
  rewrite Forall_forall in H. exact (H a Ha e Ea).
Qed.

Lemma sanitize_raise_type_error v :
  forall e, sanitize_for_mongo v = Raise e -> e = not_iterable.
Proof.
  induction v as [ | | | | | |l H|l H|d H| | | |l H|v IHv Hkeys| ]
    using pyval_full_ind; intros e Hs; simpl in Hs; try discriminate.
  - destruct (mapM sanitize_for_mongo l) eqn:E; [discriminate|].
    inversion Hs; subst. exact (mapM_raise_type_error l e H E).
  - destruct (mapM sanitize_for_mongo l) eqn:E; [discriminate|].
    inversion Hs; subst. exact (mapM_raise_type_error l e H E).
  - destruct (mapM _ d) eqn:E; [discriminate|].
    inversion Hs; subst. apply mapM_Raise_In in E.
    destruct E as (kv & Hkv & Ekv). rewrite Forall_forall in H.
    destruct (sanitize_for_mongo (snd kv)) eqn:Ev; [discriminate|].
    inversion Ekv; subst. exact (H kv Hkv e Ev).
  - destruct (mapM sanitize_for_mongo l) eqn:E; [discriminate|].
    inversion Hs; subst. exact (mapM_raise_type_error l e H E).
  - destruct v; try (inversion Hs; reflexivity); try discriminate.
    + apply (IHv e). simpl.
      destruct (mapM sanitize_for_mongo l); [discriminate|exact Hs].
    + apply (IHv e). simpl.
      destruct (mapM sanitize_for_mongo l); [discriminate|exact Hs].
    + destruct (mapM _ d) eqn:E; [discriminate|].
      inversion Hs; subst. apply mapM_Raise_In in E.
      destruct E as (kv & Hkv & Ekv). rewrite Forall_forall in Hkeys.
      exact (Hkeys kv Hkv e Ekv).
    + apply (IHv e). simpl.
      destruct (mapM sanitize_for_mongo items); [discriminate|exact Hs].
Qed.

(** X8.  The sanitizer raises nothing but the [TypeError] of iterating
    over what cannot be iterated, and raises it only for a tree that
    holds an array without dimension. *)
Theorem sanitize_raises_only_for_0d v e :
  sanitize_for_mongo v = Raise e ->
  e = not_iterable /\ dimensioned v = false.
Proof.
  intros H. split; [exact (sanitize_raise_type_error v e H)|].
  destruct (dimensioned v) eqn:D; [|reflexivity].
  destruct (sanitize_dimensioned v D) as (v' & Hv' & _).
  rewrite Hv' in H. discriminate.
Qed.

Lemma mapM_length {A B} (f : A -> outcome B) l l' :
  mapM f l = Ret l' -> List.length l' = List.length l.
Proof.
  intros H. apply mapM_Ret_Forall2 in H.
  induction H; simpl; congruence.
Qed.

(** X9.  Containers keep their shape: a dict comes back as a dict with
    the same keys in the same order (keys are not sanitized, so a numpy
    key stays), and a list, a tuple or an array with a dimension comes
    back as a list of the same length. *)
Theorem sanitize_keeps_shape v v' :
  sanitize_for_mongo v = Ret v' ->
  match v with
  | VDict d => exists d', v' = VDict d' /\ map fst d' = map fst d
  | VList l | VTuple l | NdArray l =>
      exists l', v' = VList l' /\ List.length l' = List.length l
  | _ => True
  end.
Proof.
  intros H. destruct v; try exact I; simpl in H.
  - destruct (mapM sanitize_for_mongo l) as [l'|] eqn:E; [|discriminate].
    inversion H; subst. exists l'. split; [reflexivity|exact (mapM_length _ _ _ E)].
  - destruct (mapM sanitize_for_mongo l) as [l'|] eqn:E; [|discriminate].
    inversion H; subst. exists l'. split; [reflexivity|exact (mapM_length _ _ _ E)].
  - destruct (mapM _ d) as [d'|] eqn:E; [|discriminate].
    inversion H; subst. exists d'. split; [reflexivity|].
    apply mapM_Ret_Forall2 in E. clear H.
    induction E as [|kv kv' d d' Hkv _ IH]; simpl; [reflexivity|].
    destruct (sanitize_for_mongo (snd kv)); [|discriminate].
    inversion Hkv; subst. simpl. rewrite IH. reflexivity.
  - destruct (mapM sanitize_for_mongo items) as [l'|] eqn:E; [|discriminate].
    inversion H; subst. exists l'. split; [reflexivity|exact (mapM_length _ _ _ E)].
Qed.

End SanitizeMore.

(* ===================================================================== *)
(** * Further properties of the schema diff                               *)
(* ===================================================================== *)

Section DiffMore.
Import Py SchemaDiff.

Variable py_str : json -> string.
Variable set_order : list json -> list json.
Hypothesis set_order_perm : forall l, Permutation (set_order l) l.

(** X10.  Swapping the two sides swaps ["added"] with ["removed"], their
    name lists, and the two counts. *)
Theorem diff_swaps_added_and_removed a b a_fields b_fields :
  fields_or_empty py_str (Some a) = Ret a_fields ->
  fields_or_empty py_str (Some b) = Ret b_fields ->
  Forall self_equal (map fst a_fields) ->
  Forall self_equal (map fst b_fields) ->
  exists d d',
    compare_schemas py_str set_order (Some a) b = Ret d /\
    compare_schemas py_str set_order (Some b) a = Ret d' /\
    added d = removed d' /\ removed d = added d' /\
    added_fields d = removed_fields d' /\ removed_fields d = added_fields d' /\
    old_count d = new_count d' /\ new_count d = old_count d'.
Proof.
  intros Ha Hb Hsa Hsb.
  rewrite (compare_schemas_returns py_str set_order set_order_perm
             _ _ _ _ Ha Hb Hsa Hsb).
  rewrite (compare_schemas_returns py_str set_order set_order_perm
             _ _ _ _ Hb Ha Hsb Hsa).
  eexists. eexists. repeat split; reflexivity.
Qed.

Lemma hashable_put_keys k f fs :
  hashable k = true ->
  Forall (fun k => hashable k = true) (map fst fs) ->
  Forall (fun k => hashable k = true) (map fst (fields_put k f fs)).
Proof.
  intros Hk Hfs. rewrite fields_put_keys.
  destruct (key_mem k (map fst fs)); [exact Hfs|].
  apply Forall_app. split; [exact Hfs|constructor; [exact Hk|constructor]].
Qed.

Lemma add_list_fields_hashable name lst fs fs' :
  add_list_fields name lst fs = Ret fs' ->
  Forall (fun k => hashable k = true) (map fst fs) ->
  Forall (fun k => hashable k = true) (map fst fs').
Proof.
  revert fs. induction lst as [|x lst IH]; intros fs; simpl.
  - intros H. inversion H; subst. auto.
  - destruct x; try (apply IH).
    unfold fields_assign. destruct (hashable (name d)) eqn:Hh; [|discriminate].
    intros H Hok. apply (IH _ H). apply hashable_put_keys; assumption.
Qed.

Lemma add_dict_fields_hashable d fs :
  Forall (fun k => hashable k = true) (map fst fs) ->
  Forall (fun k => hashable k = true) (map fst (add_dict_fields py_str d fs)).
Proof.
  revert fs. induction d as [|[k v] d IH]; intros fs Hok; simpl; [exact Hok|].
  destruct v; apply IH, hashable_put_keys; auto.
Qed.

Lemma add_list_fields_raise name lst fs e :
  add_list_fields name lst fs = Raise e -> e = TypeError "unhashable type".
Proof.
  revert fs. induction lst as [|x lst IH]; intros fs; simpl; [discriminate|].
  destruct x; try (apply IH).
  unfold fields_assign. destruct (hashable (name d)).
  - apply IH.
  - intros H. inversion H. reflexivity.
Qed.

Lemma fields_put_nonempty k f fs : fields_put k f fs <> [].
Proof. destruct fs as [|[k' f'] fs]; simpl; [|destruct (py_eq k k')]; discriminate. Qed.

Lemma add_dict_fields_nonempty d fs :
  fs <> [] -> add_dict_fields py_str d fs <> [].
Proof.
  revert fs. induction d as [|[k v] d IH]; intros fs H; simpl; [exact H|].
  destruct v; apply IH, fields_put_nonempty.
Qed.

(** X15.  Canonicalization can raise one thing only, the [TypeError] of
    an unhashable name; a schema whose ["fields"] is a non-empty dict
    always canonicalizes. *)
Theorem canonicalization_failure s :
  (forall e, _extract_fields_from_schema py_str s = Raise e ->
             e = TypeError "unhashable type") /\
  (forall d, get "fields" s = JDict d -> d <> [] ->
             exists fields, _extract_fields_from_schema py_str s = Ret fields).
Proof.
  split.
  - intros e. unfold _extract_fields_from_schema.
    destruct s as [|kv s']; [discriminate|]. set (s := kv :: s').
    destruct (get "fields" s) eqn:G;
      try (destruct (get "raw_schema" s); try discriminate;
           destruct (get "fields" d); try discriminate;
           apply add_list_fields_raise).
    + destruct (add_list_fields name_or_path l []) as [fs|e'] eqn:E.
      * destruct fs; [|destruct (get "raw_schema" s); discriminate].
        destruct (get "raw_schema" s); try discriminate.
        destruct (get "fields" d); try discriminate.
        apply add_list_fields_raise.
      * intros H. inversion H; subst. exact (add_list_fields_raise _ _ _ _ E).
    + destruct (add_dict_fields py_str d []);
        [|destruct (get "raw_schema" s); discriminate].
      destruct (get "raw_schema" s); try discriminate.
      destruct (get "fields" d0); try discriminate.
      apply add_list_fields_raise.
  - intros d G Hne. unfold _extract_fields_from_schema.
    destruct s as [|kv s']; [discriminate|]. rewrite G.
    destruct d as [|[k v] d']; [contradiction|].
    destruct (add_dict_fields py_str ((k, v) :: d') []) as [|kf fs] eqn:E.
    + exfalso. revert E. simpl.
      destruct v; apply add_dict_fields_nonempty; discriminate.
    + eexists. destruct (get "raw_schema" (kv :: s')); reflexivity.
Qed.

Lemma extract_hashable s fs :
  _extract_fields_from_schema py_str s = Ret fs ->
  Forall (fun k => hashable k = true) (map fst fs).
Proof.
  unfold _extract_fields_from_schema.
  destruct s as [|kv s']; [intros H; inversion H; constructor|].
  set (s := kv :: s').
  destruct (match get "fields" s with
            | JList lst => add_list_fields name_or_path lst []
            | JDict d => Ret (add_dict_fields py_str d [])
            | _ => Ret []
            end) as [fields|e] eqn:E1; [|discriminate].
  assert (Forall (fun k => hashable k = true) (map fst fields)) as Hok.
  { destruct (get "fields" s); try (inversion E1; subst; constructor).
    - exact (add_list_fields_hashable _ _ _ _ E1 (Forall_nil _)).
    - inversion E1; subst. apply add_dict_fields_hashable. constructor. }
  destruct fields as [|kf fields'].
  - destruct (get "raw_schema" s); try (intros H; inversion H; constructor).
    destruct (get "fields" d); try (intros H; inversion H; constructor).
    intros H. exact (add_list_fields_hashable _ _ _ _ H (Forall_nil _)).
  - destruct (get "raw_schema" s); intros H; inversion H; subst; exact Hok.
Qed.

Lemma fields_get_bound_In k f fs :
  keys_apart (map fst fs) -> self_equal k -> In (k, f) fs ->
  fields_get k fs = Some f.
Proof.
  induction fs as [|[k0 f0] fs IH]; simpl; intros Hok Hk Hin; [contradiction|].
  destruct Hok as [H0 Hok]. destruct Hin as [E|Hin].
  - inversion E; subst. rewrite Hk. reflexivity.
  - rewrite (H0 k); [exact (IH Hok Hk Hin)|].
    apply in_map_iff. exists (k, f). split; [reflexivity|exact Hin].
Qed.

(** X16.  In every canonical form the names are hashable and no name is
    equal to one bound before it, so looking a field up by its own name
    finds that field. *)
Theorem canonical_form_invariant schema fields :
  fields_or_empty py_str schema = Ret fields ->
  keys_apart (map fst fields) /\
  Forall (fun k => hashable k = true) (map fst fields) /\
  (forall k f, In (k, f) fields -> self_equal k ->
               fields_get k fields = Some f).
Proof.
  intros H. pose proof (fields_or_empty_apart py_str _ _ H) as Hap.
  split; [exact Hap|]. split.
  - destruct schema as [[|kv s]|]; try (inversion H; constructor).
    exact (extract_hashable (kv :: s) fields H).
  - intros k f Hin Hk. exact (fields_get_bound_In k f fields Hap Hk Hin).
Qed.

(** ** String names *)

Lemma strings_self_equal ks :
  Forall (fun k => is_str k = true) ks -> Forall self_equal ks.
Proof.
  apply Forall_impl. intros k Hk. destruct k; try discriminate.
  apply self_equal_str.
Qed.

Lemma keys_apart_NoDup ks :
  Forall (fun k => is_str k = true) ks -> keys_apart ks -> NoDup ks.
Proof.
  induction 1 as [|k ks Hk _ IH]; simpl; intros Hap; constructor.
  - destruct Hap as [H0 _]. intros Hin. specialize (H0 k Hin).
    destruct k; try discriminate.
    rewrite (self_equal_str s) in H0. discriminate.
  - apply IH. exact (proj2 Hap).
Qed.

Lemma key_mem_str_In k ks :
  is_str k = true -> (key_mem k ks = true <-> In k ks).
Proof. destruct k; try discriminate. intros _. apply key_mem_str. Qed.

Lemma filter_split_length {A} (f : A -> bool) l :
  (List.length (filter f l) + List.length (filter (fun x => negb (f x)) l)
   = List.length l)%nat.
Proof.
  induction l as [|a l IH]; simpl; [reflexivity|].
  destruct (f a); simpl; lia.
Qed.

Lemma set_inter_comm_length a b :
  Forall (fun k => is_str k = true) a ->
  Forall (fun k => is_str k = true) b ->
  NoDup a -> NoDup b ->
  List.length (set_inter a b) = List.length (set_inter b a).
Proof.
  intros Ha Hb Na Nb. apply Permutation_length, NoDup_Permutation.
  - apply NoDup_filter. exact Na.
  - apply NoDup_filter. exact Nb.
  - intros x. rewrite !set_inter_In. rewrite Forall_forall in Ha, Hb. split.
    + intros [Hx Hm]. apply key_mem_str_In in Hm; [|exact (Ha x Hx)].
      split; [exact Hm|]. apply key_mem_str_In; [exact (Ha x Hx)|exact Hx].
    + intros [Hx Hm]. apply key_mem_str_In in Hm; [|exact (Hb x Hx)].
      split; [exact Hm|]. apply key_mem_str_In; [exact (Hb x Hx)|exact Hx].
Qed.

Lemma entries_length old_fields new_fields names :
  (List.length (flat_map (entry_of old_fields new_fields) names)
   <= List.length names)%nat.
Proof.
  induction names as [|k names IH]; simpl; [lia|].
  rewrite length_app. unfold entry_of at 1.
  destruct (change_of k _ _); simpl; lia.
Qed.

(** X11.  For schemas whose field names are strings the counts add up.
    Let [shared] list, once each, the names bound on both sides.  Then
    [old_count] is the number of removed fields plus the number of shared
    names, [new_count] is the number of added fields plus the number of
    shared names, either count is the number of fields of its side, and
    ["changed"] has at most one entry for each shared name. *)
Theorem diff_counts_add_up old new old_fields new_fields :
  fields_or_empty py_str old = Ret old_fields ->
  fields_or_empty py_str (Some new) = Ret new_fields ->
  Forall (fun k => is_str k = true) (map fst old_fields) ->
  Forall (fun k => is_str k = true) (map fst new_fields) ->
  exists d shared,
    compare_schemas py_str set_order old new = Ret d /\
    NoDup shared /\
    (forall k, In k shared <->
               In k (map fst old_fields) /\ In k (map fst new_fields)) /\
    old_count d = py_len (removed d) + py_len shared /\
    new_count d = py_len (added d) + py_len shared /\
    old_count d = py_len old_fields /\
    new_count d = py_len new_fields /\
    py_len (changed d) <= py_len shared.
Proof.
  intros Ho Hn Hso Hsn.
  rewrite (compare_schemas_returns py_str set_order set_order_perm
             _ _ _ _ Ho Hn (strings_self_equal _ Hso) (strings_self_equal _ Hsn)).
  set (old_names := map fst old_fields). set (new_names := map fst new_fields).
  pose proof (keys_apart_NoDup _ Hso (fields_or_empty_apart py_str _ _ Ho))
    as Ndo.
  pose proof (keys_apart_NoDup _ Hsn (fields_or_empty_apart py_str _ _ Hn))
    as Ndn.
  eexists. exists (set_inter old_names new_names).
  split; [reflexivity|].
  split; [apply NoDup_filter; exact Ndo|].
  split.
  { intros k. rewrite set_inter_In. split.
    - intros [Hk Hm]. split; [exact Hk|].
      apply key_mem_str_In in Hm; [exact Hm|].
      rewrite Forall_forall in Hso. exact (Hso k Hk).
    - intros [Hk Hm]. split; [exact Hk|].
      apply key_mem_str_In; [|exact Hm].
      rewrite Forall_forall in Hso. exact (Hso k Hk). }
  simpl. unfold py_len.
  rewrite !length_map.
  rewrite !(Permutation_length (set_order_perm _)).
  pose proof (filter_split_length (fun k => key_mem k new_names) old_names) as Eo.
  pose proof (filter_split_length (fun k => key_mem k old_names) new_names) as En.
  pose proof (set_inter_comm_length old_names new_names Hso Hsn Ndo Ndn) as Ec.
  pose proof (entries_length old_fields new_fields
                (set_order (set_inter old_names new_names))) as El.
  rewrite (Permutation_length (set_order_perm _)) in El.
  unfold set_inter, set_diff in *. unfold old_names, new_names in *.
  rewrite !length_map in Eo, En.
  repeat split; lia.
Qed.

(** ** The two representations *)

Lemma fields_put_fresh k f fs :
  key_mem k (map fst fs) = false -> fields_put k f fs = fs ++ [(k, f)].
Proof.
  induction fs as [|[k' f'] fs IH]; simpl; [reflexivity|].
  intros H. apply orb_false_iff in H. destruct H as [H1 H2].
  rewrite H1, (IH H2). reflexivity.
Qed.

Lemma key_mem_str_false n ks :
  ~ In (JStr n) ks -> key_mem (JStr n) ks = false.
Proof.
  intros H. destruct (key_mem (JStr n) ks) eqn:E; [|reflexivity].
  apply key_mem_str in E. contradiction.
Qed.

Lemma JStr_NoDup l : NoDup l -> NoDup (map JStr l).
Proof.
  induction 1 as [|x l Hni _ IH]; simpl; constructor; [|exact IH].
  rewrite in_map_iff. intros (y & E & Hy). inversion E; subst. exact (Hni Hy).
Qed.

Lemma add_dict_fields_fresh d fs :
  NoDup (map fst fs ++ map JStr (map fst d)) ->
  add_dict_fields py_str d fs =
  fs ++ map (fun kv => (JStr (fst kv), legacy_field py_str (fst kv) (snd kv))) d.
Proof.
  revert fs. induction d as [|[k v] d IH]; intros fs Hnd; simpl.
  - rewrite app_nil_r. reflexivity.
  - assert (key_mem (JStr k) (map fst fs) = false) as Hk.
    { apply key_mem_str_false. intros Hin.
      apply NoDup_remove_2 in Hnd. apply Hnd, in_or_app. left. exact Hin. }
    assert (NoDup (map fst (fs ++ [(JStr k, legacy_field py_str k v)])
                   ++ map JStr (map fst d))) as Hnd'.
    { rewrite map_app. simpl. rewrite <- app_assoc. exact Hnd. }
    destruct v; simpl legacy_field in *;
      rewrite (fields_put_fresh _ _ _ Hk), (IH _ Hnd'), <- app_assoc;
      reflexivity.
Qed.

(** X12.  A schema in the legacy form, with descriptors filed by name,
    canonicalizes to one field per key, in order.  Each field carries its
    key as ["name"], whatever name the descriptor held; the other entries
    of a dict descriptor are kept, and a descriptor that is not a dict is
    read as the type, through [str]. *)
Theorem legacy_form_canonicalizes s d :
  get "fields" s = JDict d ->
  d <> [] ->
  NoDup (map fst d) ->
  fields_or_empty py_str (Some s) =
    Ret (map (fun kv => (JStr (fst kv), legacy_field py_str (fst kv) (snd kv))) d)
  /\
  (forall k meta, In (k, meta) d ->
     dict_get "name" (legacy_field py_str k meta) = Some (JStr k) /\
     (forall m key, meta = JDict m -> key <> "name" ->
                    dict_get key (legacy_field py_str k meta) = dict_get key m) /\
     (is_dict meta = false ->
      dict_get "type" (legacy_field py_str k meta) = Some (JStr (py_str meta)))).
Proof.
  intros G Hne Hnd. split.
  - destruct s as [|kv s']; [discriminate|].
    change (_extract_fields_from_schema py_str (kv :: s') = Ret
              (map (fun kv => (JStr (fst kv),
                               legacy_field py_str (fst kv) (snd kv))) d)).
    unfold _extract_fields_from_schema. rewrite G.
    rewrite (add_dict_fields_fresh d []) by (simpl; apply JStr_NoDup; exact Hnd).
    simpl app. destruct d as [|kv0 d']; [contradiction|]. simpl.
    destruct (get "raw_schema" (kv :: s')); reflexivity.
  - intros k meta _. split; [|split].
    + destruct meta; try reflexivity. simpl. apply dict_get_set_same.
    + intros m key -> Hkey. simpl. apply dict_get_set_other. exact Hkey.
    + intros Hd. destruct meta; try discriminate; reflexivity.
Qed.

Lemma fields_get_put_str n n' f fs :
  fields_get (JStr n) (fields_put (JStr n') f fs) =
  if String.eqb n n' then Some f else fields_get (JStr n) fs.
Proof.
  induction fs as [|[k0 f0] fs IH]; cbn [fields_put fields_get].
  - destruct (String.eqb_spec n n') as [->|Hne].
    + rewrite (self_equal_str n'). reflexivity.
    + destruct (py_eq (JStr n) (JStr n')) eqn:E; [|reflexivity].
      apply py_eq_str in E. inversion E. congruence.
  - destruct (py_eq (JStr n') k0) eqn:E1.
    + apply py_eq_str in E1. subst k0. cbn [fields_get].
      destruct (String.eqb_spec n n') as [->|Hne].
      * rewrite (self_equal_str n'). reflexivity.
      * destruct (py_eq (JStr n) (JStr n')) eqn:E; [|reflexivity].
        apply py_eq_str in E. inversion E. congruence.
    + cbn [fields_get]. destruct (py_eq (JStr n) k0) eqn:E2.
      * apply py_eq_str in E2. subst k0.
        destruct (String.eqb_spec n n') as [->|Hne]; [|reflexivity].
        rewrite (self_equal_str n') in E1. discriminate.
      * exact IH.
Qed.

Lemma find_snoc {A} (p : A -> bool) l a :
  find p (l ++ [a]) =
  match find p l with
  | Some x => Some x
  | None => if p a then Some a else None
  end.
Proof.
  induction l as [|b l IH]; simpl; [reflexivity|].
  destruct (p b); [reflexivity|exact IH].
Qed.

Lemma add_list_fields_lookup name lst fs fs' n :
  (forall f, In f (dicts lst) -> is_str (name f) = true) ->
  add_list_fields name lst fs = Ret fs' ->
  fields_get (JStr n) fs' =
  match find (fun f => py_eq (JStr n) (name f)) (rev (dicts lst)) with
  | Some f => Some f
  | None => fields_get (JStr n) fs
  end.
Proof.
  revert fs. induction lst as [|x lst IH]; intros fs Hstr; simpl.
  - intros H. inversion H. reflexivity.
  - destruct x; try (apply IH; exact Hstr).
    simpl in Hstr. pose proof (Hstr d (or_introl eq_refl)) as Hd.
    unfold fields_assign.
    destruct (name d) as [ | | | |n'| | ] eqn:En; try discriminate. simpl.
    intros H. rewrite (IH _ (fun f Hf => Hstr f (or_intror Hf)) H).
    rewrite find_snoc, En, fields_get_put_str.
    destruct (find _ (rev (dicts lst))); [reflexivity|].
    simpl. destruct (String.eqb n n'); reflexivity.
Qed.

(** X13.  When descriptors of the list form share a name, the last one
    wins: the canonical form binds a name to the last descriptor in the
    list that resolves to it. *)
Theorem last_descriptor_wins s lst fields n :
  get "fields" s = JList lst ->
  dicts lst <> [] ->
  (forall f, In f (dicts lst) -> is_str (name_or_path f) = true) ->
  fields_or_empty py_str (Some s) = Ret fields ->
  fields_get (JStr n) fields =
  find (fun f => py_eq (JStr n) (name_or_path f)) (rev (dicts lst)).
Proof.
  intros G Hne Hstr H.
  destruct (add_list_fields_keys name_or_path lst []) as (fs & E & K).
  { intros f Hf. specialize (Hstr f Hf).
    destruct (name_or_path f); try discriminate. reflexivity. }
  assert (fields = fs) as ->.
  { destruct s as [|kv s']; [discriminate|].
    change (_extract_fields_from_schema py_str (kv :: s') = Ret fields) in H.
    unfold _extract_fields_from_schema in H. rewrite G, E in H.
    destruct fs as [|kf fs'].
    - exfalso. simpl in K. symmetry in K. revert K.
      apply (distinct_nonempty (map name_or_path (dicts lst))).
      destruct (dicts lst); [contradiction|discriminate].
    - destruct (get "raw_schema" (kv :: s')); inversion H; reflexivity. }
  rewrite (add_list_fields_lookup name_or_path lst [] fs n Hstr E).
  destruct (find _ _); reflexivity.
Qed.

Lemma add_list_fields_fresh name (fl : list pydict) fs :
  (forall f, In f fl -> is_str (name f) = true) ->
  NoDup (map fst fs ++ map name fl) ->
  add_list_fields name (map JDict fl) fs =
  Ret (fs ++ map (fun f => (name f, f)) fl).
Proof.
  revert fs. induction fl as [|f fl IH]; intros fs Hstr Hnd; simpl.
  - rewrite app_nil_r. reflexivity.
  - pose proof (Hstr f (or_introl eq_refl)) as Hf.
    unfold fields_assign.
    destruct (name f) as [ | | | |n| | ] eqn:En; try discriminate. simpl.
    assert (key_mem (JStr n) (map fst fs) = false) as Hk.
    { apply key_mem_str_false. intros Hin.
      apply NoDup_remove_2 in Hnd. rewrite En in Hnd.
      apply Hnd, in_or_app. left. exact Hin. }
    rewrite (fields_put_fresh _ _ _ Hk), IH.
    + rewrite <- app_assoc. simpl. rewrite ?En. reflexivity.
    + intros g Hg. apply Hstr. right. exact Hg.
    + rewrite map_app. simpl. rewrite <- app_assoc.
      simpl in Hnd. rewrite En in Hnd. exact Hnd.
Qed.

Lemma list_form_fields l :
  l <> [] ->
  NoDup (map (fun ntb : string * string * bool => fst (fst ntb)) l) ->
  (forall ntb, In ntb l -> fst (fst ntb) <> EmptyString) ->
  fields_or_empty py_str (Some (list_form l)) =
  Ret (map (fun ntb : string * string * bool =>
              (JStr (fst (fst ntb)),
               [ ("name", JStr (fst (fst ntb)));
                 ("type", JStr (snd (fst ntb)));
                 ("nullable", JBool (snd ntb)) ])) l).
Proof.
  intros Hne Hnd Hnames.
  change (_extract_fields_from_schema py_str (list_form l) = Ret
            (map (fun ntb : string * string * bool =>
                    (JStr (fst (fst ntb)),
                     [ ("name", JStr (fst (fst ntb)));
                       ("type", JStr (snd (fst ntb)));
                       ("nullable", JBool (snd ntb)) ])) l)).
  unfold _extract_fields_from_schema, list_form.
  change (get "fields" [("fields", ?v)]) with v.
  set (desc := fun ntb : string * string * bool =>
                 [ ("name", JStr (fst (fst ntb)));
                   ("type", JStr (snd (fst ntb)));
                   ("nullable", JBool (snd ntb)) ]).
  assert (forall ntb, In ntb l ->
                      name_or_path (desc ntb) = JStr (fst (fst ntb))) as Hn.
  { intros [[n t] b] Hin. specialize (Hnames _ Hin). simpl in Hnames.
    apply String.eqb_neq in Hnames.
    unfold name_or_path, get, dict_get_default, py_or. simpl.
    rewrite Hnames. simpl. rewrite Hnames. reflexivity. }
  rewrite <- (map_map desc JDict).
  rewrite (add_list_fields_fresh name_or_path (map desc l) []).
  - simpl app. rewrite map_map.
    erewrite map_ext_in; [|intros ntb Hin; rewrite (Hn ntb Hin); reflexivity].
    destruct l as [|x l']; [contradiction|]. reflexivity.
  - intros f Hf. apply in_map_iff in Hf. destruct Hf as (ntb & <- & Hin).
    rewrite (Hn ntb Hin). reflexivity.
  - simpl. rewrite map_map.
    erewrite map_ext_in; [|intros ntb Hin; rewrite (Hn ntb Hin); reflexivity].
    rewrite <- (map_map (fun ntb : string * string * bool => fst (fst ntb)) JStr).
    apply JStr_NoDup. exact Hnd.
Qed.

Lemma dict_form_fields l :
  l <> [] ->
  NoDup (map (fun ntb : string * string * bool => fst (fst ntb)) l) ->
  fields_or_empty py_str (Some (dict_form l)) =
  Ret (map (fun ntb : string * string * bool =>
              (JStr (fst (fst ntb)),
               [ ("type", JStr (snd (fst ntb)));
                 ("nullable", JBool (snd ntb));
                 ("name", JStr (fst (fst ntb))) ])) l).
Proof.
  intros Hne Hnd.
  change (_extract_fields_from_schema py_str (dict_form l) = Ret
            (map (fun ntb : string * string * bool =>
                    (JStr (fst (fst ntb)),
                     [ ("type", JStr (snd (fst ntb)));
                       ("nullable", JBool (snd ntb));
                       ("name", JStr (fst (fst ntb))) ])) l)).
  unfold _extract_fields_from_schema, dict_form.
  change (get "fields" [("fields", ?v)]) with v. cbv beta iota.
  rewrite (add_dict_fields_fresh _ []).
  - simpl app. rewrite map_map. simpl.
    destruct l as [|x l']; [contradiction|]. reflexivity.
  - simpl. rewrite !map_map. simpl.
    rewrite <- (map_map (fun ntb : string * string * bool => fst (fst ntb)) JStr).
    apply JStr_NoDup. exact Hnd.
Qed.

(** X14.  The list form and the legacy dict form of one schema are the
    same to the diff: with distinct, non-empty names, comparing one
    representation with the other, in either direction, reports nothing
    added, removed or changed. *)
Theorem representations_agree l :
  l <> [] ->
  NoDup (map (fun ntb : string * string * bool => fst (fst ntb)) l) ->
  (forall ntb, In ntb l -> fst (fst ntb) <> EmptyString) ->
  compare_schemas py_str set_order (Some (list_form l)) (dict_form l)
  = Ret (mkDiff [] [] [] [] [] (py_len l) (py_len l)) /\
  compare_schemas py_str set_order (Some (dict_form l)) (list_form l)
  = Ret (mkDiff [] [] [] [] [] (py_len l) (py_len l)).
Proof.
  intros Hne Hnd Hnames.
  pose proof (list_form_fields l Hne Hnd Hnames) as Ha.
  pose proof (dict_form_fields l Hne Hnd) as Hb.
  remember (map (fun ntb : string * string * bool =>
                   (JStr (fst (fst ntb)),
                    [ ("name", JStr (fst (fst ntb)));
                      ("type", JStr (snd (fst ntb)));
                      ("nullable", JBool (snd ntb)) ])) l) as fa eqn:Efa.
  remember (map (fun ntb : string * string * bool =>
                   (JStr (fst (fst ntb)),
                    [ ("type", JStr (snd (fst ntb)));
                      ("nullable", JBool (snd ntb));
                      ("name", JStr (fst (fst ntb))) ])) l) as fb eqn:Efb.
  set (names := map JStr (map (fun ntb : string * string * bool =>
                                 fst (fst ntb)) l)).
  assert (@map (json * pydict) json (@fst json pydict) fa = names) as Na
    by (subst fa; unfold names; rewrite !map_map; reflexivity).
  assert (@map (json * pydict) json (@fst json pydict) fb = names) as Nb
    by (subst fb; unfold names; rewrite !map_map; reflexivity).
  assert (Forall self_equal names) as Hs.
  { apply Forall_forall. intros k Hk. apply in_map_iff in Hk.
    destruct Hk as (n & <- & _). apply self_equal_str. }
  assert (forall k, In k names ->
            entry_of fa fb k = [] /\ entry_of fb fa k = []) as Hentries.
  { intros k Hk. apply in_map_iff in Hk. destruct Hk as (n & <- & Hn).
    apply in_map_iff in Hn. destruct Hn as ([[n' t] b] & E & Hin).
    simpl in E. subst n'.
    assert (bound fa (JStr n)
            = [("name", JStr n); ("type", JStr t); ("nullable", JBool b)]) as Ba.
    { apply bound_In.
      - exact (fields_or_empty_apart py_str _ _ Ha).
      - apply self_equal_str.
      - rewrite Efa. apply in_map_iff. exists (n, t, b).
        split; [reflexivity|exact Hin]. }
    assert (bound fb (JStr n)
            = [("type", JStr t); ("nullable", JBool b); ("name", JStr n)]) as Bb.
    { apply bound_In.
      - exact (fields_or_empty_apart py_str _ _ Hb).
      - apply self_equal_str.
      - rewrite Efb. apply in_map_iff. exists (n, t, b).
        split; [reflexivity|exact Hin]. }
    unfold entry_of. rewrite Ba, Bb. unfold change_of, py_ne. simpl.
    rewrite String.eqb_refl. destruct b; split; reflexivity. }
  assert (@List.length (json * pydict) fa = List.length l) as La
    by (rewrite Efa; apply length_map).
  assert (@List.length (json * pydict) fb = List.length l) as Lb
    by (rewrite Efb; apply length_map).
  split.
  - rewrite (compare_schemas_returns py_str set_order set_order_perm
               _ _ _ _ Ha Hb); [|rewrite Na; exact Hs|rewrite Nb; exact Hs].
    rewrite Na, Nb, (set_diff_self names Hs),
      (set_order_nil set_order set_order_perm). simpl.
    rewrite flat_map_nil.
    + unfold py_len. rewrite La, Lb. reflexivity.
    + intros k Hk. apply (set_order_In set_order set_order_perm), set_inter_In in Hk.
      exact (proj1 (Hentries k (proj1 Hk))).
  - rewrite (compare_schemas_returns py_str set_order set_order_perm
               _ _ _ _ Hb Ha); [|rewrite Nb; exact Hs|rewrite Na; exact Hs].
    rewrite Na, Nb, (set_diff_self names Hs),
      (set_order_nil set_order set_order_perm). simpl.
    rewrite flat_map_nil.
    + unfold py_len. rewrite La, Lb. reflexivity.
    + intros k Hk. apply (set_order_In set_order set_order_perm), set_inter_In in Hk.
      exact (proj2 (Hentries k (proj1 Hk))).
Qed.

End DiffMore.

(* ===================================================================== *)
(** * Comparing against an absent old side                                *)
(* ===================================================================== *)

Section AbsentOldSide.
Import Py SchemaDiff.

Variable py_str : json -> string.
Variable set_order : list json -> list json.
Hypothesis set_order_perm : forall l, Permutation (set_order l) l.









End AbsentOldSide.



(* ===================================================================== *)
(** * Further properties of the upload pipeline                           *)
(* ===================================================================== *)

Section PipelineMore.
Import Py MongoSanitize DynamicEtl.
Context {W DF : Type} (E : Env W DF).

(** X19.  The temporary file is removed exactly once, after the body and
    on the state the body leaves, whether the body returned or raised;
    what the removal itself returns or raises never reaches the caller.
    When the temporary file cannot be written nothing else runs. *)
Theorem temporary_file_is_always_removed file_bytes filename source_id s0 :
  let sid := effective_source_id E filename source_id in
  match write_temp E (snd (os_path_splitext E filename)) file_bytes s0 with
  | (Raise e, s1) =>
      run_dynamic_etl_bytes E file_bytes filename source_id s0 = (Raise e, s1)
  | (Ret tmp_path, s1) =>
      let after := body E tmp_path sid s1 in
      run_dynamic_etl_bytes E file_bytes filename source_id s0 =
      (fst after, snd (os_remove E tmp_path (snd after)))
  end.
Proof.
  intros sid. unfold run_dynamic_etl_bytes, bindM, finally_quiet.
  fold (effective_source_id E filename source_id). fold sid.
  destruct (write_temp E (snd (os_path_splitext E filename)) file_bytes s0)
    as [[tmp_path|e] s1]; [|reflexivity].
  simpl. destruct (body E tmp_path sid s1). reflexivity.
Qed.

(** X17.  When extraction yields no frame, or an empty one, the body
    returns the five-key empty result and stops there: nothing is
    transformed, generated, tracked or logged. *)
Theorem empty_extraction_short_circuits tmp_path sid odf fragments s s' :
  extract_data E tmp_path s = (Ret (odf, fragments), s') ->
  match odf with
  | None => True
  | Some df => df_empty E df = true
  end ->
  body E tmp_path sid s = (Ret (empty_result fragments), s').
Proof.
  intros Hx Hempty. unfold body, bindM. rewrite Hx.
  destruct odf as [df|]; [rewrite Hempty|]; reflexivity.
Qed.

(** X18.  When the tracker returns a descriptor, that descriptor, not the
    generated one, is what the run reports: ["schema"] is its sanitized
    form and ["schema_version"] its ["version"] entry (1 when it has
    none), and the version is logged at [INFO]. *)
Theorem tracked_descriptor_is_reported
    tmp_path sid df fragments transformed_df transform_stats schema tracked
    records sanitized_schema s s1 s2 s3 s4 :
  extract_data E tmp_path s = (Ret (Some df, fragments), s1) ->
  df_empty E df = false ->
  run_transform_pipeline E df s1
    = (Ret (transformed_df, transform_stats), s2) ->
  generate_schema E transformed_df sid fragments s2 = (Ret schema, s3) ->
  add_schema E sid schema s3 = (Ret (VDict tracked), s4) ->
  mapM (sanitize_record E) (to_records E transformed_df) = Ret records ->
  sanitize_for_mongo (VDict tracked) = Ret sanitized_schema ->
  let version := vdict_get_default "version" (VInt 1) tracked in
  body E tmp_path sid s =
    (Ret (full_result E sid df transformed_df transform_stats fragments
            records sanitized_schema version),
     (fst s4,
      snd s4 ++ [(INFO, ("Schema version " ++ py_str E version
                         ++ " tracked for " ++ sid)%string)])).
Proof.
  intros Hx Hne Ht Hg Ha Hr Hs version.
  unfold body, bindM. rewrite Hx, Hne, Ht, Hg.
  unfold track. rewrite Ha. cbn [py_get]. fold version.
  unfold bindM, logger, ret, lift. cbn [fst snd]. rewrite Hr, Hs.
  reflexivity.
Qed.

(** X21.  When the tracker returns something that is not a dict, the
    [except] branch logs its warning and the run carries on, but only up
    to the last step: reading the version raises [AttributeError], which
    is what the caller gets. *)
Theorem tracker_returning_no_dict_raises
    tmp_path sid df fragments transformed_df transform_stats schema tracked
    records sanitized_schema s s1 s2 s3 s4 msg :
  extract_data E tmp_path s = (Ret (Some df, fragments), s1) ->
  df_empty E df = false ->
  run_transform_pipeline E df s1
    = (Ret (transformed_df, transform_stats), s2) ->
  generate_schema E transformed_df sid fragments s2 = (Ret schema, s3) ->
  add_schema E sid schema s3 = (Ret tracked, s4) ->
  py_get tracked "version" (VInt 1) = Raise (AttributeError msg) ->
  mapM (sanitize_record E) (to_records E transformed_df) = Ret records ->
  sanitize_for_mongo tracked = Ret sanitized_schema ->
  body E tmp_path sid s =
    (Raise (AttributeError msg),
     (fst s4,
      snd s4 ++ [(WARNING,
                  ("Schema evolution tracking failed: " ++ msg)%string)])).
Proof.
  intros Hx Hne Ht Hg Ha Hv Hr Hs.
  unfold body, bindM. rewrite Hx, Hne, Ht, Hg.
  unfold track. rewrite Ha, Hv.
  unfold bindM, logger, ret, lift. cbn [fst snd]. rewrite Hr, Hs, Hv.
  reflexivity.
Qed.

(** Every dict the body returns is the empty result or a full result. *)
Lemma body_returns tmp_path sid s d s' :
  body E tmp_path sid s = (Ret d, s') ->
  (exists fragments, d = empty_result fragments) \/
  (exists df transformed_df transform_stats fragments records schema version,
      d = full_result E sid df transformed_df transform_stats fragments
            records schema version).
Proof.
  unfold body, bindM.
  destruct (extract_data E tmp_path s) as [[[odf fragments]|e] s1];
    [|discriminate].
  destruct odf as [df|].
  2:{ intros H. inversion H. left. eauto. }
  destruct (df_empty E df).
  { intros H. inversion H. left. eauto. }
  destruct (run_transform_pipeline E df s1) as [[[tdf stats]|e] s2];
    [|discriminate].
  destruct (generate_schema E tdf sid fragments s2) as [[schema|e] s3];
    [|discriminate].
  destruct (track E sid schema s3) as [[schema'|e] s4]; [|discriminate].
  unfold lift.
  destruct (mapM (sanitize_record E) (to_records E tdf)) as [records|e];
    [|discriminate].
  destruct (sanitize_for_mongo schema') as [sanitized|e]; [|discriminate].
  destruct (py_get schema' "version" (VInt 1)) as [version|e]; [|discriminate].
  intros H. inversion H. right.
  exists df, tdf, stats, fragments, records, sanitized, version. reflexivity.
Qed.

(** X20.  In every dict the run returns, ["row_count"] is the number of
    records under ["structured_data"]; the keys are those of the empty
    result or those of a full result; and in a full result
    ["nullsRemoved"] is never negative. *)
Theorem returned_dict_is_consistent file_bytes filename source_id s0 d s' :
  run_dynamic_etl_bytes E file_bytes filename source_id s0 = (Ret d, s') ->
  (exists records,
      In ("structured_data", VList records) d /\
      In ("row_count", VInt (py_len records)) d) /\
  (map fst d = ["structured_data"; "schema"; "row_count"; "cleaning_stats";
                "parsed_fragments"] \/
   map fst d = ["structured_data"; "schema"; "row_count"; "cleaning_stats";
                "parsed_fragments"; "source_id"; "schema_version"] /\
   exists stats n,
     In ("cleaning_stats", VDict stats) d /\
     vdict_get "nullsRemoved" stats = Some (VInt n) /\ 0 <= n).
Proof.
  intros H.
  pose proof (temporary_file_is_always_removed file_bytes filename source_id s0)
    as Hrun. simpl in Hrun.
  destruct (write_temp E (snd (os_path_splitext E filename)) file_bytes s0)
    as [[tmp_path|e] s1]; rewrite Hrun in H; [|discriminate].
  destruct (body E tmp_path (effective_source_id E filename source_id) s1)
    as [r s2] eqn:Hb. simpl in H. inversion H; subst r.
  destruct (body_returns _ _ _ _ _ Hb)
    as [(fragments & ->)
       |(df & tdf & stats & fragments & records & schema & version & ->)].
  - split; [|left; reflexivity].
    exists []. split; simpl; auto.
  - split.
    + exists (map VDict records). unfold full_result. split.
      * left. reflexivity.
      * right. right. left. unfold py_len. rewrite length_map. reflexivity.
    + right. split; [reflexivity|].
      eexists. exists (Z.max 0 (df_isna_sum E df - df_isna_sum E tdf)).
      split; [right; right; right; left; reflexivity|].
      split; [reflexivity|lia].
Qed.

End PipelineMore.

Section SourceId.
Import DynamicEtl.

(** X22.  The identifier derived from a file name has the length of the
    stem and no space in it, and a stem without spaces is taken as it
    is. *)
Theorem replace_spaces_removes_spaces s :
  String.length (replace_spaces s) = String.length s /\
  has_space (replace_spaces s) = false /\
  (has_space s = false -> replace_spaces s = s).
Proof.
  induction s as [|c s (IH1 & IH2 & IH3)]; simpl; [auto|].
  split; [rewrite IH1; reflexivity|]. split.
  - rewrite IH2. destruct (Ascii.eqb c " ") eqn:Ec; simpl.
    + reflexivity.
    + rewrite Ec. reflexivity.
  - intros H. apply orb_false_iff in H. destruct H as [Hc Hs].
    rewrite Hc, (IH3 Hs). reflexivity.
Qed.

End SourceId.

(* ===================================================================== *)
(** * Further properties, continued, and their concrete instances        *)
(* ===================================================================== *)

(** X1.  For a non-empty mapping payload with distinct keys, whose longest
    sequence is non-empty or which holds sequences only, the dict handed to
    the frame constructor has the payload's keys, in order, and under each
    key the sequence padded with [None], or the scalar followed by [None]s,
    every column as long as the longest sequence; the frame has one column
    per key and as many rows as the longest sequence. *)
Theorem mapping_payload_columns (json_dumps : Py.json -> string) d :
  d <> [] ->
  NoDup (map fst d) ->
  1 <= FileHandlers.max_len d \/ all_sequences d ->
  FileHandlers.clean_columns d =
    map (fun kv => (fst kv,
                    expected_column (Z.to_nat (FileHandlers.max_len d)) (snd kv)))
        d /\
  (forall kc, In kc (FileHandlers.clean_columns d) ->
              Py.py_len (snd kc) = FileHandlers.max_len d) /\
  exists df,
    FileHandlers.safe_json_to_df json_dumps (Py.JDict d) = Py.Ret df /\
    FileHandlers.columns df = map FileHandlers.LStr (map fst d) /\
    Py.py_len (FileHandlers.rows df) = FileHandlers.max_len d.
Proof.
  intros Hne Hnd Hok.
  destruct (mapping_payload_rows json_dumps d Hne Hnd Hok)
    as (df & Hdf & Hcols & Hrows & _).
  split; [exact (clean_columns_fresh d Hnd)|]. split.
  - intros kc Hkc. rewrite (clean_columns_fresh d Hnd) in Hkc.
    apply in_map_iff in Hkc. destruct Hkc as ([k v] & <- & Hin). simpl.
    unfold Py.py_len. rewrite (expected_column_length d k v Hin Hok).
    unfold Py.py_len in Hrows. lia.
  - exists df. auto.
Qed.

Lemma mapping_payload_columns_witness :
  let d := [("a", Py.JList [Py.JInt 1; Py.JInt 2]); ("b", Py.JList []);
            ("c", Py.JStr "k")] in
  FileHandlers.clean_columns d =
    [ ("a", [Py.JInt 1; Py.JInt 2]); ("b", [Py.JNull; Py.JNull]);
      ("c", [Py.JStr "k"; Py.JNull]) ] /\
  exists df,
    FileHandlers.safe_json_to_df Samples.dumps (Py.JDict d) = Py.Ret df /\
    FileHandlers.columns df =
      [FileHandlers.LStr "a"; FileHandlers.LStr "b"; FileHandlers.LStr "c"] /\
    Py.py_len (FileHandlers.rows df) = 2.
Proof.
  intros d.
  destruct (mapping_payload_columns Samples.dumps d)
    as (Hclean & _ & df & Hdf & Hcols & Hrows).
  - discriminate.
  - repeat constructor; simpl; intuition discriminate.
  - left. vm_compute. discriminate.
  - split; [rewrite Hclean; reflexivity|].
    exists df. split; [exact Hdf|]. split; [exact Hcols|exact Hrows].
Defined.

Lemma safe_json_only_failure_witness :
  FileHandlers.safe_json_to_df Samples.dumps
    (Py.JDict [("a", Py.JList []); ("b", Py.JInt 1)])
  = Py.Raise (Py.ValueError "All arrays must be of the same length").
Proof.
  apply (safe_json_only_failure Samples.dumps).
  - intros d H. inversion H. repeat constructor; simpl; intuition discriminate.
  - split; [reflexivity|].
    exists [("a", Py.JList []); ("b", Py.JInt 1)], "b", (Py.JInt 1).
    repeat split. right. left. reflexivity.
Defined.

Lemma sequence_cells_are_flat_witness :
  Py.is_dict (Py.JStr "[1, 2]") = false /\
  Py.is_list (Py.JStr "[1, 2]") = false.
Proof.
  refine (sequence_cells_are_flat Samples.dumps
            [ Py.JDict [("a", Py.JList [Py.JInt 1; Py.JInt 2])]; Py.JInt 7 ]
            _ eq_refl _
            [Py.JStr "[1, 2]"; FileHandlers.NaN] (Py.JStr "[1, 2]") _ _).
  - intros item [<-|[<-|[]]]; reflexivity.
  - left. reflexivity.
  - left. reflexivity.
Defined.

(** X6.  On a tree that holds no array without dimension the sanitizer
    returns, and what it returns is the tree with every instance of
    [np.integer], [np.floating] and [np.bool_] made the [int], [float] or
    [bool] of its value, every array made a list, [np.nan] made [None],
    tuples made lists, and everything else, scalars of other numpy classes
    included, as it was. *)
Theorem sanitize_without_0d_arrays v :
  dimensioned v = true ->
  exists v', MongoSanitize.sanitize_for_mongo v = Py.Ret v' /\ Sanitized v v'.
Proof. exact (sanitize_dimensioned v). Qed.

Lemma sanitize_without_0d_arrays_witness :
  exists v',
    MongoSanitize.sanitize_for_mongo
      (MongoSanitize.VDict
         [ (MongoSanitize.VStr "n", MongoSanitize.NpInteger 4);
           (MongoSanitize.VStr "xs",
            MongoSanitize.NdArray [MongoSanitize.NpFloating (Py.FFin 3 (-1));
                                   MongoSanitize.VNan]) ]) = Py.Ret v' /\
    v' = MongoSanitize.VDict
           [ (MongoSanitize.VStr "n", MongoSanitize.VInt 4);
             (MongoSanitize.VStr "xs",
              MongoSanitize.VList [MongoSanitize.VFloat (Py.FFin 3 (-1));
                                   MongoSanitize.VNone]) ].
Proof.
  destruct (sanitize_without_0d_arrays
              (MongoSanitize.VDict
                 [ (MongoSanitize.VStr "n", MongoSanitize.NpInteger 4);
                   (MongoSanitize.VStr "xs",
                    MongoSanitize.NdArray
                      [MongoSanitize.NpFloating (Py.FFin 3 (-1));
                       MongoSanitize.VNan]) ]) eq_refl) as (v' & Hv' & _).
  exists v'. split; [exact Hv'|]. inversion Hv'. reflexivity.
Defined.

Lemma sanitize_result_is_native_and_stable_witness :
  native (MongoSanitize.VList [MongoSanitize.VInt 1; MongoSanitize.VNone]) = true /\
  MongoSanitize.sanitize_for_mongo
    (MongoSanitize.VList [MongoSanitize.VInt 1; MongoSanitize.VNone])
  = Py.Ret (MongoSanitize.VList [MongoSanitize.VInt 1; MongoSanitize.VNone]).
Proof.
  exact (sanitize_result_is_native_and_stable
           (MongoSanitize.VTuple [MongoSanitize.NpInteger 1; MongoSanitize.VNan])
           _ eq_refl).
Defined.

Lemma sanitize_raises_only_for_0d_witness :
  MongoSanitize.not_iterable = MongoSanitize.not_iterable /\
  dimensioned
    (MongoSanitize.VList [MongoSanitize.NdArray0 (MongoSanitize.VInt 5)]) = false.
Proof.
  exact (sanitize_raises_only_for_0d
           (MongoSanitize.VList [MongoSanitize.NdArray0 (MongoSanitize.VInt 5)])
           _ eq_refl).
Defined.

Lemma sanitize_keeps_shape_witness :
  exists d',
    MongoSanitize.VDict [(MongoSanitize.NpInteger 1, MongoSanitize.VInt 2)]
    = MongoSanitize.VDict d' /\
    map fst d' = [MongoSanitize.NpInteger 1].
Proof.
  exact (sanitize_keeps_shape
           (MongoSanitize.VDict
              [(MongoSanitize.NpInteger 1, MongoSanitize.NpInteger 2)])
           _ eq_refl).
Defined.

Lemma diff_swaps_added_and_removed_witness :
  exists d d',
    SchemaDiff.compare_schemas Samples.str Samples.newest_first
      (Some Samples.schema_v1) Samples.schema_v2 = Py.Ret d /\
    SchemaDiff.compare_schemas Samples.str Samples.newest_first
      (Some Samples.schema_v2) Samples.schema_v1 = Py.Ret d' /\
    SchemaDiff.added d = SchemaDiff.removed d' /\
    SchemaDiff.removed d = SchemaDiff.added d' /\
    SchemaDiff.added_fields d = SchemaDiff.removed_fields d' /\
    SchemaDiff.removed_fields d = SchemaDiff.added_fields d' /\
    SchemaDiff.old_count d = SchemaDiff.new_count d' /\
    SchemaDiff.new_count d = SchemaDiff.old_count d'.
Proof.
  refine (diff_swaps_added_and_removed Samples.str Samples.newest_first
            newest_first_perm Samples.schema_v1 Samples.schema_v2 _ _
            eq_refl eq_refl _ _); repeat constructor.
Defined.

Lemma diff_counts_add_up_witness :
  exists d shared,
    SchemaDiff.compare_schemas Samples.str Samples.newest_first
      (Some Samples.nameless) Samples.schema_v2 = Py.Ret d /\
    NoDup shared /\
    (forall k, In k shared <->
               In k [Py.JStr "unknown"; Py.JStr "a"] /\
               In k [Py.JStr "a"; Py.JStr "b"]) /\
    SchemaDiff.old_count d = Py.py_len (SchemaDiff.removed d) + Py.py_len shared /\
    SchemaDiff.new_count d = Py.py_len (SchemaDiff.added d) + Py.py_len shared /\
    SchemaDiff.old_count d = 2 /\
    SchemaDiff.new_count d = 2 /\
    Py.py_len (SchemaDiff.changed d) <= Py.py_len shared.
Proof.
  refine (diff_counts_add_up Samples.str Samples.newest_first
            newest_first_perm (Some Samples.nameless) Samples.schema_v2 _ _
            eq_refl eq_refl _ _); repeat constructor.
Defined.

Lemma legacy_form_canonicalizes_witness :
  SchemaDiff.fields_or_empty Samples.str
    (Some [ ("fields",
             Py.JDict [ ("a", Py.JDict [("name", Py.JStr "x");
                                        ("type", Py.JStr "integer")]);
                        ("b", Py.JStr "string") ]) ])
  = Py.Ret
      [ (Py.JStr "a", [("name", Py.JStr "a"); ("type", Py.JStr "integer")]);
        (Py.JStr "b", [("name", Py.JStr "b"); ("type", Py.JStr "string")]) ].
Proof.
  refine (proj1 (legacy_form_canonicalizes Samples.str
                   [ ("fields",
                      Py.JDict [ ("a", Py.JDict [("name", Py.JStr "x");
                                                 ("type", Py.JStr "integer")]);
                                 ("b", Py.JStr "string") ]) ]
                   [ ("a", Py.JDict [("name", Py.JStr "x");
                                     ("type", Py.JStr "integer")]);
                     ("b", Py.JStr "string") ]
                   eq_refl _ _)).
  - discriminate.
  - repeat constructor; simpl; intuition discriminate.
Defined.

Lemma last_descriptor_wins_witness :
  SchemaDiff.fields_get (Py.JStr "a")
    [ (Py.JStr "a", [("name", Py.JStr "a"); ("type", Py.JStr "float")]);
      (Py.JStr "b", [("name", Py.JStr "b")]) ]
  = Some [("name", Py.JStr "a"); ("type", Py.JStr "float")].
Proof.
  refine (last_descriptor_wins Samples.str
            [ ("fields",
               Py.JList [ Py.JDict [("name", Py.JStr "a");
                                    ("type", Py.JStr "integer")];
                          Py.JDict [("name", Py.JStr "b")];
                          Py.JDict [("name", Py.JStr "a");
                                    ("type", Py.JStr "float")] ]) ]
            _ _ "a" eq_refl _ _ eq_refl).
  - discriminate.
  - simpl. intros f Hf.
    repeat (destruct Hf as [<-|Hf]; [reflexivity|]). contradiction.
Defined.

Lemma representations_agree_witness :
  SchemaDiff.compare_schemas Samples.str Samples.newest_first
    (Some (list_form [("a", "integer", false); ("b", "string", true)]))
    (dict_form [("a", "integer", false); ("b", "string", true)])
  = Py.Ret (SchemaDiff.mkDiff [] [] [] [] [] 2 2).
Proof.
  refine (proj1 (representations_agree Samples.str Samples.newest_first
                   newest_first_perm
                   [("a", "integer", false); ("b", "string", true)] _ _ _)).
  - discriminate.
  - repeat constructor; simpl; intuition discriminate.
  - intros ntb [<-|[<-|[]]]; discriminate.
Defined.

Lemma canonicalization_failure_witness :
  exists fields,
    SchemaDiff._extract_fields_from_schema Samples.str
      [("fields", Py.JDict [("a", Py.JInt 1)])] = Py.Ret fields.
Proof.
  refine (proj2 (canonicalization_failure Samples.str
                   [("fields", Py.JDict [("a", Py.JInt 1)])])
                [("a", Py.JInt 1)] eq_refl _).
  discriminate.
Defined.

Lemma canonical_form_invariant_witness :
  keys_apart [Py.JStr "a"; Py.JStr "b"] /\
  Forall (fun k => Py.hashable k = true) [Py.JStr "a"; Py.JStr "b"] /\
  (forall k f,
      In (k, f)
         [ (Py.JStr "a", [("name", Py.JStr "a"); ("type", Py.JStr "float")]);
           (Py.JStr "b", [("name", Py.JStr "b"); ("type", Py.JStr "string");
                          ("nullable", Py.JBool true)]) ] ->
      self_equal k ->
      SchemaDiff.fields_get k
        [ (Py.JStr "a", [("name", Py.JStr "a"); ("type", Py.JStr "float")]);
          (Py.JStr "b", [("name", Py.JStr "b"); ("type", Py.JStr "string");
                         ("nullable", Py.JBool true)]) ] = Some f).
Proof.
  exact (canonical_form_invariant Samples.str (Some Samples.schema_v2) _ eq_refl).
Defined.

Lemma empty_extraction_short_circuits_witness :
  DynamicEtl.body (Worlds.world (Some []) Worlds.files_as_3)
    "/tmp/tmp0.json" "orders" ([], [])
  = (Py.Ret (DynamicEtl.empty_result (MongoSanitize.VList [])), ([], [])).
Proof.
  exact (empty_extraction_short_circuits
           (Worlds.world (Some []) Worlds.files_as_3)
           "/tmp/tmp0.json" "orders" (Some []) _ ([], []) _ eq_refl eq_refl).
Defined.

Lemma tracked_descriptor_is_reported_witness :
  exists d,
    DynamicEtl.body (Worlds.world (Some Worlds.one_row) Worlds.files_as_3)
      "/tmp/tmp0.json" "orders" ([], [])
    = (Py.Ret d, ([], [(Py.INFO, "Schema version 3 tracked for orders")])) /\
    In ("schema_version", MongoSanitize.NpInteger 3) d /\
    In ("schema",
        MongoSanitize.VDict
          [ (MongoSanitize.VStr "fields", MongoSanitize.VList []);
            (MongoSanitize.VStr "version", MongoSanitize.VInt 3) ]) d.
Proof.
  eexists. split.
  - exact (tracked_descriptor_is_reported
             (Worlds.world (Some Worlds.one_row) Worlds.files_as_3)
             "/tmp/tmp0.json" "orders" Worlds.one_row _ Worlds.one_row [] _ _
             _ _ ([], []) ([], []) ([], []) ([], []) ([], [])
             eq_refl eq_refl eq_refl eq_refl eq_refl eq_refl eq_refl).
  - split; simpl; auto 10.
Defined.

Lemma tracker_returning_no_dict_raises_witness :
  DynamicEtl.body (Worlds.world (Some Worlds.one_row) Worlds.answers_none)
    "/tmp/tmp0.json" "orders" ([], [])
  = (Py.Raise (Py.AttributeError "object has no attribute 'get'"),
     ([], [(Py.WARNING,
            "Schema evolution tracking failed: object has no attribute 'get'")])).
Proof.
  exact (tracker_returning_no_dict_raises
           (Worlds.world (Some Worlds.one_row) Worlds.answers_none)
           "/tmp/tmp0.json" "orders" Worlds.one_row _ Worlds.one_row [] _
           MongoSanitize.VNone _ _
           ([], []) ([], []) ([], []) ([], []) ([], []) _
           eq_refl eq_refl eq_refl eq_refl eq_refl eq_refl eq_refl eq_refl).
Defined.

Lemma returned_dict_is_consistent_witness :
  let d := match fst (DynamicEtl.run_dynamic_etl_bytes Samples.broken_store
                        "[{'a': 1}]" "orders 2024.json" None ([], [])) with
           | Py.Ret d => d
           | Py.Raise _ => []
           end in
  (exists records,
      In ("structured_data", MongoSanitize.VList records) d /\
      In ("row_count", MongoSanitize.VInt (Py.py_len records)) d) /\
  (map fst d = ["structured_data"; "schema"; "row_count"; "cleaning_stats";
                "parsed_fragments"] \/
   map fst d = ["structured_data"; "schema"; "row_count"; "cleaning_stats";
                "parsed_fragments"; "source_id"; "schema_version"] /\
   exists stats n,
     In ("cleaning_stats", MongoSanitize.VDict stats) d /\
     DynamicEtl.vdict_get "nullsRemoved" stats = Some (MongoSanitize.VInt n) /\
     0 <= n).
Proof.
  exact (returned_dict_is_consistent Samples.broken_store
           "[{'a': 1}]" "orders 2024.json" None ([], []) _ _ eq_refl).
Defined.

Section RecordsMore.
Import Py MongoSanitize DynamicEtl.
Context {W DF : Type} (E : Env W DF).

(** X23.  A record comes out of [sanitize_record] cell by cell, with its
    keys unchanged and in order: a cell pandas calls missing becomes
    [None]; any other cell becomes what the sanitizer returns for it, which
    holds nothing the sanitizer replaces. *)
Theorem sanitize_record_cellwise record record' :
  sanitize_record E record = Ret record' ->
  Forall2 (fun kv kv' =>
             fst kv' = fst kv /\
             (isna_truth E (snd kv) = Ret true /\ snd kv' = VNone \/
              isna_truth E (snd kv) = Ret false /\
              sanitize_for_mongo (snd kv) = Ret (snd kv') /\
              native (snd kv') = true))
          record record'.
Proof.
  unfold sanitize_record. revert record'.
  induction record as [|[k v] record IH]; intros record'; simpl.
  - intros H. inversion H. constructor.
  - destruct (isna_truth E v) as [[|]|e] eqn:Hna; try discriminate.
    + destruct (mapM _ record) as [r|e] eqn:Hr; [|discriminate].
      intros H. inversion H; subst. constructor; [|exact (IH r eq_refl)].
      simpl. split; [reflexivity|]. left. split; [exact Hna|reflexivity].
    + destruct (sanitize_for_mongo v) as [w|e] eqn:Hw; [|discriminate].
      destruct (mapM _ record) as [r|e] eqn:Hr; [|discriminate].
      intros H. inversion H; subst. constructor; [|exact (IH r eq_refl)].
      simpl. split; [reflexivity|]. right.
      split; [exact Hna|]. split; [exact Hw|exact (sanitize_native v w Hw)].
Qed.

End RecordsMore.

Lemma sanitize_record_cellwise_witness :
  Forall2 (fun kv kv' =>
             fst kv' = fst kv /\
             (DynamicEtl.isna_truth Samples.broken_store (snd kv) = Py.Ret true /\
              snd kv' = MongoSanitize.VNone \/
              DynamicEtl.isna_truth Samples.broken_store (snd kv) = Py.Ret false /\
              MongoSanitize.sanitize_for_mongo (snd kv) = Py.Ret (snd kv') /\
              native (snd kv') = true))
          [ (MongoSanitize.VStr "a", MongoSanitize.NpInteger 1);
            (MongoSanitize.VStr "b", MongoSanitize.NpFloating Py.FNan) ]
          [ (MongoSanitize.VStr "a", MongoSanitize.VInt 1);
            (MongoSanitize.VStr "b", MongoSanitize.VNone) ].
Proof.
  exact (sanitize_record_cellwise Samples.broken_store
           [ (MongoSanitize.VStr "a", MongoSanitize.NpInteger 1);
             (MongoSanitize.VStr "b", MongoSanitize.NpFloating Py.FNan) ]
           _ eq_refl).
Defined.
